(** * jspcap / pcapkit protocol decoders: ARP family, Internet-layer dispatch
      and HTTP/1.x, embedded from the Python sources.

    - [pcapkit/protocols/link/arp.py]            : Module [ARP]
    - [dev/jspcap/protocols/internet/internet.py] : Module [Internet]
    - [src/protocols/application/httpv1.py]       : Module [HTTPv1]

    Python [bytes] are lists of [byte]; Python [str] are lists of Unicode code
    points; file objects are a buffer with a read position; exceptions are
    the left side of a sum. *)

From Stdlib Require Import List ZArith NArith Lia Bool Arith.
From Stdlib Require Import Strings.String Strings.Ascii Strings.Byte.
From Stdlib Require Import Numbers.DecimalString.
Import ListNotations.

Local Open Scope Z_scope.

(* ------------------------------------------------------------------ *)
(** ** Bytes, exceptions and the file cursor *)

Definition bytes := list byte.

(** A bytes literal [b'...'] whose characters are all ASCII. *)
Definition B (s : string) : bytes := list_byte_of_string s.

Definition byte_val (b : byte) : Z := Z.of_N (Byte.to_N b).

(** The exceptions the decoders can let escape. *)
Inductive exn : Type :=
| ProtocolError (msg : string)   (* jspcap.exceptions.ProtocolError *)
| UnexpectedEnd                  (* cursor exhausted mid-field *)
| UnicodeDecodeError             (* bytes.decode() on ill-formed UTF-8 *)
| ValueError (msg : string)      (* int() on a non-numeral, ip_address() *)
| LookupError (msg : string)     (* bytes.decode(name): no codec of that name *)
| TypeError (msg : string).      (* re.match() on a value that is no text *)

Inductive result (A : Type) : Type :=
| Ok (a : A)
| Raise (e : exn).
Arguments Ok {A} a.
Arguments Raise {A} e.

(** [io.BytesIO]: the whole buffer and the current offset. *)
Record BytesIO : Type := mkBytesIO { buffer : bytes; position : nat }.

Definition unread (f : BytesIO) : bytes := skipn (position f) (buffer f).

Definition remaining (f : BytesIO) : nat := List.length (unread f).

Definition advance (n : nat) (f : BytesIO) : BytesIO :=
  mkBytesIO (buffer f) (position f + n).

Definition open_bytes (b : bytes) : BytesIO := mkBytesIO b 0.

(** Decoder methods run against [self._file]: a state-and-exception monad. *)
Definition M (A : Type) : Type := BytesIO -> result (A * BytesIO).

Definition ret {A} (a : A) : M A := fun f => Ok (a, f).

Definition raise {A} (e : exn) : M A := fun _ => Raise e.

Definition bind {A B} (m : M A) (k : A -> M B) : M B :=
  fun f => match m f with
           | Ok (a, f') => k a f'
           | Raise e => Raise e
           end.

(** A computation that may raise but does not touch the file. *)
Definition lift {A} (r : result A) : M A :=
  fun f => match r with
           | Ok a => Ok (a, f)
           | Raise e => Raise e
           end.

Declare Scope io_scope.
Delimit Scope io_scope with io.
Notation "x <- m ;; k" := (bind m (fun x => k))
  (at level 61, m at next level, right associativity) : io_scope.
Notation "' p <- m ;; k" := (bind m (fun p => k))
  (at level 61, p pattern, m at next level, right associativity) : io_scope.

(** Python's [file.read(n)] on a [BytesIO]: at most [n] octets, fewer at the
    end of the buffer, never an error. *)
Definition file_read (n : nat) : M bytes :=
  fun f => Ok (firstn n (unread f), advance (Nat.min n (remaining f)) f).

(** Python's [file.read()] : everything that is left. *)
Definition file_read_all : M bytes :=
  fun f => Ok (unread f, advance (remaining f) f).

(** Modelled from the spec: [Protocol._read_fileng], absent from the sources;
    the cursor contract "read(n) returns exactly n octets or fails with
    UnexpectedEnd when fewer remain; advances position by n". *)
Definition _read_fileng (n : nat) : M bytes :=
  fun f => if (n <=? remaining f)%nat
           then Ok (firstn n (unread f), advance n f)
           else Raise UnexpectedEnd.

(** Big-endian unsigned value of an octet string. *)
Definition be_uint (b : bytes) : Z :=
  fold_left (fun acc x => acc * 256 + byte_val x) b 0.

(** Modelled from the spec: [Protocol._read_unpack], absent from the sources;
    "read_uint(n) returns the big-endian unsigned integer value of the next n
    octets; fails with UnexpectedEnd identically". *)
Definition _read_unpack (size : nat) : M Z :=
  (b <- _read_fileng size ;; ret (be_uint b))%io.

(* ------------------------------------------------------------------ *)
(** ** Text helpers shared by the decoders *)

Definition hex_digit (n : N) : ascii :=
  match n with
  | 0 => "0" | 1 => "1" | 2 => "2" | 3 => "3" | 4 => "4" | 5 => "5"
  | 6 => "6" | 7 => "7" | 8 => "8" | 9 => "9" | 10 => "a" | 11 => "b"
  | 12 => "c" | 13 => "d" | 14 => "e" | _ => "f"
  end%N%char.

(** [bytes.hex()]: two lowercase hexadecimal digits per octet. *)
Fixpoint bytes_hex (b : bytes) : string :=
  match b with
  | [] => EmptyString
  | x :: r =>
      String (hex_digit (Byte.to_N x / 16))
        (String (hex_digit (Byte.to_N x mod 16)) (bytes_hex r))
  end.

(** [textwrap.wrap(text, 2)] on a text without white space (the output of
    [hex()]): a single long word, broken every two characters. *)
Fixpoint textwrap_wrap2 (s : string) : list string :=
  match s with
  | EmptyString => []
  | String a EmptyString => [String a EmptyString]
  | String a (String c r) => String a (String c EmptyString) :: textwrap_wrap2 r
  end.

(** [f'{n}'] for an integer. *)
Definition format_int (n : Z) : string :=
  NilZero.string_of_int (Z.to_int n).

Definition lower_ascii (a : ascii) : ascii :=
  let n := nat_of_ascii a in
  if ((65 <=? n) && (n <=? 90))%nat then ascii_of_nat (n + 32) else a.

Fixpoint lower (s : string) : string :=
  match s with
  | EmptyString => EmptyString
  | String a r => String (lower_ascii a) (lower r)
  end.

(** The part of a text before its first newline. *)
Fixpoint first_line (s : string) : string :=
  match s with
  | EmptyString => EmptyString
  | String a r => if Ascii.eqb a "010"%char then EmptyString
                  else String a (first_line r)
  end.

Fixpoint has_prefix (p s : string) : bool :=
  match p, s with
  | EmptyString, _ => true
  | String a p', String c s' => Ascii.eqb a c && has_prefix p' s'
  | String _ _, EmptyString => false
  end.

Fixpoint has_substring (p s : string) : bool :=
  has_prefix p s ||
  match s with
  | EmptyString => false
  | String _ r => has_substring p r
  end.

(** [re.match(r'.*Ethernet.*', name, re.IGNORECASE)]: [.] does not cross a
    newline and [match] anchors at the start, so the pattern succeeds exactly
    when the first line of [name] contains "ethernet" in some letter case. *)
Definition re_match_ethernet (name : string) : bool :=
  has_substring "ethernet" (lower (first_line name)).

(* ------------------------------------------------------------------ *)
(** ** pcapkit/protocols/link/arp.py *)

Module ARP.
Local Open Scope io_scope.

(** A hardware or protocol address as the decoder emits it. *)
Inductive address : Type :=
| MacText (s : string)        (* ':'-joined hex text *)
| RawBytes (b : bytes)        (* undecoded octets *)
| IPv4Address (packed : bytes)
| IPv6Address (packed : bytes).

(** [ipaddress.ip_address(packed)] for a bytes argument. *)
Definition ip_address (packed : bytes) : M address :=
  if (List.length packed =? 4)%nat then ret (IPv4Address packed)
  else if (List.length packed =? 16)%nat then ret (IPv6Address packed)
  else raise (ValueError "does not appear to be an IPv4 or IPv6 address").

Definition mac_text (b : bytes) : string :=
  String.concat ":" (textwrap_wrap2 (bytes_hex b)).

(** [ARP._read_addr_resolve] (arp.py 278-295). *)
Definition _read_addr_resolve (length : Z) (htype : Z) : M address :=
  if htype =? 1 then
    _byte <- _read_fileng 6 ;;
    ret (MacText (mac_text _byte))
  else
    _addr <- _read_fileng (Z.to_nat length) ;;
    ret (RawBytes _addr).

(** [ARP._read_proto_resolve] (arp.py 297-315). *)
Definition _read_proto_resolve (length : Z) (ptype : Z) : M address :=
  if ptype =? 0x0800 then
    b <- _read_fileng 4 ;; ip_address b
  else if ptype =? 0x86dd then
    b <- _read_fileng 16 ;; ip_address b
  else
    b <- _read_fileng (Z.to_nat length) ;; ret (RawBytes b).

(** The acronym and name chosen from the operation code (arp.py 202-213). *)
Definition variant (_oper : Z) : string * string :=
  if (_oper =? 5) || (_oper =? 6) || (_oper =? 7) then
    ("DRARP", "Dynamic Reverse Address Resolution Protocol")%string
  else if (_oper =? 8) || (_oper =? 9) then
    ("InARP", "Inverse Address Resolution Protocol")%string
  else if (_oper =? 3) || (_oper =? 4) then
    ("RARP", "Reverse Address Resolution Protocol")%string
  else
    ("ARP", "Address Resolution Protocol")%string.

(** What the [get] of a vendor table hands back.  The docstring of
    [read_arp] types [htype] as [Hardware], a member of one of the
    enumerations of [pcapkit.const], which has a name and is a number; a
    plain text is the other form an entry can take. *)
Inductive entry : Type :=
| Member (name : string) (value : Z)
| Text (s : string).

(** [re.match(r'.*Ethernet.*', x, re.IGNORECASE)] as a truth value
    (arp.py 216).  [re.match] takes a text: on any other value it raises
    [TypeError]. *)
Definition re_match_ethernet_in (x : entry) : result bool :=
  match x with
  | Text s => Ok (re_match_ethernet s)
  | Member _ _ => Raise (TypeError "expected string or bytes-like object")
  end.

(** The locals of [read_arp] once arp.py 192-213 have run, with the two
    attributes [self._acnm] and [self._name] these lines set. *)
Record arp_fields : Type := mk_fields {
  _hwty : Z;
  _ptty : Z;
  _hlen : Z;
  _plen : Z;
  _oper : Z;
  _shwa : address;
  _spta : address;
  _thwa : address;
  _tpta : address;
  self_acnm : string;
  self_name : string
}.

(** arp.py 192-213: the five numbers, the four addresses and the variant. *)
Definition read_arp_fields : M arp_fields :=
  _hwty <- _read_unpack 2 ;;
  _ptty <- _read_unpack 2 ;;
  _hlen <- _read_unpack 1 ;;
  _plen <- _read_unpack 1 ;;
  _oper <- _read_unpack 2 ;;
  _shwa <- _read_addr_resolve _hlen _hwty ;;
  _spta <- _read_proto_resolve _plen _ptty ;;
  _thwa <- _read_addr_resolve _hlen _hwty ;;
  _tpta <- _read_proto_resolve _plen _ptty ;;
  let '(acnm, name) := variant _oper in
  ret (mk_fields _hwty _ptty _hlen _plen _oper _shwa _spta _thwa _tpta
         acnm name).

Section Decoder.
(** The vendor registries ([pcapkit.const]) and the base-class helpers
    ([pcapkit.protocols.protocol]) are not among the sources: they are
    parameters of the decoder.  A lookup yields an entry or raises. *)
Variable EtherType : Type.
Variable Operation : Type.
Variable Packet : Type.
Variable Decoded : Type.
Variable HRD_get : Z -> result entry.
Variable ETHERTYPE_get : Z -> result EtherType.
Variable OPER_get : Z -> result Operation.
Variable len_self : BytesIO -> Z.
Variable _read_packet : Z -> Z -> M Packet.

(** [ptype: Union[EtherType, str]]. *)
Inductive ptype_value : Type :=
| PtypeEnum (e : EtherType)
| PtypeText (s : string).

(** The [arp] dict of [read_arp], in insertion order. *)
Record arp_dict : Type := mk_arp {
  htype : entry;
  ptype : ptype_value;
  hlen : Z;
  plen : Z;
  oper : Operation;
  sha : address;
  spa : address;
  tha : address;
  tpa : address;
  len : Z
}.

(** The instance attributes [read_arp] sets, with the dict it has built. *)
Record arp_state : Type := mk_state {
  _acnm : string;
  _name : string;
  arp : arp_dict
}.

Variable _decode_next_layer :
  arp_dict * Packet -> option EtherType -> Z -> M Decoded.

(** arp.py 215-232: the registry entries and the [arp] dict, built from the
    locals.  The keyword arguments of [dict(...)] are evaluated in the order
    they are written, so [OPER.get] comes after the two other lookups. *)
Definition build_arp (fs : arp_fields) : M arp_state :=
  _htype <- lift (HRD_get (_hwty fs)) ;;
  ethernet <- lift (re_match_ethernet_in _htype) ;;
  _ptype <- (if ethernet : bool
             then e <- lift (ETHERTYPE_get (_ptty fs)) ;; ret (PtypeEnum e)
             else ret (PtypeText
                         ("Unknown [" ++ format_int (_ptty fs) ++ "]"))) ;;
  op <- lift (OPER_get (_oper fs)) ;;
  ret (mk_state (self_acnm fs) (self_name fs)
         (mk_arp _htype _ptype (_hlen fs) (_plen fs) op
                 (_shwa fs) (_spta fs) (_thwa fs) (_tpta fs)
                 (8 + _hlen fs * 2 + _plen fs * 2))).

(** [ARP.read_arp], arp.py 192-232: the header fields, the variant and the
    [arp] dict. *)
Definition read_arp_header : M arp_state :=
  fs <- read_arp_fields ;; build_arp fs.

(** [ARP.read_arp] (arp.py 128-237). *)
Definition read_arp (length : option Z) : M (arp_state * Decoded) :=
  fun f0 =>
    let length := match length with Some n => n | None => len_self f0 end in
    (st <- read_arp_header ;;
     let length := length - len (arp st) in
     packet <- _read_packet (len (arp st)) length ;;
     d <- _decode_next_layer (arp st, packet) None length ;;
     ret (st, d)) f0.

End Decoder.

Arguments PtypeEnum {EtherType} e.
Arguments PtypeText {EtherType} s.
Arguments htype {EtherType Operation} a.
Arguments ptype {EtherType Operation} a.
Arguments hlen {EtherType Operation} a.
Arguments plen {EtherType Operation} a.
Arguments oper {EtherType Operation} a.
Arguments sha {EtherType Operation} a.
Arguments spa {EtherType Operation} a.
Arguments tha {EtherType Operation} a.
Arguments tpa {EtherType Operation} a.
Arguments len {EtherType Operation} a.
Arguments _acnm {EtherType Operation} a.
Arguments _name {EtherType Operation} a.
Arguments arp {EtherType Operation} a.

(** Sample registries for the concrete scenarios: hardware type 1 and the
    EtherType table of [internet.py].  [enum_HRD] hands back enumeration
    members, as the docstring of [read_arp] types them; [sample_HRD] hands
    back the names as plain texts, as the scenarios of the specification
    write them. *)
Definition hardware_name (n : Z) : string :=
  if n =? 1 then "Ethernet" else ("Unassigned [" ++ format_int n ++ "]")%string.

Definition enum_HRD (n : Z) : result entry := Ok (Member (hardware_name n) n).

Definition sample_HRD (n : Z) : result entry := Ok (Text (hardware_name n)).

Definition ethertype_name (n : Z) : string :=
  if n =? 0x0806 then "ARP"
  else if n =? 0x8035 then "RARP"
  else if n =? 0x0800 then "IPv4"
  else if n =? 0x8137 then "IPX"
  else if n =? 0x86dd then "IPv6"
  else ("Unassigned [" ++ format_int n ++ "]")%string.

Definition sample_ETHERTYPE (n : Z) : result string := Ok (ethertype_name n).

Definition operation_name (n : Z) : string :=
  if n =? 1 then "REQUEST" else if n =? 2 then "REPLY"
  else ("Unassigned [" ++ format_int n ++ "]")%string.

Definition sample_OPER (n : Z) : result string := Ok (operation_name n).

(** Scenario S1: [0001 0800 0604 0001 aabbccddeeff 0a000001 000000000000
    0a000002]. *)
Definition s1_prefix (op : byte) : bytes :=
  [x00; x01; x08; x00; x06; x04; x00; op].

Definition s1_addresses : bytes :=
  [xaa; xbb; xcc; xdd; xee; xff; x0a; x00; x00; x01;
   x00; x00; x00; x00; x00; x00; x0a; x00; x00; x02].

Definition s1_bytes : bytes := s1_prefix x01 ++ s1_addresses.

(** Scenario S2: as S1 with [oper = 0008]. *)
Definition s2_bytes : bytes := s1_prefix x08 ++ s1_addresses.

(** The fixed prefix of the header as laid out on the wire, in the unread
    octets [u] of the file. *)
Definition wire_htype (u : bytes) : Z := be_uint (firstn 2 u).
Definition wire_ptype (u : bytes) : Z := be_uint (firstn 2 (skipn 2 u)).
Definition wire_hlen (u : bytes) : Z := be_uint (firstn 1 (skipn 4 u)).
Definition wire_plen (u : bytes) : Z := be_uint (firstn 1 (skipn 5 u)).
Definition wire_oper (u : bytes) : Z := be_uint (firstn 2 (skipn 6 u)).

(** The number of octets the decoder takes for one hardware address and for
    one protocol address. *)
Definition hw_width (htype hlen : Z) : nat :=
  if htype =? 1 then 6%nat else Z.to_nat hlen.

Definition proto_width (ptype plen : Z) : nat :=
  if ptype =? 0x0800 then 4%nat
  else if ptype =? 0x86dd then 16%nat
  else Z.to_nat plen.

(** Two lowercase hexadecimal digits. *)
Definition hex_octet (x : byte) : string :=
  String (hex_digit (Byte.to_N x / 16))
    (String (hex_digit (Byte.to_N x mod 16)) EmptyString).

(** A header with [htype = 1], [ptype = 0x0800], [hlen = 8], [plen = 6],
    [oper = 1] and 28 further octets [01 02 ... 1c]. *)
Definition odd_lengths_bytes : bytes :=
  [x00; x01; x08; x00; x08; x06; x00; x01;
   x01; x02; x03; x04; x05; x06; x07; x08; x09; x0a; x0b; x0c; x0d; x0e;
   x0f; x10; x11; x12; x13; x14; x15; x16; x17; x18; x19; x1a; x1b; x1c].

(** A header with [htype = 6] (not Ethernet), [ptype = 0x0800], [hlen = 2],
    [plen = 4], [oper = 2]. *)
Definition ieee802_bytes : bytes :=
  [x00; x06; x08; x00; x02; x04; x00; x02;
   x01; x02; x0a; x00; x00; x01; x03; x04; x0a; x00; x00; x02].

Definition sample_header : M (arp_state string string) :=
  read_arp_header string string sample_HRD sample_ETHERTYPE sample_OPER.

(** The header decoder over registries of enumeration members. *)
Definition enum_header : M (arp_state string string) :=
  read_arp_header string string enum_HRD sample_ETHERTYPE sample_OPER.

(** The value of a lowercase hexadecimal digit: the number below sixteen
    that [hex_digit] writes as [a], if there is one. *)
Definition hex_value (a : ascii) : option N :=
  List.find (fun n => Ascii.eqb (hex_digit n) a) (map N.of_nat (seq 0 16)).

(** The octets of a text of colon-joined hex pairs: the reading back of
    [mac_text]. *)
Fixpoint parse_mac (s : string) : option bytes :=
  match s with
  | EmptyString => Some []
  | String h (String l rest) =>
      match hex_value h, hex_value l with
      | Some hi, Some lo =>
          match Byte.of_N (hi * 16 + lo) with
          | Some x =>
              match rest with
              | EmptyString => Some [x]
              | String ":" rest' =>
                  match rest' with
                  | EmptyString => None
                  | _ => option_map (cons x) (parse_mac rest')
                  end
              | _ => None
              end
          | None => None
          end
      | _, _ => None
      end
  | _ => None
  end.

End ARP.

(* ------------------------------------------------------------------ *)
(** ** dev/jspcap/protocols/internet/internet.py *)

Module Internet.
Local Open Scope io_scope.

Section Dispatch.
(** [TP_PROTO] and the decoder classes imported by name live in modules
    that are not among the sources: they are parameters.  A decoder class
    applied to the file yields [next_.info, next_.protochain,
    next_.length]. *)
Variable Info : Type.
Variable ProtoChain : Type.
Variable TP_PROTO : Z -> option string.
Variables IPv4 IPv6 AH TCP UDP : M (Info * ProtoChain * Z).

(** What [_import_next_layer] returns: the triple of a decoded layer, or
    the pair [data, None] of the fall-through branch. *)
Inductive next_layer : Type :=
| Layer (info : Info) (protochain : ProtoChain) (length : Z)
| Undecoded (data : option bytes).

(** [Internet._read_protos] (internet.py 58-61); [dict.get] yields [None]
    for a missing key. *)
Definition _read_protos (size : nat) : M (option string) :=
  _byte <- _read_unpack size ;;
  ret (TP_PROTO _byte).

(** [proto == 'NAME'], where [proto] may be [None]. *)
Definition proto_is (proto : option string) (name : string) : bool :=
  match proto with
  | Some p => String.eqb p name
  | None => false
  end.

Definition instantiate (Protocol : M (Info * ProtoChain * Z)) : M next_layer :=
  '(info, chain, length) <- Protocol ;;
  ret (Layer info chain length).

(** [x or None] for bytes. *)
Definition bytes_or_None (b : bytes) : option bytes :=
  match b with [] => None | _ => Some b end.

(** [Internet._import_next_layer] (internet.py 67-82). *)
Definition _import_next_layer (proto : option string) : M next_layer :=
  if proto_is proto "IPv4" then instantiate IPv4
  else if proto_is proto "IPv6" then instantiate IPv6
  else if proto_is proto "AH" then instantiate AH
  else if proto_is proto "TCP" then instantiate TCP
  else if proto_is proto "UDP" then instantiate UDP
  else
    data <- file_read_all ;;
    ret (Undecoded (bytes_or_None data)).

End Dispatch.

Arguments Layer {Info ProtoChain} info protochain length.
Arguments Undecoded {Info ProtoChain} data.

(** The octets an undecoded payload stands for ([None] for none at all). *)
Definition payload_bytes (data : option bytes) : bytes :=
  match data with Some b => b | None => [] end.

(** Decoders for running the dispatch on a concrete file: none of them can
    succeed. *)
Definition no_decoder : M (unit * unit * Z) := raise UnexpectedEnd.

Definition sample_import (proto : option string) : M (next_layer unit unit) :=
  _import_next_layer unit unit no_decoder no_decoder no_decoder no_decoder
    no_decoder proto.

(** Whether [_import_next_layer] has a decoder class for the name. *)
Definition has_decoder (proto : option string) : bool :=
  proto_is proto "IPv4" || proto_is proto "IPv6" || proto_is proto "AH"
  || proto_is proto "TCP" || proto_is proto "UDP".

(** The module's [ETHERTYPE] dict (internet.py 30-39), in source order. *)
Definition ETHERTYPE : list (string * string) :=
  [("0806", "ARP"); ("8035", "RARP");
   ("0800", "IPv4"); ("8137", "IPX"); ("86dd", "IPv6")]%string.

(** [ETHERTYPE.get(key)]. *)
Fixpoint registry_get (table : list (string * string)) (key : string)
  : option string :=
  match table with
  | [] => None
  | (k, name) :: rest => if String.eqb key k then Some name
                         else registry_get rest key
  end.

End Internet.

(* ------------------------------------------------------------------ *)
(** ** Python text: [str], [bytes.decode], [str.strip], [str.replace], [int] *)

(** A Python [str]: its sequence of Unicode code points. *)
Definition str := list N.

(** A [str] literal whose characters are all ASCII. *)
Definition U (s : string) : str := map Byte.to_N (list_byte_of_string s).

Fixpoint str_eqb (a b : str) : bool :=
  match a, b with
  | [], [] => true
  | x :: a', y :: b' => N.eqb x y && str_eqb a' b'
  | _, _ => false
  end.

Definition is_cont (b : byte) : bool :=
  ((0x80 <=? Byte.to_N b) && (Byte.to_N b <=? 0xBF))%N.

Definition cont_bits (b : byte) : N := (Byte.to_N b - 0x80)%N.

(** [bytes.decode()] with the default codec (UTF-8, strict): shortest forms
    only, no surrogates, nothing above U+10FFFF.  [None] stands for
    [UnicodeDecodeError]. *)
Fixpoint utf8_decode (b : bytes) : option str :=
  match b with
  | [] => Some []
  | b0 :: r0 =>
      let n0 := Byte.to_N b0 in
      if (n0 <? 0x80)%N then option_map (cons n0) (utf8_decode r0)
      else if ((0xC2 <=? n0) && (n0 <=? 0xDF))%N then
        match r0 with
        | b1 :: r1 =>
            if is_cont b1
            then option_map (cons ((n0 - 0xC0) * 64 + cont_bits b1)%N)
                            (utf8_decode r1)
            else None
        | _ => None
        end
      else if ((0xE0 <=? n0) && (n0 <=? 0xEF))%N then
        match r0 with
        | b1 :: b2 :: r2 =>
            if is_cont b1 && is_cont b2
               && implb (n0 =? 0xE0)%N (0xA0 <=? Byte.to_N b1)%N
               && implb (n0 =? 0xED)%N (Byte.to_N b1 <=? 0x9F)%N
            then option_map
                   (cons ((n0 - 0xE0) * 4096 + cont_bits b1 * 64
                          + cont_bits b2)%N)
                   (utf8_decode r2)
            else None
        | _ => None
        end
      else if ((0xF0 <=? n0) && (n0 <=? 0xF4))%N then
        match r0 with
        | b1 :: b2 :: b3 :: r3 =>
            if is_cont b1 && is_cont b2 && is_cont b3
               && implb (n0 =? 0xF0)%N (0x90 <=? Byte.to_N b1)%N
               && implb (n0 =? 0xF4)%N (Byte.to_N b1 <=? 0x8F)%N
            then option_map
                   (cons ((n0 - 0xF0) * 262144 + cont_bits b1 * 4096
                          + cont_bits b2 * 64 + cont_bits b3)%N)
                   (utf8_decode r3)
            else None
        | _ => None
        end
      else None
  end.

Definition decode (b : bytes) : result str :=
  match utf8_decode b with
  | Some s => Ok s
  | None => Raise UnicodeDecodeError
  end.

(** [str.isspace] for one character. *)
Definition py_isspace (c : N) : bool :=
  (((0x09 <=? c) && (c <=? 0x0D)) || ((0x1C <=? c) && (c <=? 0x20))
   || (c =? 0x85) || (c =? 0xA0) || (c =? 0x1680)
   || ((0x2000 <=? c) && (c <=? 0x200A))
   || (c =? 0x2028) || (c =? 0x2029) || (c =? 0x202F) || (c =? 0x205F)
   || (c =? 0x3000))%N.

Fixpoint lstrip (s : str) : str :=
  match s with
  | [] => []
  | c :: r => if py_isspace c then lstrip r else s
  end.

Definition rstrip (s : str) : str := rev (lstrip (rev s)).

(** [str.strip()]. *)
Definition strip (s : str) : str := rstrip (lstrip s).

Fixpoint startswith (p s : str) : bool :=
  match p, s with
  | [], _ => true
  | x :: p', y :: s' => N.eqb x y && startswith p' s'
  | _ :: _, [] => false
  end.

(** [s.replace(old, new)] for a non-empty [old]: the occurrences of [old]
    are found from left to right without overlap.  [skip] counts the
    characters of the occurrence just replaced that are still to be passed
    over. *)
Fixpoint replace_from (old new : str) (skip : nat) (s : str) : str :=
  match s with
  | [] => []
  | c :: r =>
      match skip with
      | S k => replace_from old new k r
      | O => if startswith old s
             then new ++ replace_from old new (Nat.pred (List.length old)) r
             else c :: replace_from old new 0 r
      end
  end.

Definition replace (old new s : str) : str := replace_from old new 0 s.

(** [old in s]. *)
Fixpoint contains (old s : str) : bool :=
  startswith old s ||
  match s with
  | [] => false
  | _ :: r => contains old r
  end.

Section PyInt.
(** The decimal value of a non-ASCII decimal digit (the Unicode database),
    a parameter. *)
Variable unicode_decimal : N -> option Z.

(** White space that [int] drops at both ends: the ASCII blanks, and the
    non-ASCII Unicode spaces (which it first turns into blanks). *)
Definition int_space (c : N) : bool :=
  (((0x09 <=? c) && (c <=? 0x0D)) || (c =? 0x20)
   || ((127 <=? c) && py_isspace c))%N.

Definition digit_value (c : N) : option Z :=
  if ((48 <=? c) && (c <=? 57))%N then Some (Z.of_N c - 48)
  else if (c <? 128)%N || int_space c then None
  else unicode_decimal c.

Fixpoint int_lstrip (s : str) : str :=
  match s with
  | [] => []
  | c :: r => if int_space c then int_lstrip r else s
  end.

(** Digits with single underscores between them. *)
Fixpoint int_digits (acc : Z) (after_digit : bool) (s : str) : option Z :=
  match s with
  | [] => if after_digit then Some acc else None
  | c :: r =>
      if (c =? 95)%N then
        if after_digit then int_digits acc false r else None
      else match digit_value c with
           | Some d => int_digits (10 * acc + d) true r
           | None => None
           end
  end.

(** [int(s)] for a [str] in base 10 ([None] stands for [ValueError]; the
    interpreter's optional limit on the number of digits is left out). *)
Definition py_int (s : str) : option Z :=
  match rev (int_lstrip (rev (int_lstrip s))) with
  | 43%N :: r => int_digits 0 false r
  | 45%N :: r => option_map Z.opp (int_digits 0 false r)
  | t => int_digits 0 false t
  end.
End PyInt.

(* ------------------------------------------------------------------ *)
(** ** Python values and dicts *)

#[warnings="-register-all"]
Inductive value : Type :=
| VNone
| VStr (s : str)
| VInt (z : Z)
| VBytes (b : bytes)
| VTuple (items : list value)
| VDict (entries : list (str * value)).

(** A [dict] in insertion order. *)
Definition dict := list (str * value).

Fixpoint dict_get (k : str) (d : dict) : option value :=
  match d with
  | [] => None
  | (k', v) :: r => if str_eqb k k' then Some v else dict_get k r
  end.

(** [d[k] = v]: an existing key keeps its place, a new one goes last. *)
Fixpoint dict_set (k : str) (v : value) (d : dict) : dict :=
  match d with
  | [] => [(k, v)]
  | (k', v') :: r => if str_eqb k k' then (k', v) :: r
                     else (k', v') :: dict_set k v r
  end.

(** Attribute / item access along a path, as in [info.header.request.method]. *)
Fixpoint lookup (path : list str) (v : value) : option value :=
  match path with
  | [] => Some v
  | k :: rest =>
      match v with
      | VDict d => match dict_get k d with
                   | Some v' => lookup rest v'
                   | None => None
                   end
      | _ => None
      end
  end.

(** Truth value of an object. *)
Definition truthy (v : value) : bool :=
  match v with
  | VNone | VStr [] | VBytes [] | VTuple [] | VDict [] => false
  | VInt z => negb (z =? 0)
  | _ => true
  end.

(** [x or None]. *)
Definition or_None (v : value) : value := if truthy v then v else VNone.

(* ------------------------------------------------------------------ *)
(** ** src/protocols/application/httpv1.py *)

Module HTTPv1.

(** Sequencing of computations that may raise. *)
Definition rbind {A C} (m : result A) (k : A -> result C) : result C :=
  match m with
  | Ok a => k a
  | Raise e => Raise e
  end.

Declare Scope exn_scope.
Delimit Scope exn_scope with exn.
Notation "x <- m ;; k" := (rbind m (fun x => k))
  (at level 61, m at next level, right associativity) : exn_scope.
Local Open Scope exn_scope.

Definition CRLF : bytes := [x0d; x0a].

(** [raise ProtocolError('HTTP: invalid format', quiet=True)]. *)
Definition invalid_format : exn := ProtocolError "HTTP: invalid format".

(** *** Operations on [bytes] *)

Fixpoint bytes_eqb (a b : bytes) : bool :=
  match a, b with
  | [], [] => true
  | x :: a', y :: b' => Byte.eqb x y && bytes_eqb a' b'
  | _, _ => false
  end.

(** [s[len(p):]] when [s.startswith(p)]. *)
Fixpoint after_prefix (p s : bytes) : option bytes :=
  match p, s with
  | [], _ => Some s
  | x :: p', y :: s' => if Byte.eqb x y then after_prefix p' s' else None
  | _ :: _, [] => None
  end.

(** [s.partition(sep)] when [sep] occurs in [s]: the text before its first
    occurrence and the text after it. *)
Fixpoint find_sep (sep s : bytes) : option (bytes * bytes) :=
  match after_prefix sep s with
  | Some rest => Some ([], rest)
  | None =>
      match s with
      | [] => None
      | c :: r =>
          match find_sep sep r with
          | Some (before, after) => Some (c :: before, after)
          | None => None
          end
      end
  end.

(** [s.split(sep, 1)]. *)
Definition split1 (sep s : bytes) : list bytes :=
  match find_sep sep s with
  | Some (before, after) => [before; after]
  | None => [s]
  end.

(** [s.split(b'\r\n')]: [cur] holds, reversed, the piece being read. *)
Fixpoint split_crlf_from (cur : bytes) (s : bytes) : list bytes :=
  match s with
  | [] => [rev cur]
  | x0d :: x0a :: r => rev cur :: split_crlf_from [] r
  | c :: r => split_crlf_from (c :: cur) r
  end.

Definition split_crlf (s : bytes) : list bytes := split_crlf_from [] s.

(** [\s] in a bytes pattern: [ \t\n\r\f\v]. *)
Definition re_space (b : byte) : bool :=
  let n := Byte.to_N b in (((9 <=? n) && (n <=? 13)) || (n =? 32))%N.

(** [\d] in a bytes pattern: [0-9]. *)
Definition re_digit (b : byte) : bool :=
  let n := Byte.to_N b in ((48 <=? n) && (n <=? 57))%N.

Fixpoint skip_spaces (s : bytes) : bytes :=
  match s with
  | [] => []
  | c :: r => if re_space c then skip_spaces r else s
  end.

(** The leftmost match of [\s+] in [s]: the text before it and the text
    after it. *)
Fixpoint find_spaces (s : bytes) : option (bytes * bytes) :=
  match s with
  | [] => None
  | c :: r =>
      if re_space c then Some ([], skip_spaces r)
      else match find_spaces r with
           | Some (before, after) => Some (c :: before, after)
           | None => None
           end
  end.

(** [re.split(b'\s+', s, maxsplit)]. *)
Fixpoint re_split_spaces (maxsplit : nat) (s : bytes) : list bytes :=
  match maxsplit with
  | O => [s]
  | S m =>
      match find_spaces s with
      | Some (before, after) => before :: re_split_spaces m after
      | None => [s]
      end
  end.

Definition rskip_spaces (s : bytes) : bytes := rev (skip_spaces (rev s)).

(** [re.split(b'\s*:\s*', field, 1)].  The leftmost match of [\s*:\s*]
    covers the first colon of [field] with all the white space next to it on
    both sides; without a colon the split leaves the field whole. *)
Definition re_split_colon (field : bytes) : list bytes :=
  match find_sep [x3a] field with
  | Some (before, after) => [rskip_spaces before; skip_spaces after]
  | None => [field]
  end.

(** *** The module's regular expressions, as used by [re.match] (anchored at
    the start of the text only) *)

Definition methods : list bytes :=
  [B "GET"; B "HEAD"; B "POST"; B "PUT"; B "DELETE"; B "CONNECT";
   B "OPTIONS"; B "TRACE"].

(** [re.match(_RE_METHOD, text)], as a truth value. *)
Definition _RE_METHOD (text : bytes) : bool :=
  existsb (fun m => match after_prefix m text with
                    | Some _ => true
                    | None => false
                    end) methods.

(** [re.match(_RE_VERSION, text)]: the group [version] of the match. *)
Definition _RE_VERSION (text : bytes) : option bytes :=
  match after_prefix (B "HTTP/") text with
  | Some (d1 :: x2e :: d2 :: _) =>
      if re_digit d1 && re_digit d2 then Some [d1; x2e; d2] else None
  | _ => None
  end.

(** [re.match(_RE_STATUS, text)], as a truth value. *)
Definition _RE_STATUS (text : bytes) : bool :=
  match text with
  | d1 :: d2 :: d3 :: _ => re_digit d1 && re_digit d2 && re_digit d3
  | _ => false
  end.

(** [match1 and match2], the request form of a start line. *)
Definition is_request_line (para1 para3 : bytes) : bool :=
  _RE_METHOD para1 &&
  match _RE_VERSION para3 with Some _ => true | None => false end.

(** [match3 and match4], the response form of a start line. *)
Definition is_response_line (para1 para2 : bytes) : bool :=
  match _RE_VERSION para1 with Some _ => true | None => false end &&
  _RE_STATUS para2.

(** The other reading of the two forms, with "matches" taken as a match of
    the whole parameter: the parameter is a method name, is HTTP/<d>.<d>,
    is three digits, with nothing after. *)
Definition whole_method (text : bytes) : bool :=
  existsb (fun m => match after_prefix m text with
                    | Some [] => true
                    | _ => false
                    end) methods.

Definition whole_version (text : bytes) : bool :=
  match after_prefix (B "HTTP/") text with
  | Some [d1; x2e; d2] => re_digit d1 && re_digit d2
  | _ => false
  end.

Definition whole_status (text : bytes) : bool :=
  match text with
  | [d1; d2; d3] => re_digit d1 && re_digit d2 && re_digit d3
  | _ => false
  end.

Definition whole_request_line (para1 para3 : bytes) : bool :=
  whole_method para1 && whole_version para3.

Definition whole_response_line (para1 para2 : bytes) : bool :=
  whole_version para1 && whole_status para2.

Section Decoder.
Variable unicode_decimal : N -> option Z.
(** [chardet.detect(body)['encoding']] and [body.decode(charset)]: library
    code, parameters here.  [body.decode] yields the text or raises:
    [UnicodeDecodeError] for octets the codec rejects, [LookupError] for a
    charset name Python has no codec for. *)
Variable chardet_detect : bytes -> option string.
Variable codec_decode : string -> bytes -> result str.

(** [int(text)], raising [ValueError]. *)
Definition int_of (text : str) : result Z :=
  match py_int unicode_decimal text with
  | Some z => Ok z
  | None => Raise (ValueError "invalid literal for int() with base 10")
  end.

(** httpv1.py 134-157: the start line is classified from its three
    parameters; yields the receipt and the initial [header] dict. *)
Definition read_start_line (para1 para2 para3 : bytes) : result (str * dict) :=
  let match1 := _RE_METHOD para1 in
  let match2 := _RE_VERSION para3 in
  let match3 := _RE_VERSION para1 in
  let match4 := _RE_STATUS para2 in
  match match1, match2, match3, match4 with
  | true, Some version2, _, _ =>
      method <- decode para1 ;;
      target <- decode para2 ;;
      version <- decode version2 ;;
      Ok (U "request",
          [(U "request", VDict [(U "method", VStr method);
                                (U "target", VStr target);
                                (U "version", VStr version)])])
  | _, _, Some version3, true =>
      version <- decode version3 ;;
      text <- decode para2 ;;
      status <- int_of text ;;
      phrase <- decode para3 ;;
      Ok (U "response",
          [(U "response", VDict [(U "version", VStr version);
                                 (U "status", VInt status);
                                 (U "phrase", VStr phrase)])])
  | _, _, _, _ => Raise invalid_format
  end.

(** The key a header field is stored under (httpv1.py 161). *)
Definition field_key (text : str) : str :=
  replace (U "response") (U "response_field")
    (replace (U "request") (U "request_field") (strip text)).

(** httpv1.py 161-169: one turn of the loop over [lists]; [item] is the
    outcome of [re.split] for one field.  [item[1]] on a one-element list
    is the [IndexError] the loop turns into [ProtocolError]. *)
Definition store_field (header : dict) (item : list bytes) : result dict :=
  match item with
  | [] => Raise invalid_format
  | item0 :: rest =>
      text0 <- decode item0 ;;
      let key := field_key text0 in
      match rest with
      | [] => Raise invalid_format
      | item1 :: _ =>
          text1 <- decode item1 ;;
          let value := strip text1 in
          match dict_get key header with
          | Some (VTuple t) =>
              Ok (dict_set key (VTuple (t ++ [VStr value])) header)
          | Some old =>
              Ok (dict_set key (VTuple [old; VStr value]) header)
          | None => Ok (dict_set key (VStr value) header)
          end
      end
  end.

Fixpoint store_fields (header : dict) (fields : list bytes) : result dict :=
  match fields with
  | [] => Ok header
  | field :: more =>
      header' <- store_field header (re_split_colon field) ;;
      store_fields header' more
  end.

(** [HTTPv1._read_http_header] (httpv1.py 116-173). *)
Definition _read_http_header (header : bytes) : result (dict * str) :=
  match split1 CRLF header with
  | [startline; headerfield] =>
      match re_split_spaces 2 startline with
      | [para1; para2; para3] =>
          let fields := split_crlf headerfield in
          start <- read_start_line para1 para2 para3 ;;
          let '(receipt, header) := start in
          header <- store_fields header fields ;;
          Ok (header, receipt)
      | _ => Raise invalid_format
      end
  | _ => Raise invalid_format
  end.

(** [HTTPv1._read_http_body] (httpv1.py 175-182); without a charset the
    function falls off its end and yields [None].  Of the exceptions of
    [body.decode] only [UnicodeDecodeError] is caught. *)
Definition _read_http_body (body : bytes) : result value :=
  match chardet_detect body with
  | Some (String c cs) =>
      match codec_decode (String c cs) body with
      | Ok text => Ok (VStr text)
      | Raise UnicodeDecodeError => Ok (VBytes body)
      | Raise e => Raise e
      end
  | _ => Ok VNone
  end.

(** [self._file.read(length)]: everything for [None] or a negative
    length. *)
Definition read_packet (length : option Z) : M bytes :=
  match length with
  | Some n => if n <? 0 then file_read_all else file_read (Z.to_nat n)
  | None => file_read_all
  end.

(** The decoder proper, on the packet read from the file
    (httpv1.py 96-110). *)
Definition read_http_packet (packet : bytes) : result value :=
  match split1 (CRLF ++ CRLF) packet with
  | [header; body] =>
      unpacked <- _read_http_header header ;;
      let '(header_unpacked, http_receipt) := unpacked in
      decoded <- _read_http_body body ;;
      let body_unpacked := or_None decoded in
      Ok (VDict [(U "receipt", VStr http_receipt);
                 (U "header", VDict header_unpacked);
                 (U "body", body_unpacked)])
  | _ => Raise invalid_format
  end.

(** [HTTPv1.read_http] (httpv1.py 85-110). *)
Definition read_http (length : option Z) : M value :=
  fun f =>
    match read_packet length f with
    | Ok (packet, f') =>
        match read_http_packet packet with
        | Ok http => Ok (http, f')
        | Raise e => Raise e
        end
    | Raise e => Raise e
    end.

End Decoder.

(** What one turn of the header-field loop leaves under [key] when the
    value text is [text]: the text itself for a new key, a tuple of the
    values so far for a repeated one. *)
Definition stored (header : dict) (key text : str) : value :=
  match dict_get key header with
  | Some (VTuple t) => VTuple (t ++ [VStr text])
  | Some old => VTuple [old; VStr text]
  | None => VStr text
  end.

(** The [header] dict a request line starts with. *)
Definition request_record (method target version : str) : dict :=
  [(U "request", VDict [(U "method", VStr method);
                        (U "target", VStr target);
                        (U "version", VStr version)])].

(** The [header] dict a status line starts with. *)
Definition response_record (version : str) (status : Z) (phrase : str)
  : dict :=
  [(U "response", VDict [(U "version", VStr version);
                         (U "status", VInt status);
                         (U "phrase", VStr phrase)])].

(** Scenario S4. *)
Definition s4_payload : bytes :=
  B "GET /index.html HTTP/1.1" ++ CRLF ++ B "Host: example.com" ++ CRLF
    ++ B "Accept: */*" ++ CRLF ++ CRLF.

(** Scenario S6. *)
Definition s6_payload : bytes := B "FOO BAR BAZ" ++ CRLF ++ CRLF.

(** A request whose only header line is the octet [ff], without a colon. *)
Definition undecodable_field_payload : bytes :=
  B "GET / HTTP/1.1" ++ CRLF ++ [xff] ++ CRLF ++ CRLF.

(** A request whose only header line is [Host], without a colon. *)
Definition colonless_payload : bytes :=
  B "GET / HTTP/1.1" ++ CRLF ++ B "Host" ++ CRLF ++ CRLF.

(** A request with a header field whose name holds the word "request". *)
Definition request_id_payload : bytes :=
  B "GET / HTTP/1.1" ++ CRLF ++ B "X-request-id: 7" ++ CRLF ++ CRLF.

(** A status line whose code is followed by letters. *)
Definition status_letters_payload : bytes :=
  B "HTTP/1.1 200abc OK" ++ CRLF ++ B "Host: example.com" ++ CRLF ++ CRLF.

(** A request line whose method and version carry trailing characters. *)
Definition trailing_payload : bytes :=
  B "GETX / HTTP/1.1junk" ++ CRLF ++ B "Host: example.com" ++ CRLF ++ CRLF.

(** A status line whose version carries a trailing character and whose
    code has four digits. *)
Definition long_status_payload : bytes :=
  B "HTTP/1.1x 2000 OK" ++ CRLF ++ B "Host: example.com" ++ CRLF ++ CRLF.

(** A detector and a codec to run the decoder with: nothing is detected. *)
Definition no_charset (_ : bytes) : option string := None.
Definition no_codec (_ : string) (_ : bytes) : result str :=
  Raise UnicodeDecodeError.
Definition no_digits (_ : N) : option Z := None.

(** A detector and a codec for a body that opens with the byte-order mark
    [fe ff 00 00]: chardet names the charset X-ISO-10646-UCS-4-3412, for
    which Python has no codec. *)
Definition ucs4_charset (body : bytes) : option string :=
  match body with
  | xfe :: xff :: x00 :: x00 :: _ =>
      Some "X-ISO-10646-UCS-4-3412"%string
  | _ => None
  end.

Definition missing_codec (charset : string) (_ : bytes) : result str :=
  Raise (LookupError ("unknown encoding: " ++ charset)).

Definition ucs4_payload : bytes :=
  B "GET / HTTP/1.1" ++ CRLF ++ B "Host: x" ++ CRLF ++ CRLF
    ++ [xfe; xff; x00; x00].

Definition sample_read_http (payload : bytes) : result (value * BytesIO) :=
  read_http no_digits no_charset no_codec None (open_bytes payload).

(** [HTTPv1.alias] (httpv1.py 76-79):
    [f'HTTP/{self._info.header[self._info.receipt].version}'], on the info
    record of the instance.  [None] stands for the [KeyError] or
    [AttributeError] of a missing entry; [str_of] is [str()] on values that
    are not texts. *)
Definition alias (str_of : value -> str) (info : value) : option str :=
  match lookup [U "receipt"] info with
  | Some (VStr receipt) =>
      match lookup [U "header"; receipt; U "version"] info with
      | Some (VStr version) => Some (U "HTTP/" ++ version)
      | Some other => Some (U "HTTP/" ++ str_of other)
      | None => None
      end
  | _ => None
  end.

(** The key and the value text of a header line the loop can store: both
    parts of the split decode. *)
Definition field_pair (field : bytes) : option (str * str) :=
  match re_split_colon field with
  | item0 :: item1 :: _ =>
      match utf8_decode item0, utf8_decode item1 with
      | Some k, Some v => Some (field_key k, strip v)
      | _, _ => None
      end
  | _ => None
  end.

(** The values an entry of the header dict stands for: the members of a
    tuple, the value itself otherwise, nothing for a missing key. *)
Definition values_of (entry : option value) : list value :=
  match entry with
  | None => []
  | Some (VTuple t) => t
  | Some v => [v]
  end.

(** The keys of a dict, in iteration order. *)
Definition keys (d : dict) : list str := map fst d.

(** A list of keys with [k] added at the end unless it is there already. *)
Definition add_key (ks : list str) (k : str) : list str :=
  if existsb (str_eqb k) ks then ks else ks ++ [k].

(** A value of a header field: a text, or a tuple of two or more texts. *)
Definition field_value (v : value) : Prop :=
  (exists text, v = VStr text) \/
  (exists texts, v = VTuple (map VStr texts) /\ (2 <= List.length texts)%nat).

(** The record of scenario S4. *)
Definition s4_info : value :=
  VDict [(U "receipt", VStr (U "request"));
         (U "header",
          VDict (request_record (U "GET") (U "/index.html") (U "1.1")
                   ++ [(U "Host", VStr (U "example.com"));
                       (U "Accept", VStr (U "*/*"))]));
         (U "body", VNone)].

(** An octet of the ASCII range. *)
Definition is_ascii (x : byte) : Prop := (Byte.to_N x < 128)%N.

(** The text of an ASCII byte string. *)
Definition text_of (b : bytes) : str := map Byte.to_N b.

(** A visible ASCII octet, [!] to [~]. *)
Definition visible (x : byte) : bool :=
  ((0x21 <=? Byte.to_N x) && (Byte.to_N x <=? 0x7E))%N.

(** A field name a message can be written with: visible octets without a
    colon. *)
Definition is_name (b : bytes) : bool :=
  forallb (fun x => visible x && negb (Byte.eqb x x3a)) b.

(** A field value a message can be written with: visible octets and blanks,
    neither first nor last a blank. *)
Definition is_content (b : bytes) : bool :=
  forallb (fun x => visible x || Byte.eqb x x20) b
  && match b with [] => true | x :: _ => visible x end
  && match rev b with [] => true | x :: _ => visible x end.

(** A request target a message can be written with: one or more visible
    octets. *)
Definition is_target (b : bytes) : bool :=
  forallb visible b && negb (Nat.eqb (List.length b) 0).

(** The lines of a header block, joined by [\r\n]. *)
Fixpoint join_crlf (lines : list bytes) : bytes :=
  match lines with
  | [] => []
  | [line] => line
  | line :: rest => line ++ CRLF ++ join_crlf rest
  end.

(** A header line as a sender writes it: [name: value]. *)
Definition render_field (field : bytes * bytes) : bytes :=
  fst field ++ B ": " ++ snd field.

(** A request message as a sender writes it: the request line, the header
    lines, the blank line and the body.  The decoder has no counterpart of
    it in the sources; it states what the decoder is expected to read. *)
Definition render_request (method target : bytes) (d1 d2 : byte)
    (fields : list (bytes * bytes)) (body : bytes) : bytes :=
  method ++ B " " ++ target ++ B " " ++ B "HTTP/" ++ [d1; x2e; d2] ++ CRLF
    ++ join_crlf (map render_field fields) ++ CRLF ++ CRLF ++ body.

(** A response message as a sender writes it: the status line with a code
    of three digits, the header lines, the blank line and the body. *)
Definition render_response (d1 d2 s1 s2 s3 : byte) (phrase : bytes)
    (fields : list (bytes * bytes)) (body : bytes) : bytes :=
  B "HTTP/" ++ [d1; x2e; d2] ++ B " " ++ [s1; s2; s3] ++ B " " ++ phrase
    ++ CRLF ++ join_crlf (map render_field fields) ++ CRLF ++ CRLF ++ body.

(** The number a digit octet stands for. *)
Definition digit_of (d : byte) : Z := Z.of_N (Byte.to_N d) - 48.

(** A line of a written message: not empty, without a carriage return. *)
Definition plain_line (line : bytes) : Prop :=
  line <> [] /\ Forall (fun x => x <> x0d) line.

(** One turn of the header-field loop on a key and a value text. *)
Definition put_field (d : dict) (kv : str * str) : dict :=
  dict_set (fst kv) (stored d (fst kv) (snd kv)) d.

(** The header lines of a header block: what follows its first line, cut at
    every [\r\n]. *)
Definition field_lines (header : bytes) : list bytes :=
  match split1 CRLF header with
  | [_; headerfield] => split_crlf headerfield
  | _ => []
  end.

(** The value texts of the lines stored under [k], in the order of the
    lines. *)
Definition values_named (k : str) (fields : list bytes) : list str :=
  flat_map (fun field => match field_pair field with
                         | Some (k', v) => if str_eqb k k' then [v] else []
                         | None => []
                         end) fields.

(** The keys the lines are stored under, in the order of the lines. *)
Definition names_of (fields : list bytes) : list str :=
  flat_map (fun field => match field_pair field with
                         | Some (k, _) => [k]
                         | None => []
                         end) fields.

End HTTPv1.

(* ================================================================== *)
(** * Properties *)

(** ** The file cursor *)

Lemma bind_Ok {A C} (m : M A) (k : A -> M C) f r :
  bind m k f = Ok r <-> exists a f1, m f = Ok (a, f1) /\ k a f1 = Ok r.
Proof.
  unfold bind. split.
  - destruct (m f) as [[a f1]|e]; [eauto | discriminate].
  - intros (a & f1 & -> & H). exact H.
Qed.

Lemma unread_advance n f : unread (advance n f) = skipn n (unread f).
Proof.
  unfold unread, advance; simpl.
  rewrite skipn_skipn. f_equal. lia.
Qed.

Lemma advance_advance n m f : advance m (advance n f) = advance (n + m) f.
Proof. unfold advance; simpl. f_equal. lia. Qed.

Lemma remaining_advance n f : remaining (advance n f) = (remaining f - n)%nat.
Proof. unfold remaining. rewrite unread_advance. apply length_skipn. Qed.

Lemma _read_fileng_Ok n f b f' :
  _read_fileng n f = Ok (b, f') <->
  (n <= remaining f)%nat /\ b = firstn n (unread f) /\ f' = advance n f.
Proof.
  unfold _read_fileng.
  destruct (Nat.leb_spec n (remaining f)); split.
  - intros [= <- <-]. auto.
  - intros (_ & -> & ->). reflexivity.
  - discriminate.
  - intros (Hle & _). lia.
Qed.

Lemma _read_unpack_Ok n f z f' :
  _read_unpack n f = Ok (z, f') <->
  (n <= remaining f)%nat /\ z = be_uint (firstn n (unread f)) /\ f' = advance n f.
Proof.
  unfold _read_unpack. rewrite bind_Ok. split.
  - intros (b & f1 & Hb & Hr). apply _read_fileng_Ok in Hb as (Hle & -> & ->).
    inversion Hr; subst. auto.
  - intros (Hle & -> & ->). exists (firstn n (unread f)), (advance n f).
    split; [apply _read_fileng_Ok; auto | reflexivity].
Qed.

Lemma file_read_all_at_end f a f' :
  file_read_all f = Ok (a, f') -> a = unread f /\ remaining f' = 0%nat.
Proof.
  unfold file_read_all. intros [= <- <-]. split; [reflexivity|].
  rewrite remaining_advance. lia.
Qed.

Lemma bind_step {A C} (m : M A) (k : A -> M C) f a f1 :
  m f = Ok (a, f1) -> bind m k f = k a f1.
Proof. unfold bind. intros ->. reflexivity. Qed.

(** ** The Ethernet-family test *)

Lemma has_prefix_app p s :
  has_prefix p s = true <-> exists r, s = (p ++ r)%string.
Proof.
  revert s. induction p as [|a p IH]; intros s; simpl.
  - split; eauto.
  - destruct s as [|c s].
    + split; [discriminate | intros (r & H); discriminate].
    + rewrite andb_true_iff, Ascii.eqb_eq, IH. split.
      * intros (-> & r & ->). eauto.
      * intros (r & [= -> ->]). eauto.
Qed.

Lemma has_substring_app p s :
  has_substring p s = true <-> exists a b, s = (a ++ p ++ b)%string.
Proof.
  induction s as [|c s IH]; simpl.
  - rewrite orb_false_r, has_prefix_app. split.
    + intros (r & H). exists EmptyString, r. exact H.
    + intros (a & b & H). destruct a; [|discriminate]. eauto.
  - rewrite orb_true_iff, has_prefix_app, IH. split.
    + intros [(r & H) | (a & b & ->)].
      * exists EmptyString, r. exact H.
      * exists (String c a), b. reflexivity.
    + intros (a & b & H). destruct a as [|x a].
      * left. eauto.
      * right. injection H as -> ->. eauto.
Qed.

(** A hardware-type name is of the Ethernet family when its first line,
    in lower case, contains "ethernet". *)
Lemma re_match_ethernet_spec name :
  re_match_ethernet name = true <->
  exists a b, lower (first_line name) = (a ++ "ethernet" ++ b)%string.
Proof. apply has_substring_app. Qed.

Example mac_and_decimal_samples :
  ARP.mac_text [xaa; xbb; x00; x01; x02; xff] = "aa:bb:00:01:02:ff"%string /\
  format_int 2048 = "2048"%string /\
  re_match_ethernet "Experimental eThErNeT (3Mb)" = true /\
  re_match_ethernet "IEEE 802 Networks" = false.
Proof. repeat split. Qed.

(** ** ARP *)

Module ARPSpec.
Import ARP.

Lemma _read_addr_resolve_Ok length htype f a f' :
  _read_addr_resolve length htype f = Ok (a, f') <->
  (hw_width htype length <= remaining f)%nat /\
  a = (if htype =? 1 then MacText (mac_text (firstn 6 (unread f)))
       else RawBytes (firstn (Z.to_nat length) (unread f))) /\
  f' = advance (hw_width htype length) f.
Proof.
  unfold _read_addr_resolve, hw_width.
  destruct (htype =? 1); rewrite bind_Ok; split.
  - intros (b & f1 & Hb & Hr). apply _read_fileng_Ok in Hb as (? & -> & ->).
    inversion Hr; subst; auto.
  - intros (? & -> & ->). eexists _, _. split; [apply _read_fileng_Ok; eauto|].
    reflexivity.
  - intros (b & f1 & Hb & Hr). apply _read_fileng_Ok in Hb as (? & -> & ->).
    inversion Hr; subst; auto.
  - intros (? & -> & ->). eexists _, _. split; [apply _read_fileng_Ok; eauto|].
    reflexivity.
Qed.

Lemma ip_address_4 packed f :
  List.length packed = 4%nat -> ip_address packed f = Ok (IPv4Address packed, f).
Proof. intros H. unfold ip_address. rewrite H. reflexivity. Qed.

Lemma ip_address_16 packed f :
  List.length packed = 16%nat -> ip_address packed f = Ok (IPv6Address packed, f).
Proof. intros H. unfold ip_address. rewrite H. reflexivity. Qed.

Lemma _read_proto_resolve_Ok length ptype f a f' :
  _read_proto_resolve length ptype f = Ok (a, f') <->
  (proto_width ptype length <= remaining f)%nat /\
  a = (if ptype =? 0x0800 then IPv4Address (firstn 4 (unread f))
       else if ptype =? 0x86dd then IPv6Address (firstn 16 (unread f))
       else RawBytes (firstn (Z.to_nat length) (unread f))) /\
  f' = advance (proto_width ptype length) f.
Proof.
  unfold _read_proto_resolve, proto_width.
  destruct (ptype =? 0x0800); [|destruct (ptype =? 0x86dd)];
    rewrite bind_Ok; split.
  - intros (b & f1 & Hb & Hr). apply _read_fileng_Ok in Hb as (Hle & -> & ->).
    rewrite ip_address_4 in Hr
      by (rewrite length_firstn; unfold remaining in Hle; lia).
    inversion Hr; subst; auto.
  - intros (Hle & -> & ->). eexists _, _.
    split; [apply _read_fileng_Ok; eauto|].
    apply ip_address_4. rewrite length_firstn; unfold remaining in Hle; lia.
  - intros (b & f1 & Hb & Hr). apply _read_fileng_Ok in Hb as (Hle & -> & ->).
    rewrite ip_address_16 in Hr
      by (rewrite length_firstn; unfold remaining in Hle; lia).
    inversion Hr; subst; auto.
  - intros (Hle & -> & ->). eexists _, _.
    split; [apply _read_fileng_Ok; eauto|].
    apply ip_address_16. rewrite length_firstn; unfold remaining in Hle; lia.
  - intros (b & f1 & Hb & Hr). apply _read_fileng_Ok in Hb as (? & -> & ->).
    inversion Hr; subst; auto.
  - intros (? & -> & ->). eexists _, _. split; [apply _read_fileng_Ok; eauto|].
    reflexivity.
Qed.

Lemma wrap2_bytes_hex b : textwrap_wrap2 (bytes_hex b) = map hex_octet b.
Proof.
  induction b as [|x r IH]; [reflexivity|].
  cbn [bytes_hex textwrap_wrap2 map]. rewrite IH. reflexivity.
Qed.

(** The MAC text: the octets in two-digit lowercase hex, joined by colons. *)
Lemma mac_text_octets b : mac_text b = String.concat ":" (map hex_octet b).
Proof. unfold mac_text. rewrite wrap2_bytes_hex. reflexivity. Qed.

(** What a successful run of arp.py 192-213 has read and set. *)
Lemma read_arp_fields_Ok f fs f' :
  read_arp_fields f = Ok (fs, f') ->
  let u := unread f in
  let hw := hw_width (wire_htype u) (wire_hlen u) in
  let pw := proto_width (wire_ptype u) (wire_plen u) in
  (8 + hw + pw + hw + pw <= remaining f)%nat /\
  f' = advance (8 + hw + pw + hw + pw) f /\
  self_acnm fs = fst (variant (wire_oper u)) /\
  self_name fs = snd (variant (wire_oper u)) /\
  _hwty fs = wire_htype u /\
  _ptty fs = wire_ptype u /\
  _hlen fs = wire_hlen u /\
  _plen fs = wire_plen u /\
  _oper fs = wire_oper u /\
  _read_addr_resolve (wire_hlen u) (wire_htype u) (advance 8 f)
    = Ok (_shwa fs, advance (8 + hw) f) /\
  _read_proto_resolve (wire_plen u) (wire_ptype u) (advance (8 + hw) f)
    = Ok (_spta fs, advance (8 + hw + pw) f) /\
  _read_addr_resolve (wire_hlen u) (wire_htype u) (advance (8 + hw + pw) f)
    = Ok (_thwa fs, advance (8 + hw + pw + hw) f) /\
  _read_proto_resolve (wire_plen u) (wire_ptype u)
      (advance (8 + hw + pw + hw) f)
    = Ok (_tpta fs, advance (8 + hw + pw + hw + pw) f).
Proof.
  unfold read_arp_fields. intros H.
  apply bind_Ok in H as (hwty & f1 & H1 & H).
  apply bind_Ok in H as (ptty & f2 & H2 & H).
  apply bind_Ok in H as (hl & f3 & H3 & H).
  apply bind_Ok in H as (pl & f4 & H4 & H).
  apply bind_Ok in H as (op & f5 & H5 & H).
  apply bind_Ok in H as (a1 & f6 & H6 & H).
  apply bind_Ok in H as (a2 & f7 & H7 & H).
  apply bind_Ok in H as (a3 & f8 & H8 & H).
  apply bind_Ok in H as (a4 & f9 & H9 & H).
  apply _read_unpack_Ok in H1 as (L1 & -> & ->).
  apply _read_unpack_Ok in H2 as (L2 & -> & ->).
  apply _read_unpack_Ok in H3 as (L3 & -> & ->).
  apply _read_unpack_Ok in H4 as (L4 & -> & ->).
  apply _read_unpack_Ok in H5 as (L5 & -> & ->).
  repeat rewrite advance_advance in *.
  repeat rewrite unread_advance in *.
  cbn [Nat.add] in *.
  fold (wire_htype (unread f)) in *. fold (wire_ptype (unread f)) in *.
  fold (wire_hlen (unread f)) in *. fold (wire_plen (unread f)) in *.
  fold (wire_oper (unread f)) in *.
  pose proof H6 as K6. pose proof H7 as K7.
  pose proof H8 as K8. pose proof H9 as K9.
  apply _read_addr_resolve_Ok in K6 as (L6 & _ & E6). subst f6.
  rewrite advance_advance in *.
  apply _read_proto_resolve_Ok in K7 as (L7 & _ & E7). subst f7.
  rewrite advance_advance in *.
  apply _read_addr_resolve_Ok in K8 as (L8 & _ & E8). subst f8.
  rewrite advance_advance in *.
  apply _read_proto_resolve_Ok in K9 as (L9 & _ & E9). subst f9.
  rewrite advance_advance in *.
  rewrite !remaining_advance in *.
  destruct (variant (wire_oper (unread f))) as [acnm name] eqn:Ev.
  cbv beta iota delta [ret] in H. injection H as <- <-.
  cbn [self_acnm self_name _hwty _ptty _hlen _plen _oper
       _shwa _spta _thwa _tpta fst snd].
  repeat split; auto. lia.
Qed.

(** arp.py 192-213 succeed as soon as the file holds the eight octets of
    the fixed prefix and the four addresses. *)
Lemma read_arp_fields_total f :
  let u := unread f in
  let hw := hw_width (wire_htype u) (wire_hlen u) in
  let pw := proto_width (wire_ptype u) (wire_plen u) in
  (8 + hw + pw + hw + pw <= remaining f)%nat ->
  exists fs, read_arp_fields f = Ok (fs, advance (8 + hw + pw + hw + pw) f).
Proof.
  intros u hw pw Hle. unfold read_arp_fields.
  assert (Hu : forall k n z,
             (k + n <= remaining f)%nat ->
             z = be_uint (firstn n (skipn k u)) ->
             _read_unpack n (advance k f) = Ok (z, advance (k + n) f)).
  { intros k n z Hk ->. apply _read_unpack_Ok.
    rewrite remaining_advance, unread_advance, advance_advance.
    repeat split. lia. }
  assert (Ha : forall k,
             (k + hw <= remaining f)%nat ->
             exists a, _read_addr_resolve (wire_hlen u) (wire_htype u)
                         (advance k f) = Ok (a, advance (k + hw) f)).
  { intros k Hk. eexists. apply _read_addr_resolve_Ok.
    rewrite remaining_advance, advance_advance. fold hw.
    repeat split. lia. }
  assert (Hp : forall k,
             (k + pw <= remaining f)%nat ->
             exists a, _read_proto_resolve (wire_plen u) (wire_ptype u)
                         (advance k f) = Ok (a, advance (k + pw) f)).
  { intros k Hk. eexists. apply _read_proto_resolve_Ok.
    rewrite remaining_advance, advance_advance. fold pw.
    repeat split. lia. }
  assert (E1 : _read_unpack 2 f = Ok (wire_htype u, advance 2 f))
    by (apply _read_unpack_Ok; repeat split; lia).
  rewrite (bind_step _ _ _ _ _ E1).
  rewrite (bind_step _ _ _ _ _ (Hu 2 2 (wire_ptype u) ltac:(lia) eq_refl))%nat.
  rewrite (bind_step _ _ _ _ _ (Hu 4 1 (wire_hlen u) ltac:(lia) eq_refl))%nat.
  rewrite (bind_step _ _ _ _ _ (Hu 5 1 (wire_plen u) ltac:(lia) eq_refl))%nat.
  rewrite (bind_step _ _ _ _ _ (Hu 6 2 (wire_oper u) ltac:(lia) eq_refl))%nat.
  destruct (Ha 8%nat ltac:(lia)) as [a1 E6].
  rewrite (bind_step _ _ _ _ _ E6).
  destruct (Hp (8 + hw)%nat ltac:(lia)) as [a2 E7].
  rewrite (bind_step _ _ _ _ _ E7).
  destruct (Ha (8 + hw + pw)%nat ltac:(lia)) as [a3 E8].
  rewrite (bind_step _ _ _ _ _ E8).
  destruct (Hp (8 + hw + pw + hw)%nat ltac:(lia)) as [a4 E9].
  rewrite (bind_step _ _ _ _ _ E9).
  destruct (variant (wire_oper u)) as [acnm name].
  eexists. reflexivity.
Qed.

(** The variant set by arp.py 202-213, by operation code. *)
Lemma variant_cases op :
  (op = 5 \/ op = 6 \/ op = 7 ->
   variant op = ("DRARP", "Dynamic Reverse Address Resolution Protocol")%string) /\
  (op = 8 \/ op = 9 ->
   variant op = ("InARP", "Inverse Address Resolution Protocol")%string) /\
  (op = 3 \/ op = 4 ->
   variant op = ("RARP", "Reverse Address Resolution Protocol")%string) /\
  (op < 3 \/ 9 < op ->
   variant op = ("ARP", "Address Resolution Protocol")%string).
Proof.
  unfold variant. split; [|split; [|split]]; intros Hop.
  - destruct Hop as [->|[->| ->]]; reflexivity.
  - destruct Hop as [->| ->]; reflexivity.
  - destruct Hop as [->| ->]; reflexivity.
  - assert (E : forall k, 3 <= k <= 9 -> (op =? k) = false)
      by (intros k Hk; apply Z.eqb_neq; lia).
    rewrite !E by lia. reflexivity.
Qed.

Section Header.
Variables EtherType Operation : Type.
Variable HRD_get : Z -> result entry.
Variable ETHERTYPE_get : Z -> result EtherType.
Variable OPER_get : Z -> result Operation.

Let build := build_arp EtherType Operation HRD_get ETHERTYPE_get OPER_get.
Let header := read_arp_header EtherType Operation HRD_get ETHERTYPE_get OPER_get.

(** What arp.py 215-232 have looked up and built when they succeed: the
    hardware-type entry was a text. *)
Lemma build_arp_Ok fs f st f' :
  build fs f = Ok (st, f') ->
  f' = f /\
  _acnm st = self_acnm fs /\ _name st = self_name fs /\
  (exists h,
      HRD_get (_hwty fs) = Ok (Text h) /\
      htype (arp st) = Text h /\
      (re_match_ethernet h = false ->
       ptype (arp st)
       = PtypeText ("Unknown [" ++ format_int (_ptty fs) ++ "]")) /\
      (re_match_ethernet h = true ->
       exists e, ETHERTYPE_get (_ptty fs) = Ok e /\
                 ptype (arp st) = PtypeEnum e)) /\
  OPER_get (_oper fs) = Ok (oper (arp st)) /\
  hlen (arp st) = _hlen fs /\ plen (arp st) = _plen fs /\
  sha (arp st) = _shwa fs /\ spa (arp st) = _spta fs /\
  tha (arp st) = _thwa fs /\ tpa (arp st) = _tpta fs /\
  len (arp st) = 8 + _hlen fs * 2 + _plen fs * 2.
Proof.
  unfold build, build_arp, bind, lift, ret. intros H.
  destruct (HRD_get (_hwty fs)) as [[name value|h]|e] eqn:Eh;
    cbn in H; try discriminate H.
  destruct (re_match_ethernet h) eqn:Em.
  - destruct (ETHERTYPE_get (_ptty fs)) as [e|e] eqn:Ee; try discriminate H.
    destruct (OPER_get (_oper fs)) as [op|e'] eqn:Eo; try discriminate H.
    injection H as <- <-. cbn.
    do 3 (split; [reflexivity|]). split.
    { exists h. do 2 (split; [reflexivity|]). split.
      - intros K. congruence.
      - intros _. exists e. split; reflexivity. }
    repeat (split; [reflexivity|]). reflexivity.
  - destruct (OPER_get (_oper fs)) as [op|e'] eqn:Eo; try discriminate H.
    injection H as <- <-. cbn.
    do 3 (split; [reflexivity|]). split.
    { exists h. do 2 (split; [reflexivity|]). split.
      - intros _. reflexivity.
      - intros K. congruence. }
    repeat (split; [reflexivity|]). reflexivity.
Qed.

(** arp.py 216 on a hardware-type entry that is an enumeration member:
    [re.match] raises [TypeError] and no dict is built. *)
Lemma build_arp_TypeError fs f name value :
  HRD_get (_hwty fs) = Ok (Member name value) ->
  build fs f = Raise (TypeError "expected string or bytes-like object").
Proof.
  intros H. unfold build, build_arp, bind, lift. rewrite H. reflexivity.
Qed.

(** arp.py 215-232 on a hardware-type entry that is a text, with the two
    other lookups succeeding. *)
Lemma build_arp_text fs f h op :
  HRD_get (_hwty fs) = Ok (Text h) ->
  (re_match_ethernet h = true -> exists e, ETHERTYPE_get (_ptty fs) = Ok e) ->
  OPER_get (_oper fs) = Ok op ->
  exists pt,
    build fs f
    = Ok (mk_state EtherType Operation (self_acnm fs) (self_name fs)
            (mk_arp EtherType Operation (Text h) pt (_hlen fs) (_plen fs) op
               (_shwa fs) (_spta fs) (_thwa fs) (_tpta fs)
               (8 + _hlen fs * 2 + _plen fs * 2)), f).
Proof.
  intros Hh He Ho. unfold build, build_arp, bind, lift, ret.
  rewrite Hh. cbn. destruct (re_match_ethernet h).
  - destruct (He eq_refl) as [e ->]. rewrite Ho. eexists. reflexivity.
  - rewrite Ho. eexists. reflexivity.
Qed.

(** A successful run of the header decoder is a successful run of
    arp.py 192-213 followed by one of arp.py 215-232. *)
Lemma read_arp_header_Ok f st f' :
  header f = Ok (st, f') <->
  exists fs, read_arp_fields f = Ok (fs, f') /\ build fs f' = Ok (st, f').
Proof.
  unfold header, read_arp_header. rewrite bind_Ok. split.
  - intros (fs & f1 & H1 & H2). exists fs.
    pose proof (build_arp_Ok _ _ _ _ H2) as (-> & _). auto.
  - intros (fs & H1 & H2). eauto.
Qed.

(** C7: the variant (acronym and name) the decoder selects depends on the
    operation code alone: DRARP for 5, 6, 7; InARP for 8, 9; RARP for
    3, 4; ARP for every other code.  arp.py 202-213 set it from the code
    at offset 6, and a decoded packet carries the variant so set.  For the
    packet of scenario S2 ([oper = 8]) the decoder sets "InARP" and
    "Inverse Address Resolution Protocol". *)
Theorem arp_variant_from_oper :
  (forall f fs f',
      read_arp_fields f = Ok (fs, f') ->
      let op := wire_oper (unread f) in
      _oper fs = op /\
      (op = 5 \/ op = 6 \/ op = 7 ->
       self_acnm fs = "DRARP"%string /\
       self_name fs = "Dynamic Reverse Address Resolution Protocol"%string) /\
      (op = 8 \/ op = 9 ->
       self_acnm fs = "InARP"%string /\
       self_name fs = "Inverse Address Resolution Protocol"%string) /\
      (op = 3 \/ op = 4 ->
       self_acnm fs = "RARP"%string /\
       self_name fs = "Reverse Address Resolution Protocol"%string) /\
      (op < 3 \/ 9 < op ->
       self_acnm fs = "ARP"%string /\
       self_name fs = "Address Resolution Protocol"%string)) /\
  (forall f st f',
      header f = Ok (st, f') ->
      let op := wire_oper (unread f) in
      (op = 5 \/ op = 6 \/ op = 7 ->
       _acnm st = "DRARP"%string /\
       _name st = "Dynamic Reverse Address Resolution Protocol"%string) /\
      (op = 8 \/ op = 9 ->
       _acnm st = "InARP"%string /\
       _name st = "Inverse Address Resolution Protocol"%string) /\
      (op = 3 \/ op = 4 ->
       _acnm st = "RARP"%string /\
       _name st = "Reverse Address Resolution Protocol"%string) /\
      (op < 3 \/ 9 < op ->
       _acnm st = "ARP"%string /\
       _name st = "Address Resolution Protocol"%string)) /\
  (exists fs f',
      read_arp_fields (open_bytes s2_bytes) = Ok (fs, f') /\
      wire_oper s2_bytes = 8 /\
      self_acnm fs = "InARP"%string /\
      self_name fs = "Inverse Address Resolution Protocol"%string) /\
  (forall h op,
      HRD_get 1 = Ok (Text h) ->
      (re_match_ethernet h = true -> exists e, ETHERTYPE_get 0x0800 = Ok e) ->
      OPER_get 8 = Ok op ->
      exists st f',
        header (open_bytes s2_bytes) = Ok (st, f') /\
        wire_oper s2_bytes = 8 /\
        _acnm st = "InARP"%string /\
        _name st = "Inverse Address Resolution Protocol"%string).
Proof.
  assert (Hfields : forall f fs f',
             read_arp_fields f = Ok (fs, f') ->
             (self_acnm fs, self_name fs) = variant (wire_oper (unread f))).
  { intros f fs f' H.
    apply read_arp_fields_Ok in H as (_ & _ & Ha & Hn & _).
    rewrite Ha, Hn. destruct (variant _); reflexivity. }
  split; [|split; [|split]].
  - intros f fs f' H op.
    pose proof (Hfields _ _ _ H) as Hv. fold op in Hv.
    apply read_arp_fields_Ok in H
      as (_ & _ & _ & _ & _ & _ & _ & _ & Ho & _).
    destruct (variant_cases op) as (V1 & V2 & V3 & V4).
    split; [exact Ho|].
    split; [|split; [|split]]; intros Hop;
      [rewrite (V1 Hop) in Hv | rewrite (V2 Hop) in Hv
      | rewrite (V3 Hop) in Hv | rewrite (V4 Hop) in Hv];
      injection Hv as -> ->; split; reflexivity.
  - intros f st f' H op.
    apply read_arp_header_Ok in H as (fs & H & Hb).
    apply build_arp_Ok in Hb as (_ & -> & -> & _).
    pose proof (Hfields _ _ _ H) as Hv. fold op in Hv.
    destruct (variant_cases op) as (V1 & V2 & V3 & V4).
    split; [|split; [|split]]; intros Hop;
      [rewrite (V1 Hop) in Hv | rewrite (V2 Hop) in Hv
      | rewrite (V3 Hop) in Hv | rewrite (V4 Hop) in Hv];
      injection Hv as -> ->; split; reflexivity.
  - eexists _, _. split; [vm_compute; reflexivity|].
    repeat split.
  - intros h op Hh He Ho.
    assert (E : exists fs f',
               read_arp_fields (open_bytes s2_bytes) = Ok (fs, f') /\
               _hwty fs = 1 /\ _ptty fs = 0x0800 /\ _oper fs = 8 /\
               self_acnm fs = "InARP"%string /\
               self_name fs = "Inverse Address Resolution Protocol"%string)
      by (eexists _, _; split; [vm_compute; reflexivity | repeat split]).
    destruct E as (fs & f' & Hf & E1 & E2 & E3 & Ha & Hn).
    destruct (build_arp_text fs f' h op) as [pt Hb];
      try (rewrite ?E1, ?E2, ?E3; assumption).
    eexists _, f'. split.
    + apply read_arp_header_Ok. exists fs. split; [exact Hf | exact Hb].
    + cbn [_acnm _name]. repeat split; assumption.
Qed.

(** C8: arp.py 215-219 look the hardware type up and hand the entry to
    [re.match].  When that entry is a member of the [Hardware] enumeration,
    as the docstring of [read_arp] types it, [re.match] raises TypeError for
    every packet: no [ptype] is emitted.  Whenever a dict is emitted, the
    entry was a text, and [ptype] is the text "Unknown [<value>]" when that
    text is not of the Ethernet family, whatever the EtherType registry
    holds, and the EtherType registry's entry when it is. *)
Theorem arp_ptype_field f fs f1 :
  read_arp_fields f = Ok (fs, f1) ->
  let u := unread f in
  (forall name value,
      HRD_get (wire_htype u) = Ok (Member name value) ->
      header f = Raise (TypeError "expected string or bytes-like object")) /\
  (forall st f',
      header f = Ok (st, f') ->
      exists h,
        HRD_get (wire_htype u) = Ok (Text h) /\
        htype (arp st) = Text h /\
        (re_match_ethernet h = false ->
         ptype (arp st)
         = PtypeText ("Unknown [" ++ format_int (wire_ptype u) ++ "]")) /\
        (re_match_ethernet h = true ->
         exists e, ETHERTYPE_get (wire_ptype u) = Ok e /\
                   ptype (arp st) = PtypeEnum e)).
Proof.
  intros H u.
  pose proof (read_arp_fields_Ok _ _ _ H)
    as (_ & _ & _ & _ & Hh & Hp & _). fold u in Hh, Hp.
  split.
  - intros name value Hm. unfold header, read_arp_header.
    rewrite (bind_step _ _ _ _ _ H).
    apply build_arp_TypeError with (name := name) (value := value).
    rewrite Hh. exact Hm.
  - intros st f' Hs.
    apply read_arp_header_Ok in Hs as (fs' & H' & Hb).
    rewrite H in H'. injection H' as <- <-.
    apply build_arp_Ok in Hb as (_ & _ & _ & (h & K1 & K2 & K3 & K4) & _).
    rewrite Hh in K1. rewrite Hp in K3, K4.
    exists h. auto.
Qed.

(** C9: the [len] entry of an emitted dict is 8 + 2*hlen + 2*plen, with
    [hlen] and [plen] the octets at offsets 4 and 5 of the header.  On the
    packet of scenario S1 no dict is emitted when the hardware-type entry
    is a member of the [Hardware] enumeration: arp.py 216 raises TypeError
    before the dict is built.  When that entry is a text, S1 decodes to
    hlen = 6, plen = 4, len = 28. *)
Theorem arp_len_field :
  (forall f st f',
      header f = Ok (st, f') ->
      hlen (arp st) = wire_hlen (unread f) /\
      plen (arp st) = wire_plen (unread f) /\
      len (arp st) = 8 + 2 * hlen (arp st) + 2 * plen (arp st)) /\
  (forall name value,
      HRD_get 1 = Ok (Member name value) ->
      header (open_bytes s1_bytes)
      = Raise (TypeError "expected string or bytes-like object")) /\
  (forall h op,
      HRD_get 1 = Ok (Text h) ->
      (re_match_ethernet h = true -> exists e, ETHERTYPE_get 0x0800 = Ok e) ->
      OPER_get 1 = Ok op ->
      exists st f',
        header (open_bytes s1_bytes) = Ok (st, f') /\
        hlen (arp st) = 6 /\ plen (arp st) = 4 /\ len (arp st) = 28).
Proof.
  assert (E : exists fs f',
             read_arp_fields (open_bytes s1_bytes) = Ok (fs, f') /\
             _hwty fs = 1 /\ _ptty fs = 0x0800 /\ _oper fs = 1 /\
             _hlen fs = 6 /\ _plen fs = 4)
    by (eexists _, _; split; [vm_compute; reflexivity | repeat split]).
  destruct E as (fs & f' & Hf & E1 & E2 & E3 & E4 & E5).
  split; [|split].
  - intros f st f1 H.
    apply read_arp_header_Ok in H as (fs0 & H & Hb).
    apply build_arp_Ok in Hb
      as (_ & _ & _ & _ & _ & Hh & Hp & _ & _ & _ & _ & Hl).
    apply read_arp_fields_Ok in H
      as (_ & _ & _ & _ & _ & _ & Kh & Kp & _).
    rewrite Hl, Hh, Hp, Kh, Kp. repeat split. lia.
  - intros name value Hm. unfold header, read_arp_header.
    rewrite (bind_step _ _ _ _ _ Hf).
    apply build_arp_TypeError with (name := name) (value := value).
    rewrite E1. exact Hm.
  - intros h op Hh He Ho.
    destruct (build_arp_text fs f' h op) as [pt Hb];
      try (rewrite ?E1, ?E2, ?E3; assumption).
    eexists _, f'. split.
    + apply read_arp_header_Ok. exists fs. split; [exact Hf | exact Hb].
    + cbn [arp hlen plen len]. rewrite E4, E5. repeat split.
Qed.

(** C2 (amended): the rendering of an address depends on the type alone.
    A hardware address is six octets rendered as colon-joined lowercase
    hex exactly when htype = 1, whatever hlen is, and hlen raw octets
    otherwise; a protocol address is four octets as an IPv4 address when
    ptype = 0x0800 and sixteen octets as an IPv6 address when
    ptype = 0x86dd, whatever plen is, and plen raw octets otherwise.  The
    four addresses follow each other from offset 8.  arp.py 197-200 render
    them so, and the dict of a decoded packet holds them as rendered. *)
Theorem arp_address_rendering :
  (forall f fs f',
      read_arp_fields f = Ok (fs, f') ->
      let u := unread f in
      let hw := hw_width (wire_htype u) (wire_hlen u) in
      let pw := proto_width (wire_ptype u) (wire_plen u) in
      let hl := Z.to_nat (wire_hlen u) in
      let pl := Z.to_nat (wire_plen u) in
      let mac b := MacText (String.concat ":" (map hex_octet b)) in
      (wire_htype u = 1 ->
       hw = 6%nat /\
       _shwa fs = mac (firstn 6 (skipn 8 u)) /\
       _thwa fs = mac (firstn 6 (skipn (8 + hw + pw) u)) /\
       List.length (firstn 6 (skipn 8 u)) = 6%nat /\
       List.length (firstn 6 (skipn (8 + hw + pw) u)) = 6%nat) /\
      (wire_htype u <> 1 ->
       hw = hl /\
       _shwa fs = RawBytes (firstn hl (skipn 8 u)) /\
       _thwa fs = RawBytes (firstn hl (skipn (8 + hw + pw) u))) /\
      (wire_ptype u = 0x0800 ->
       pw = 4%nat /\
       _spta fs = IPv4Address (firstn 4 (skipn (8 + hw) u)) /\
       _tpta fs = IPv4Address (firstn 4 (skipn (8 + hw + pw + hw) u))) /\
      (wire_ptype u = 0x86dd ->
       pw = 16%nat /\
       _spta fs = IPv6Address (firstn 16 (skipn (8 + hw) u)) /\
       _tpta fs = IPv6Address (firstn 16 (skipn (8 + hw + pw + hw) u))) /\
      (wire_ptype u <> 0x0800 -> wire_ptype u <> 0x86dd ->
       pw = pl /\
       _spta fs = RawBytes (firstn pl (skipn (8 + hw) u)) /\
       _tpta fs = RawBytes (firstn pl (skipn (8 + hw + pw + hw) u))) /\
      f' = advance (8 + hw + pw + hw + pw) f) /\
  (forall f st f',
      header f = Ok (st, f') ->
      exists fs,
        read_arp_fields f = Ok (fs, f') /\
        sha (arp st) = _shwa fs /\ spa (arp st) = _spta fs /\
        tha (arp st) = _thwa fs /\ tpa (arp st) = _tpta fs).
Proof.
  split.
  - intros f fs f' H u hw pw hl pl mac.
    apply read_arp_fields_Ok in H
      as (Hle & Hf & _ & _ & _ & _ & _ & _ & _ & H1 & H2 & H3 & H4).
    fold u in Hle, H1, H2, H3, H4, Hf. fold hw pw in Hle, H1, H2, H3, H4, Hf.
    apply _read_addr_resolve_Ok in H1 as (_ & H1 & _).
    apply _read_proto_resolve_Ok in H2 as (_ & H2 & _).
    apply _read_addr_resolve_Ok in H3 as (_ & H3 & _).
    apply _read_proto_resolve_Ok in H4 as (_ & H4 & _).
    rewrite unread_advance in H1, H2, H3, H4. fold u in H1, H2, H3, H4.
    unfold remaining in Hle. fold u in Hle.
    unfold mac. rewrite <- !mac_text_octets.
    split; [|split; [|split; [|split; [|split]]]]; try assumption.
    + intros E. rewrite H1, H3, E, !length_firstn, !length_skipn.
      assert (hw = 6%nat) by (unfold hw, hw_width; rewrite E; reflexivity).
      repeat split; try assumption; lia.
    + intros E. apply Z.eqb_neq in E. rewrite H1, H3, E.
      unfold hw, hw_width. rewrite E. repeat split.
    + intros E. rewrite H2, H4, E.
      unfold pw, proto_width. rewrite E. repeat split.
    + intros E. rewrite H2, H4, E.
      unfold pw, proto_width. rewrite E. repeat split.
    + intros E1 E2. apply Z.eqb_neq in E1, E2. rewrite H2, H4, E1, E2.
      unfold pw, proto_width. rewrite E1, E2. repeat split.
  - intros f st f' H.
    apply read_arp_header_Ok in H as (fs & H & Hb).
    apply build_arp_Ok in Hb
      as (_ & _ & _ & _ & _ & _ & _ & K1 & K2 & K3 & K4 & _).
    exists fs. auto.
Qed.

End Header.

Section ReadArp.
Variables EtherType Operation Packet Decoded : Type.
Variable HRD_get : Z -> result entry.
Variable ETHERTYPE_get : Z -> result EtherType.
Variable OPER_get : Z -> result Operation.
Variable len_self : BytesIO -> Z.
Variable _read_packet : Z -> Z -> M Packet.
Variable _decode_next_layer :
  arp_dict EtherType Operation * Packet -> option EtherType -> Z -> M Decoded.

(** A successful [read_arp] has decoded the header: the attributes and the
    dict it yields are those of [read_arp_header] on the same file. *)
Lemma read_arp_decodes_header length f st d f' :
  read_arp EtherType Operation Packet Decoded HRD_get ETHERTYPE_get OPER_get
    len_self _read_packet _decode_next_layer length f = Ok ((st, d), f') ->
  exists f1,
    read_arp_header EtherType Operation HRD_get ETHERTYPE_get OPER_get f
    = Ok (st, f1).
Proof.
  unfold read_arp. intros H.
  apply bind_Ok in H as (st' & f1 & H1 & H).
  apply bind_Ok in H as (packet & f2 & _ & H).
  apply bind_Ok in H as (d' & f3 & _ & H).
  injection H as <- _ _. exists f1. exact H1.
Qed.

End ReadArp.

Lemma arp_variant_from_oper_witness :
  (exists fs f',
      read_arp_fields (open_bytes s2_bytes) = Ok (fs, f') /\
      self_acnm fs = "InARP"%string /\
      self_name fs = "Inverse Address Resolution Protocol"%string) /\
  (exists st f',
      sample_header (open_bytes s2_bytes) = Ok (st, f') /\
      _acnm st = "InARP"%string /\
      _name st = "Inverse Address Resolution Protocol"%string).
Proof.
  pose proof (arp_variant_from_oper string string sample_HRD
                sample_ETHERTYPE sample_OPER) as (Hfields & Hdict & _).
  split.
  - eexists _, _. split; [vm_compute; reflexivity|].
    apply (Hfields (open_bytes s2_bytes) _ _ eq_refl).
    left. reflexivity.
  - eexists _, _. split; [vm_compute; reflexivity|].
    apply (Hdict (open_bytes s2_bytes) _ _ eq_refl).
    left. reflexivity.
Defined.

Lemma arp_ptype_field_witness :
  enum_header (open_bytes s1_bytes)
  = Raise (TypeError "expected string or bytes-like object") /\
  (exists st f',
      sample_header (open_bytes s1_bytes) = Ok (st, f') /\
      htype (arp st) = Text "Ethernet" /\
      ptype (arp st) = PtypeEnum "IPv4"%string) /\
  exists st f',
    sample_header (open_bytes ieee802_bytes) = Ok (st, f') /\
    htype (arp st) = Text "Unassigned [6]" /\
    ptype (arp st) = PtypeText "Unknown [2048]".
Proof.
  split; [|split].
  - apply (proj1 (arp_ptype_field string string enum_HRD sample_ETHERTYPE
                    sample_OPER (open_bytes s1_bytes) _ _ eq_refl)
             "Ethernet"%string 1).
    reflexivity.
  - eexists _, _. split; [vm_compute; reflexivity|].
    destruct (proj2 (arp_ptype_field string string sample_HRD
                       sample_ETHERTYPE sample_OPER
                       (open_bytes s1_bytes) _ _ eq_refl)
                _ _ eq_refl)
      as (h & Hh & Ht & _ & He).
    injection Hh as <-. split; [exact Ht|].
    destruct (He eq_refl) as (e & Ee & Hp). injection Ee as <-. exact Hp.
  - eexists _, _. split; [vm_compute; reflexivity|].
    destruct (proj2 (arp_ptype_field string string sample_HRD
                       sample_ETHERTYPE sample_OPER
                       (open_bytes ieee802_bytes) _ _ eq_refl)
                _ _ eq_refl)
      as (h & Hh & Ht & Hu & _).
    injection Hh as <-. split; [exact Ht | exact (Hu eq_refl)].
Defined.

Lemma arp_len_field_witness :
  enum_header (open_bytes s1_bytes)
  = Raise (TypeError "expected string or bytes-like object") /\
  exists st f',
    sample_header (open_bytes s1_bytes) = Ok (st, f') /\
    len (arp st) = 8 + 2 * hlen (arp st) + 2 * plen (arp st).
Proof.
  split.
  - apply (proj1 (proj2 (arp_len_field string string enum_HRD
                           sample_ETHERTYPE sample_OPER))
             "Ethernet"%string 1).
    reflexivity.
  - eexists _, _. split; [vm_compute; reflexivity|].
    apply (proj1 (arp_len_field string string sample_HRD sample_ETHERTYPE
                    sample_OPER) (open_bytes s1_bytes) _ _ eq_refl).
Defined.

Lemma arp_address_rendering_witness :
  (exists fs f',
      read_arp_fields (open_bytes s1_bytes) = Ok (fs, f') /\
      _shwa fs = MacText "aa:bb:cc:dd:ee:ff" /\
      _spta fs = IPv4Address [x0a; x00; x00; x01] /\
      _thwa fs = MacText "00:00:00:00:00:00" /\
      _tpta fs = IPv4Address [x0a; x00; x00; x02]) /\
  (exists st f',
      sample_header (open_bytes s1_bytes) = Ok (st, f') /\
      sha (arp st) = MacText "aa:bb:cc:dd:ee:ff" /\
      spa (arp st) = IPv4Address [x0a; x00; x00; x01] /\
      tha (arp st) = MacText "00:00:00:00:00:00" /\
      tpa (arp st) = IPv4Address [x0a; x00; x00; x02]).
Proof.
  pose proof (arp_address_rendering string string sample_HRD sample_ETHERTYPE
                sample_OPER) as (Hfields & Hdict).
  assert (S1 : exists fs f',
             read_arp_fields (open_bytes s1_bytes) = Ok (fs, f') /\
             _shwa fs = MacText "aa:bb:cc:dd:ee:ff" /\
             _spta fs = IPv4Address [x0a; x00; x00; x01] /\
             _thwa fs = MacText "00:00:00:00:00:00" /\
             _tpta fs = IPv4Address [x0a; x00; x00; x02]).
  { eexists _, _. split; [vm_compute; reflexivity|].
    pose proof (Hfields (open_bytes s1_bytes) _ _ eq_refl)
      as (Hmac & _ & Hip & _).
    destruct (Hmac eq_refl) as (_ & Hs & Ht & _).
    destruct (Hip eq_refl) as (_ & Hsp & Htp).
    split; [exact Hs|]. split; [exact Hsp|]. split; [exact Ht | exact Htp]. }
  split; [exact S1|].
  destruct S1 as (fs & f' & Hf & Hs & Hsp & Ht & Htp).
  assert (S : exists st, sample_header (open_bytes s1_bytes) = Ok (st, f')).
  { eexists. vm_compute in Hf. injection Hf as _ <-.
    vm_compute. reflexivity. }
  destruct S as (st & Hst). exists st, f'. split; [exact Hst|].
  destruct (Hdict (open_bytes s1_bytes) st f' Hst)
    as (fs' & Hf' & K1 & K2 & K3 & K4).
  rewrite Hf in Hf'. injection Hf' as <-.
  rewrite K1, K2, K3, K4. auto.
Defined.

(** C2, as stated, fails: with htype = 1 and hlen = 8 the decoder still
    takes six octets for [sha] and renders them as colon-joined hex, not
    eight raw octets; with ptype = 0x0800 and plen = 6 it still takes four
    octets for [spa] and renders an IPv4 address, not six raw octets. *)
Lemma arp_address_rendering_counterexample :
  (exists fs f',
      read_arp_fields (open_bytes odd_lengths_bytes) = Ok (fs, f') /\
      _hwty fs = 1 /\ _hlen fs = 8 /\ _ptty fs = 0x0800 /\ _plen fs = 6 /\
      _shwa fs = MacText "01:02:03:04:05:06" /\
      _shwa fs <> RawBytes [x01; x02; x03; x04; x05; x06; x07; x08] /\
      _spta fs = IPv4Address [x07; x08; x09; x0a] /\
      _spta fs <> RawBytes [x09; x0a; x0b; x0c; x0d; x0e] /\
      _spta fs <> RawBytes [x07; x08; x09; x0a; x0b; x0c]) /\
  (exists st f',
      sample_header (open_bytes odd_lengths_bytes) = Ok (st, f') /\
      wire_htype odd_lengths_bytes = 1 /\ hlen (arp st) = 8 /\
      wire_ptype odd_lengths_bytes = 0x0800 /\ plen (arp st) = 6 /\
      sha (arp st) = MacText "01:02:03:04:05:06" /\
      sha (arp st) <> RawBytes [x01; x02; x03; x04; x05; x06; x07; x08] /\
      spa (arp st) = IPv4Address [x07; x08; x09; x0a] /\
      spa (arp st) <> RawBytes [x09; x0a; x0b; x0c; x0d; x0e] /\
      spa (arp st) <> RawBytes [x07; x08; x09; x0a; x0b; x0c]).
Proof.
  split.
  - eexists _, _. split; [vm_compute; reflexivity|].
    cbn [_hwty _hlen _ptty _plen _shwa _spta].
    repeat split; discriminate.
  - eexists _, _. split; [vm_compute; reflexivity|].
    cbn [arp sha spa hlen plen].
    repeat split; discriminate.
Qed.

End ARPSpec.

(** ** Internet-layer dispatch *)

Module InternetSpec.
Import Internet.

Section Dispatch.
Variables Info ProtoChain : Type.
Variables IPv4 IPv6 AH TCP UDP : M (Info * ProtoChain * Z).

Let import := _import_next_layer Info ProtoChain IPv4 IPv6 AH TCP UDP.

Lemma proto_is_false proto name :
  proto <> Some name -> proto_is proto name = false.
Proof.
  intros H. destruct proto as [p|]; [|reflexivity]. simpl.
  apply String.eqb_neq. congruence.
Qed.

(** C5: for a protocol name other than IPv4, IPv6, AH, TCP and UDP
    (a name the registry did not know, [None], included) the dispatch does
    not fail and calls no decoder: it reads every unread octet of the
    file, leaving the file at its end, and returns them as one undecoded
    payload ([None] when there was none) together with no protocol
    chain. *)
Theorem import_next_layer_unknown proto f :
  proto <> Some "IPv4"%string -> proto <> Some "IPv6"%string ->
  proto <> Some "AH"%string -> proto <> Some "TCP"%string ->
  proto <> Some "UDP"%string ->
  exists data,
    import proto f = Ok (Undecoded data, advance (remaining f) f) /\
    payload_bytes data = unread f /\
    (data = None <-> unread f = []) /\
    remaining (advance (remaining f) f) = 0%nat.
Proof.
  intros H4 H6 Ha Ht Hu.
  unfold import, _import_next_layer.
  rewrite !proto_is_false by assumption.
  exists (bytes_or_None (unread f)). split; [reflexivity|].
  split; [destruct (unread f); reflexivity|].
  split; [destruct (unread f); simpl; split; congruence|].
  rewrite remaining_advance. lia.
Qed.

End Dispatch.

Lemma import_next_layer_unknown_witness :
  sample_import (Some "ICMP"%string) (mkBytesIO [x45; x00; x01; x02; x03] 2)
  = Ok (Undecoded (Some [x01; x02; x03]),
        mkBytesIO [x45; x00; x01; x02; x03] 5).
Proof.
  destruct (import_next_layer_unknown unit unit no_decoder no_decoder
              no_decoder no_decoder no_decoder (Some "ICMP"%string)
              (mkBytesIO [x45; x00; x01; x02; x03] 2))
    as (data & Hrun & Hdata & _); try discriminate.
  unfold sample_import. rewrite Hrun.
  destruct data as [b|]; simpl in Hdata; [subst b; reflexivity | discriminate].
Defined.

End InternetSpec.

(** ** Python text *)

Lemma str_eqb_eq a b : str_eqb a b = true <-> a = b.
Proof.
  revert b. induction a as [|x a IH]; intros [|y b]; simpl;
    try (split; [discriminate | congruence]); [tauto|].
  rewrite andb_true_iff, N.eqb_eq, IH. split.
  - intros [-> ->]. reflexivity.
  - intros [= -> ->]. auto.
Qed.

Lemma str_eqb_refl a : str_eqb a a = true.
Proof. apply str_eqb_eq. reflexivity. Qed.

Lemma str_eqb_neq a b : str_eqb a b = false <-> a <> b.
Proof.
  rewrite <- str_eqb_eq. destruct (str_eqb a b); split; congruence.
Qed.

Lemma startswith_app p s : startswith p s = true <-> exists r, s = p ++ r.
Proof.
  revert s. induction p as [|x p IH]; intros s; simpl.
  - split; eauto.
  - destruct s as [|y s].
    + split; [discriminate | intros (r & H); discriminate].
    + rewrite andb_true_iff, N.eqb_eq, IH. split.
      * intros (-> & r & ->). eauto.
      * intros (r & [= -> ->]). eauto.
Qed.

Lemma contains_app old s :
  contains old s = true <-> exists a b, s = a ++ old ++ b.
Proof.
  induction s as [|c s IH]; simpl.
  - rewrite orb_false_r, startswith_app. split.
    + intros (r & H). exists [], r. exact H.
    + intros (a & b & H). destruct a; [|discriminate]. eauto.
  - rewrite orb_true_iff, startswith_app, IH. split.
    + intros [(r & H) | (a & b & ->)].
      * exists [], r. exact H.
      * exists (c :: a), b. reflexivity.
    + intros (a & b & H). destruct a as [|x a].
      * left. eauto.
      * right. injection H as -> ->. eauto.
Qed.

Section Replace.
Variables old new : str.
Hypothesis old_nonempty : old <> [].

Lemma replace_from_skip p r :
  replace_from old new (List.length p) (p ++ r) = replace_from old new 0 r.
Proof. induction p as [|x p IH]; [reflexivity | exact IH]. Qed.

Lemma replace_nil : replace old new [] = [].
Proof. reflexivity. Qed.

Lemma replace_hit r : replace old new (old ++ r) = new ++ replace old new r.
Proof.
  assert (Hold : exists x o, old = x :: o)
    by (destruct old; [congruence | eauto]).
  destruct Hold as (x & o & E).
  assert (H : startswith old (old ++ r) = true)
    by (apply startswith_app; exists r; reflexivity).
  unfold replace. rewrite E in *. cbn [app replace_from] in *.
  rewrite H. cbn [List.length Nat.pred]. rewrite <- E.
  rewrite replace_from_skip. reflexivity.
Qed.

Lemma replace_miss c r :
  startswith old (c :: r) = false ->
  replace old new (c :: r) = c :: replace old new r.
Proof. unfold replace. cbn [replace_from]. intros ->. reflexivity. Qed.

(** Induction along the scan of [replace]. *)
Lemma replace_scan (P : str -> str -> Prop) :
  P [] [] ->
  (forall r, P r (replace old new r) ->
             P (old ++ r) (new ++ replace old new r)) ->
  (forall c r, startswith old (c :: r) = false ->
               P r (replace old new r) ->
               P (c :: r) (c :: replace old new r)) ->
  forall s, P s (replace old new s).
Proof.
  intros Hnil Hhit Hmiss s.
  remember (List.length s) as n eqn:Hn. revert s Hn.
  induction n as [n IH] using lt_wf_ind. intros s Hn.
  destruct s as [|c r]; [exact Hnil|].
  destruct (startswith old (c :: r)) eqn:E.
  - apply startswith_app in E as (t & E). rewrite E, replace_hit.
    apply Hhit. apply (IH (List.length t)); [|reflexivity].
    subst n. rewrite E, length_app.
    destruct old; [congruence | simpl; lia].
  - rewrite replace_miss by exact E. apply Hmiss; [exact E|].
    apply (IH (List.length r)); [subst n; simpl; lia | reflexivity].
Qed.

Lemma replace_absent s : contains old s = false -> replace old new s = s.
Proof.
  apply (replace_scan (fun s t => contains old s = false -> t = s)).
  - reflexivity.
  - intros r _ H. exfalso.
    assert (K : contains old (old ++ r) = true)
      by (apply contains_app; exists [], r; reflexivity).
    congruence.
  - intros c r _ IH H. simpl in H. apply orb_false_iff in H as [_ H].
    rewrite IH by exact H. reflexivity.
Qed.

Hypothesis new_longer : (List.length old <= List.length new)%nat.

Lemma replace_length s :
  (List.length s <= List.length (replace old new s))%nat.
Proof.
  apply (replace_scan (fun s t => (List.length s <= List.length t)%nat)).
  - reflexivity.
  - intros r IH. rewrite !length_app. lia.
  - intros c r _ IH. simpl. lia.
Qed.

Lemma replace_present_length s :
  contains old s = true ->
  (List.length s + (List.length new - List.length old)
   <= List.length (replace old new s))%nat.
Proof.
  apply (replace_scan
           (fun s t => contains old s = true ->
                       (List.length s + (List.length new - List.length old)
                        <= List.length t)%nat)).
  - intros H. simpl in H. rewrite orb_false_r in H.
    apply startswith_app in H as (r & H).
    destruct old; [congruence | discriminate].
  - intros r _ _. rewrite !length_app.
    pose proof (replace_length r). lia.
  - intros c r E IH H. simpl in H. rewrite orb_true_iff in H.
    destruct H as [H|H].
    + simpl in E. congruence.
    + specialize (IH H). simpl. lia.
Qed.

End Replace.

Example strip_sample :
  strip ([0x1C; 0x20] ++ U "a" ++ [0x20; 0x1F; 0x85; 0xA0; 0x2003])%N = U "a".
Proof. reflexivity. Qed.

Example replace_samples :
  replace (U "aa") (U "b") (U "aaa") = U "ba" /\
  replace (U "request") (U "request_field") (U "requestrequest")
  = U "request_fieldrequest_field".
Proof. split; reflexivity. Qed.

Example py_int_samples (unicode_decimal : N -> option Z) :
  py_int unicode_decimal (U "200") = Some 200 /\
  py_int unicode_decimal (U "2000") = Some 2000 /\
  py_int unicode_decimal (U "200_0") = Some 2000 /\
  py_int unicode_decimal (U "+200") = Some 200 /\
  py_int unicode_decimal (U "200" ++ [0x85%N]) = Some 200 /\
  py_int unicode_decimal (U "200" ++ [0x1C%N]) = None /\
  py_int unicode_decimal (U "200abc") = None /\
  py_int unicode_decimal (U "200_") = None /\
  py_int unicode_decimal (U "20__0") = None.
Proof. repeat split. Qed.

Example utf8_decode_samples :
  utf8_decode [xff] = None /\
  utf8_decode [xed; xa0; x80] = None /\
  utf8_decode [xc0; x80] = None /\
  utf8_decode [xf4; x90; x80; x80] = None /\
  utf8_decode [xe0; x9f; x80] = None /\
  utf8_decode [xf0; x8f; x80; x80] = None /\
  utf8_decode [xf4; x8f; xbf; xbf] = Some [1114111%N] /\
  utf8_decode [xc3; xa9] = Some [233%N] /\
  utf8_decode [xe2; x82; xac] = Some [8364%N].
Proof. repeat split. Qed.

Lemma utf8_decode_ascii b :
  Forall (fun x => (Byte.to_N x < 128)%N) b ->
  utf8_decode b = Some (map Byte.to_N b).
Proof.
  induction 1 as [|x r Hx _ IH]; [reflexivity|].
  cbn [utf8_decode map]. apply N.ltb_lt in Hx. rewrite Hx, IH. reflexivity.
Qed.

Lemma decode_ascii b :
  Forall (fun x => (Byte.to_N x < 128)%N) b -> decode b = Ok (map Byte.to_N b).
Proof. intros H. unfold decode. rewrite utf8_decode_ascii by exact H. reflexivity. Qed.

(** ** Dicts *)

Lemma dict_get_set_same k v d : dict_get k (dict_set k v d) = Some v.
Proof.
  induction d as [|[k' v'] d IH]; simpl.
  - rewrite str_eqb_refl. reflexivity.
  - destruct (str_eqb k k') eqn:E; simpl; rewrite E; [reflexivity | exact IH].
Qed.

Lemma dict_get_set_other k k' v d :
  k' <> k -> dict_get k' (dict_set k v d) = dict_get k' d.
Proof.
  intros Hne. induction d as [|[k0 v0] d IH]; simpl.
  - apply str_eqb_neq in Hne. rewrite Hne. reflexivity.
  - destruct (str_eqb k k0) eqn:E; simpl.
    + apply str_eqb_eq in E. subst k0.
      apply str_eqb_neq in Hne. rewrite Hne. reflexivity.
    + destruct (str_eqb k' k0); [reflexivity | exact IH].
Qed.

(** ** HTTP/1.x *)

Module HTTPSpec.
Import HTTPv1.
Local Open Scope exn_scope.

(** *** Splitting bytes *)

Lemma byte_eqb_eq x y : Byte.eqb x y = true <-> x = y.
Proof. split; [apply Byte.byte_dec_bl | apply Byte.byte_dec_lb]. Qed.

Lemma after_prefix_app p s r : after_prefix p s = Some r <-> s = p ++ r.
Proof.
  revert s. induction p as [|x p IH]; intros s; simpl.
  - split; congruence.
  - destruct s as [|y s]; [split; discriminate|].
    destruct (Byte.eqb x y) eqn:E.
    + apply byte_eqb_eq in E. subst y. rewrite IH. split; congruence.
    + split; [discriminate|]. intros [= -> _].
      rewrite (proj2 (byte_eqb_eq x x) eq_refl) in E. discriminate.
Qed.

Lemma after_prefix_None p s :
  after_prefix p s = None <-> forall r, s <> p ++ r.
Proof.
  split.
  - intros H r E. apply after_prefix_app in E. congruence.
  - intros H. destruct (after_prefix p s) as [r|] eqn:E; [|reflexivity].
    apply after_prefix_app in E. destruct (H r E).
Qed.

(** [find_sep] cuts the text around an occurrence of the separator... *)
Lemma find_sep_Some sep s a b :
  find_sep sep s = Some (a, b) -> s = a ++ sep ++ b.
Proof.
  revert a. induction s as [|c s IH]; intros a; simpl.
  - destruct (after_prefix sep []) as [r|] eqn:E; [|discriminate].
    intros [= <- <-]. apply after_prefix_app in E. exact E.
  - destruct (after_prefix sep (c :: s)) as [r|] eqn:E.
    + intros [= <- <-]. apply after_prefix_app in E. exact E.
    + destruct (find_sep sep s) as [[a' b']|]; [|discriminate].
      intros [= <- <-]. rewrite (IH a' eq_refl). reflexivity.
Qed.

(** ... the first one ... *)
Lemma find_sep_first sep s a b :
  find_sep sep s = Some (a, b) ->
  forall a' b', s = a' ++ sep ++ b' -> (List.length a <= List.length a')%nat.
Proof.
  revert a. induction s as [|c s IH]; intros a; simpl.
  - destruct (after_prefix sep []); [|discriminate].
    intros [= <- <-] a' b' _. simpl. lia.
  - destruct (after_prefix sep (c :: s)) as [r|] eqn:E.
    + intros [= <- <-] a' b' _. simpl. lia.
    + destruct (find_sep sep s) as [[a0 b0]|]; [|discriminate].
      intros [= <- <-] a' b' H. destruct a' as [|x a'].
      * simpl in H. apply after_prefix_app in H. congruence.
      * injection H as _ H. specialize (IH a0 eq_refl a' b' H). simpl. lia.
Qed.

(** ... and finds none exactly when the separator does not occur. *)
Lemma find_sep_None sep s :
  find_sep sep s = None <-> forall a b, s <> a ++ sep ++ b.
Proof.
  induction s as [|c s IH]; simpl.
  - destruct (after_prefix sep []) as [r|] eqn:E.
    + split; [discriminate|]. intros H. apply after_prefix_app in E.
      destruct (H [] r E).
    + split; [|reflexivity]. intros _ a b H.
      destruct a; [|discriminate]. simpl in H.
      apply after_prefix_app in H. congruence.
  - destruct (after_prefix sep (c :: s)) as [r|] eqn:E.
    + split; [discriminate|]. intros H. apply after_prefix_app in E.
      destruct (H [] r E).
    + destruct (find_sep sep s) as [[a0 b0]|] eqn:F.
      * split; [discriminate|]. intros H. apply find_sep_Some in F.
        destruct (H (c :: a0) b0). rewrite F. reflexivity.
      * split; [|reflexivity]. intros _ a b H. destruct a as [|x a].
        -- simpl in H. apply after_prefix_app in H. congruence.
        -- injection H as _ H. exact (proj1 IH eq_refl a b H).
Qed.

Lemma split1_cases sep s :
  (exists a b, find_sep sep s = Some (a, b) /\ split1 sep s = [a; b]) \/
  (find_sep sep s = None /\ split1 sep s = [s]).
Proof.
  unfold split1. destruct (find_sep sep s) as [[a b]|]; eauto.
Qed.

(** *** The splitting functions on sample texts *)

Example split1_first_separator :
  split1 (CRLF ++ CRLF) (B "a" ++ CRLF ++ CRLF ++ CRLF ++ B "b")
  = [B "a"; CRLF ++ B "b"].
Proof. reflexivity. Qed.

Example split_crlf_samples :
  split_crlf (CRLF ++ CRLF) = [[]; []; []] /\
  split_crlf [] = [[]] /\
  split_crlf (B "a" ++ CRLF ++ CRLF ++ B "b" ++ CRLF) = [B "a"; []; B "b"; []] /\
  split_crlf [x0d; x0d; x0a; x0a] = [[x0d]; [x0a]].
Proof. repeat split. Qed.

Example re_split_spaces_samples :
  re_split_spaces 2 (B " GET / HTTP/1.1") = [[]; B "GET"; B "/ HTTP/1.1"] /\
  re_split_spaces 2 (B "GET / ") = [B "GET"; B "/"; []] /\
  re_split_spaces 2 (B "HTTP/1.1 200 Not Found")
  = [B "HTTP/1.1"; B "200"; B "Not Found"] /\
  re_split_spaces 2 (B "GET" ++ [x1c] ++ B "/ x") = [B "GET" ++ [x1c] ++ B "/"; B "x"] /\
  re_split_spaces 2 (B "GET " ++ [x0d; x09] ++ B " / x" ++ [x0a])
  = [B "GET"; B "/"; B "x" ++ [x0a]] /\
  re_split_spaces 2 [] = [[]].
Proof. repeat split. Qed.

Example re_split_colon_samples :
  re_split_colon (B "a " ++ [x09] ++ B ": b :c") = [B "a"; B "b :c"] /\
  re_split_colon (B " : x") = [[]; B "x"] /\
  re_split_colon (B "abc") = [B "abc"] /\
  re_split_colon (B "a" ++ [x1c] ++ B ":" ++ [x1c] ++ B "b")
  = [B "a" ++ [x1c]; [x1c] ++ B "b"] /\
  re_split_colon [] = [[]].
Proof. repeat split. Qed.

(** *** The regular expressions *)

Lemma _RE_METHOD_spec text :
  _RE_METHOD text = true <-> exists m rest, In m methods /\ text = m ++ rest.
Proof.
  unfold _RE_METHOD. rewrite existsb_exists. split.
  - intros (m & Hin & H). destruct (after_prefix m text) as [r|] eqn:E;
      [|discriminate].
    apply after_prefix_app in E. eauto.
  - intros (m & rest & Hin & H). exists m. split; [exact Hin|].
    apply after_prefix_app in H. rewrite H. reflexivity.
Qed.

Lemma _RE_VERSION_spec text v :
  _RE_VERSION text = Some v <->
  exists d1 d2 rest,
    re_digit d1 = true /\ re_digit d2 = true /\
    v = [d1; x2e; d2] /\ text = B "HTTP/" ++ [d1; x2e; d2] ++ rest.
Proof.
  unfold _RE_VERSION. split.
  - destruct (after_prefix (B "HTTP/") text) as [r|] eqn:E; [|discriminate].
    apply after_prefix_app in E.
    destruct r as [|d1 [|dot [|d2 rest]]]; try discriminate;
      destruct dot; try discriminate.
    destruct (re_digit d1) eqn:E1; [|simpl; discriminate].
    destruct (re_digit d2) eqn:E2; [|simpl; discriminate].
    simpl. intros [= <-]. exists d1, d2, rest. auto.
  - intros (d1 & d2 & rest & E1 & E2 & -> & ->).
    assert (E : after_prefix (B "HTTP/") (B "HTTP/" ++ [d1; x2e; d2] ++ rest)
                = Some ([d1; x2e; d2] ++ rest))
      by (apply after_prefix_app; reflexivity).
    rewrite E. simpl. rewrite E1, E2. reflexivity.
Qed.

Lemma _RE_STATUS_spec text :
  _RE_STATUS text = true <->
  exists d1 d2 d3 rest,
    re_digit d1 = true /\ re_digit d2 = true /\ re_digit d3 = true /\
    text = d1 :: d2 :: d3 :: rest.
Proof.
  unfold _RE_STATUS. split.
  - destruct text as [|d1 [|d2 [|d3 rest]]]; try discriminate.
    rewrite !andb_true_iff. intros [[? ?] ?]. exists d1, d2, d3, rest. auto.
  - intros (d1 & d2 & d3 & rest & E1 & E2 & E3 & ->).
    rewrite E1, E2, E3. reflexivity.
Qed.

Lemma re_digit_ascii d : re_digit d = true -> (Byte.to_N d < 128)%N.
Proof.
  unfold re_digit. rewrite andb_true_iff, !N.leb_le. lia.
Qed.

Lemma version_decodes d1 d2 :
  re_digit d1 = true -> re_digit d2 = true ->
  decode [d1; x2e; d2] = Ok [Byte.to_N d1; 46%N; Byte.to_N d2].
Proof.
  intros H1 H2. apply decode_ascii.
  repeat constructor; try (apply re_digit_ascii; assumption).
Qed.

(** *** Header-field keys *)

Lemma request_nonempty : U "request" <> [].
Proof. discriminate. Qed.

Lemma response_nonempty : U "response" <> [].
Proof. discriminate. Qed.

Lemma contains_length old s :
  contains old s = true -> (List.length old <= List.length s)%nat.
Proof.
  intros H. apply contains_app in H as (a & b & ->).
  rewrite !length_app. lia.
Qed.

(** A key is stored as it is exactly when it holds neither reserved word. *)
Lemma field_key_unchanged text :
  field_key text = strip text <->
  contains (U "request") (strip text) = false /\
  contains (U "response") (strip text) = false.
Proof.
  unfold field_key. set (t := strip text). split.
  - intros H.
    pose proof (replace_length (U "request") (U "request_field")
                  request_nonempty ltac:(simpl; lia) t) as L1.
    pose proof (replace_length (U "response") (U "response_field")
                  response_nonempty ltac:(simpl; lia)
                  (replace (U "request") (U "request_field") t)) as L2.
    destruct (contains (U "request") t) eqn:E1.
    + pose proof (replace_present_length (U "request") (U "request_field")
                    request_nonempty ltac:(simpl; lia) t E1) as K.
      apply (f_equal (@List.length N)) in H. simpl in K. lia.
    + rewrite (replace_absent _ _ request_nonempty t E1) in H, L2.
      destruct (contains (U "response") t) eqn:E2; [|auto].
      pose proof (replace_present_length (U "response") (U "response_field")
                    response_nonempty ltac:(simpl; lia) t E2) as K.
      apply (f_equal (@List.length N)) in H. simpl in K. lia.
  - intros [E1 E2].
    rewrite (replace_absent _ _ request_nonempty t E1).
    apply (replace_absent _ _ response_nonempty t E2).
Qed.

(** No field is ever stored under the key of the start-line record. *)
Lemma field_key_not_reserved text :
  field_key text <> U "request" /\ field_key text <> U "response".
Proof.
  unfold field_key. set (t := strip text).
  set (s1 := replace (U "request") (U "request_field") t).
  destruct (contains (U "response") s1) eqn:E2.
  - pose proof (replace_present_length (U "response") (U "response_field")
                  response_nonempty ltac:(simpl; lia) s1 E2) as K.
    pose proof (contains_length _ _ E2) as L. simpl in K, L.
    split; intros H; apply (f_equal (@List.length N)) in H; simpl in H; lia.
  - rewrite (replace_absent _ _ response_nonempty s1 E2).
    destruct (contains (U "request") t) eqn:E1.
    + pose proof (replace_present_length (U "request") (U "request_field")
                    request_nonempty ltac:(simpl; lia) t E1) as K.
      pose proof (contains_length _ _ E1) as L. fold s1 in K. simpl in K, L.
      split; intros H; apply (f_equal (@List.length N)) in H; simpl in H; lia.
    + assert (Hs : s1 = t) by apply (replace_absent _ _ request_nonempty t E1).
      rewrite Hs in *. split; intros H; rewrite H in *; discriminate.
Qed.

(** *** The loop over the header fields *)

Lemma store_field_Ok header item0 item1 rest k v :
  utf8_decode item0 = Some k -> utf8_decode item1 = Some v ->
  store_field header (item0 :: item1 :: rest)
  = Ok (dict_set (field_key k) (stored header (field_key k) (strip v)) header).
Proof.
  intros Hk Hv. unfold store_field, decode, stored. rewrite Hk, Hv. simpl.
  destruct (dict_get (field_key k) header) as [[]|]; reflexivity.
Qed.

Lemma store_field_inv header item header' :
  store_field header item = Ok header' ->
  exists item0 item1 rest k v,
    item = item0 :: item1 :: rest /\
    utf8_decode item0 = Some k /\ utf8_decode item1 = Some v /\
    header' = dict_set (field_key k) (stored header (field_key k) (strip v))
                header.
Proof.
  destruct item as [|item0 [|item1 rest]].
  - discriminate.
  - simpl. unfold decode. destruct (utf8_decode item0); discriminate.
  - intros H.
    destruct (utf8_decode item0) as [k|] eqn:Hk;
      [|simpl in H; unfold decode in H; rewrite Hk in H; discriminate].
    destruct (utf8_decode item1) as [v|] eqn:Hv;
      [|simpl in H; unfold decode in H; rewrite Hk, Hv in H; discriminate].
    rewrite (store_field_Ok header item0 item1 rest k v Hk Hv) in H.
    injection H as <-. exists item0, item1, rest, k, v. auto.
Qed.

Lemma re_split_colon_cases field :
  (find_sep [x3a] field = None /\ re_split_colon field = [field]) \/
  (exists before after,
      find_sep [x3a] field = Some (before, after) /\
      re_split_colon field = [rskip_spaces before; skip_spaces after]).
Proof.
  unfold re_split_colon.
  destruct (find_sep [x3a] field) as [[before after]|]; eauto.
Qed.

(** A field without a colon stops the loop. *)
Lemma store_field_colonless header field :
  find_sep [x3a] field = None ->
  store_field header (re_split_colon field)
  = match utf8_decode field with
    | Some _ => Raise invalid_format
    | None => Raise UnicodeDecodeError
    end.
Proof.
  intros H. unfold re_split_colon. rewrite H. unfold store_field, decode.
  destruct (utf8_decode field); reflexivity.
Qed.

(** When the texts decode, a turn stores the field or reports the format. *)
Lemma store_field_decodable header item :
  (forall part, In part item -> utf8_decode part <> None) ->
  (exists header', store_field header item = Ok header') \/
  store_field header item = Raise invalid_format.
Proof.
  intros H. destruct item as [|item0 [|item1 rest]]; simpl.
  - auto.
  - right. unfold decode.
    destruct (utf8_decode item0) eqn:E; [reflexivity|].
    destruct (H item0); simpl; auto.
  - left.
    destruct (utf8_decode item0) as [k|] eqn:Hk;
      [|destruct (H item0); simpl; auto].
    destruct (utf8_decode item1) as [v|] eqn:Hv;
      [|destruct (H item1); simpl; auto].
    eexists. apply (store_field_Ok header item0 item1 rest k v Hk Hv).
Qed.

Lemma store_fields_colonless pre : forall header bad post,
  find_sep [x3a] bad = None ->
  (exists e, store_fields header (pre ++ bad :: post) = Raise e) /\
  ((forall field part, In field (pre ++ [bad]) ->
                       In part (re_split_colon field) ->
                       utf8_decode part <> None) ->
   store_fields header (pre ++ bad :: post) = Raise invalid_format).
Proof.
  induction pre as [|field pre IH]; intros header bad post Hbad.
  - cbn [app store_fields]. rewrite (store_field_colonless header bad Hbad).
    split.
    + destruct (utf8_decode bad); eexists; reflexivity.
    + intros Hdec. destruct (utf8_decode bad) eqn:E; [reflexivity|].
      destruct (Hdec bad bad); simpl; auto.
      unfold re_split_colon. rewrite Hbad. simpl. auto.
  - cbn [app store_fields].
    destruct (store_field header (re_split_colon field)) as [header'|e] eqn:E;
      cbn [rbind].
    + destruct (IH header' bad post Hbad) as [He Hd]. split; [exact He|].
      intros Hdec. apply Hd. intros f part Hf Hp.
      apply (Hdec f part); [right; exact Hf | exact Hp].
    + split; [eauto|]. intros Hdec.
      destruct (store_field_decodable header (re_split_colon field))
        as [[h' Hok]|Hfmt].
      * intros part Hp. apply (Hdec field part); [left; reflexivity | exact Hp].
      * congruence.
      * congruence.
Qed.

Lemma store_field_keeps header item header' k0 :
  store_field header item = Ok header' ->
  k0 = U "request" \/ k0 = U "response" ->
  dict_get k0 header' = dict_get k0 header.
Proof.
  intros H Hk0.
  apply store_field_inv in H as (i0 & i1 & rest & k & v & _ & _ & _ & ->).
  apply dict_get_set_other.
  destruct (field_key_not_reserved k) as [H1 H2].
  destruct Hk0 as [-> | ->]; congruence.
Qed.

Lemma store_fields_keeps fields : forall header header' k0,
  store_fields header fields = Ok header' ->
  k0 = U "request" \/ k0 = U "response" ->
  dict_get k0 header' = dict_get k0 header.
Proof.
  induction fields as [|field more IH]; intros header header' k0 H Hk0.
  - injection H as <-. reflexivity.
  - cbn [store_fields] in H.
    destruct (store_field header (re_split_colon field)) as [h1|e] eqn:E;
      [|discriminate].
    cbn [rbind] in H. rewrite (IH h1 header' k0 H Hk0).
    apply (store_field_keeps header _ h1 k0 E Hk0).
Qed.

(** C6 (amended): the key a header field is stored under is its name,
    stripped, with every occurrence of "request" replaced by
    "request_field" and then every occurrence of "response" by
    "response_field" (case-sensitive).  So the names "request" and
    "response" are stored as "request_field" and "response_field", a name is
    stored unchanged exactly when it holds neither word as a substring, and
    "X-request-id" is stored as "X-request_field-id". *)
Theorem http_field_key_renaming :
  (forall header item0 item1 rest k v,
      utf8_decode item0 = Some k -> utf8_decode item1 = Some v ->
      exists header',
        store_field header (item0 :: item1 :: rest) = Ok header' /\
        dict_get (field_key k) header'
          = Some (stored header (field_key k) (strip v)) /\
        (forall k', k' <> field_key k ->
                    dict_get k' header' = dict_get k' header)) /\
  field_key (U "request") = U "request_field" /\
  field_key (U "response") = U "response_field" /\
  field_key (U "X-request-id") = U "X-request_field-id" /\
  (forall k,
      field_key k = strip k <->
      (forall a b, strip k <> a ++ U "request" ++ b) /\
      (forall a b, strip k <> a ++ U "response" ++ b)).
Proof.
  split; [|split; [|split; [|split]]]; try reflexivity.
  - intros header item0 item1 rest k v Hk Hv. eexists. split; [|split].
    + apply (store_field_Ok header item0 item1 rest k v Hk Hv).
    + apply dict_get_set_same.
    + intros k' Hne. apply dict_get_set_other. exact Hne.
  - intros k. rewrite field_key_unchanged. split.
    + intros [E1 E2]. split; intros a b H.
      * assert (K : contains (U "request") (strip k) = true)
          by (apply contains_app; eauto).
        congruence.
      * assert (K : contains (U "response") (strip k) = true)
          by (apply contains_app; eauto).
        congruence.
    + intros [E1 E2]. split.
      * destruct (contains (U "request") (strip k)) eqn:E; [|reflexivity].
        apply contains_app in E as (a & b & E). destruct (E1 a b E).
      * destruct (contains (U "response") (strip k)) eqn:E; [|reflexivity].
        apply contains_app in E as (a & b & E). destruct (E2 a b E).
Qed.

Lemma http_field_key_renaming_witness :
  exists header',
    store_field [] [B "Host"; B "example.com"] = Ok header' /\
    dict_get (U "Host") header' = Some (VStr (U "example.com")).
Proof.
  destruct (proj1 http_field_key_renaming [] (B "Host") (B "example.com") []
              (U "Host") (U "example.com") eq_refl eq_refl)
    as (header' & Hrun & Hget & _).
  exists header'. split; [exact Hrun | exact Hget].
Defined.

(** C6, as stated, fails: the field name "X-request-id" merely holds the
    word "request", yet the field is not stored under its own name but
    under "X-request_field-id". *)
Lemma http_field_key_counterexample :
  exists info f' header,
    sample_read_http request_id_payload = Ok (info, f') /\
    lookup [U "header"] info = Some (VDict header) /\
    U "X-request-id" <> U "request" /\ U "X-request-id" <> U "response" /\
    dict_get (U "X-request-id") header = None /\
    dict_get (U "X-request_field-id") header = Some (VStr (U "7")).
Proof.
  eexists _, _, _. split; [vm_compute; reflexivity|].
  split; [reflexivity|]. repeat split; discriminate.
Qed.

(** *** The decoder on a split packet *)

Section Decoder.
Variable unicode_decimal : N -> option Z.
Variable chardet_detect : bytes -> option string.
Variable codec_decode : string -> bytes -> result str.

Let start_line := read_start_line unicode_decimal.
Let header_of := _read_http_header unicode_decimal.
Let decode_packet :=
  read_http_packet unicode_decimal chardet_detect codec_decode.
Let run := read_http unicode_decimal chardet_detect codec_decode.
Let body_of := _read_http_body chardet_detect codec_decode.

Lemma _read_http_header_split header startline headerfield A B' C :
  split1 CRLF header = [startline; headerfield] ->
  re_split_spaces 2 startline = [A; B'; C] ->
  header_of header
  = (start <- start_line A B' C ;;
     header' <- store_fields (snd start) (split_crlf headerfield) ;;
     Ok (header', fst start)).
Proof.
  intros H1 H2. unfold header_of, _read_http_header. rewrite H1, H2.
  destruct (start_line A B' C) as [[receipt h]|e] eqn:E;
    unfold start_line in E; rewrite E; reflexivity.
Qed.

Lemma read_http_packet_split packet header body :
  split1 (CRLF ++ CRLF) packet = [header; body] ->
  decode_packet packet
  = (unpacked <- header_of header ;;
     decoded <- body_of body ;;
     Ok (VDict [(U "receipt", VStr (snd unpacked));
                (U "header", VDict (fst unpacked));
                (U "body", or_None decoded)])).
Proof.
  intros H. unfold decode_packet, read_http_packet. rewrite H.
  fold header_of. destruct (header_of header) as [[h r]|e]; reflexivity.
Qed.

(** [read_http] is the decoder applied to what [file.read] returns. *)
Lemma read_http_run length f :
  exists packet f',
    read_packet length f = Ok (packet, f') /\
    run length f = match decode_packet packet with
                   | Ok http => Ok (http, f')
                   | Raise e => Raise e
                   end.
Proof.
  unfold run, read_http.
  assert (H : exists packet f', read_packet length f = Ok (packet, f')).
  { unfold read_packet. destruct length as [n|];
      [destruct (n <? 0)|]; eexists _, _; reflexivity. }
  destruct H as (packet & f' & H). exists packet, f'. rewrite H. auto.
Qed.

(** C10 (amended): when the start line is classified and some header line
    has no colon, the decoder emits no record; the exception is
    ProtocolError 'HTTP: invalid format' provided the name and value
    texts of the header lines up to and including that one are valid
    UTF-8. *)
Theorem http_colonless_field
    packet header body startline headerfield A B' C receipt header0
    pre bad post :
  split1 (CRLF ++ CRLF) packet = [header; body] ->
  split1 CRLF header = [startline; headerfield] ->
  re_split_spaces 2 startline = [A; B'; C] ->
  start_line A B' C = Ok (receipt, header0) ->
  split_crlf headerfield = pre ++ bad :: post ->
  (forall a b, bad <> a ++ [x3a] ++ b) ->
  (exists e, decode_packet packet = Raise e) /\
  ((forall field part, In field (pre ++ [bad]) ->
                       In part (re_split_colon field) ->
                       utf8_decode part <> None) ->
   decode_packet packet = Raise invalid_format).
Proof.
  intros Hp Hh Hs Hstart Hfields Hbad.
  apply find_sep_None in Hbad.
  rewrite (read_http_packet_split packet header body Hp).
  rewrite (_read_http_header_split header startline headerfield A B' C Hh Hs).
  rewrite Hstart, Hfields. cbn [rbind snd].
  destruct (store_fields_colonless pre header0 bad post Hbad) as [[e He] Hd].
  split.
  - exists e. rewrite He. reflexivity.
  - intros Hdec. rewrite (Hd Hdec). reflexivity.
Qed.

(** C4 (amended): the decoder fails with ProtocolError 'HTTP: invalid
    format' when the packet holds no [\r\n\r\n], when its header holds no
    [\r\n], when the start line does not split into three parameters, and
    when, with "matches" read as the source's [re.match] does (anchored at
    the start only), the three parameters fit neither the request form nor
    the response form.  It fails so on the payload of scenario S6, whose
    header block [FOO BAR BAZ] holds no [\r\n]. *)
Theorem http_malformed :
  (forall length f packet f',
      read_packet length f = Ok (packet, f') ->
      (forall a b, packet <> a ++ (CRLF ++ CRLF) ++ b) ->
      run length f = Raise invalid_format) /\
  (forall length f packet f' header body,
      read_packet length f = Ok (packet, f') ->
      split1 (CRLF ++ CRLF) packet = [header; body] ->
      (forall a b, header <> a ++ CRLF ++ b) \/
      (exists startline headerfield,
          split1 CRLF header = [startline; headerfield] /\
          (List.length (re_split_spaces 2 startline) <> 3%nat \/
           exists A B' C,
             re_split_spaces 2 startline = [A; B'; C] /\
             is_request_line A C = false /\
             is_response_line A B' = false)) ->
      run length f = Raise invalid_format) /\
  run None (open_bytes s6_payload) = Raise invalid_format /\
  split1 (CRLF ++ CRLF) s6_payload = [B "FOO BAR BAZ"; []] /\
  (forall a b, B "FOO BAR BAZ" <> a ++ CRLF ++ b).
Proof.
  split; [|split; [|split; [|split]]];
    [| | reflexivity | reflexivity
     | apply find_sep_None; reflexivity].
  - intros length f packet f' Hr Hno.
    destruct (read_http_run length f) as (p & f1 & Hr' & Hrun).
    rewrite Hr in Hr'. injection Hr' as <- <-. rewrite Hrun.
    unfold decode_packet, read_http_packet, split1.
    apply find_sep_None in Hno. rewrite Hno. reflexivity.
  - intros length f packet f' header body Hr Hp Hbad.
    destruct (read_http_run length f) as (p & f1 & Hr' & Hrun).
    rewrite Hr in Hr'. injection Hr' as <- <-. rewrite Hrun.
    rewrite (read_http_packet_split packet header body Hp).
    destruct Hbad as [Hno | (startline & headerfield & Hh & Hbad)].
    + unfold header_of, _read_http_header, split1.
      apply find_sep_None in Hno. rewrite Hno. reflexivity.
    + destruct Hbad as [Hlen | (A & B' & C & Hs & Hreq & Hresp)].
      * unfold header_of, _read_http_header. rewrite Hh.
        destruct (re_split_spaces 2 startline) as [|A [|B' [|C [|D r]]]];
          try reflexivity.
        simpl in Hlen. congruence.
      * rewrite (_read_http_header_split _ _ _ _ _ _ Hh Hs).
        unfold start_line, read_start_line.
        unfold is_request_line, is_response_line in Hreq, Hresp.
        destruct (_RE_METHOD A), (_RE_VERSION C), (_RE_VERSION A),
          (_RE_STATUS B'); simpl in Hreq, Hresp; try discriminate;
          reflexivity.
Qed.

End Decoder.

Section StartLine.
Variable unicode_decimal : N -> option Z.
Variable chardet_detect : bytes -> option string.
Variable codec_decode : string -> bytes -> result str.

Let start_line := read_start_line unicode_decimal.
Let decode_packet :=
  read_http_packet unicode_decimal chardet_detect codec_decode.
Let run := read_http unicode_decimal chardet_detect codec_decode.

Lemma start_line_request A B' C a b d1 d2 rest :
  _RE_METHOD A = true ->
  C = B "HTTP/" ++ [d1; x2e; d2] ++ rest ->
  re_digit d1 = true -> re_digit d2 = true ->
  utf8_decode A = Some a -> utf8_decode B' = Some b ->
  start_line A B' C
  = Ok (U "request",
        request_record a b [Byte.to_N d1; 46%N; Byte.to_N d2]).
Proof.
  intros Hm HC H1 H2 Ha Hb.
  assert (Hv : _RE_VERSION C = Some [d1; x2e; d2])
    by (apply _RE_VERSION_spec; exists d1, d2, rest; auto).
  unfold start_line, read_start_line. rewrite Hm, Hv.
  rewrite (version_decodes d1 d2 H1 H2).
  unfold decode. rewrite Ha, Hb. reflexivity.
Qed.

Lemma start_line_response A B' C b c d1 d2 rest :
  is_request_line A C = false ->
  A = B "HTTP/" ++ [d1; x2e; d2] ++ rest ->
  re_digit d1 = true -> re_digit d2 = true ->
  _RE_STATUS B' = true ->
  utf8_decode B' = Some b -> utf8_decode C = Some c ->
  start_line A B' C
  = match py_int unicode_decimal b with
    | Some n => Ok (U "response",
                    response_record [Byte.to_N d1; 46%N; Byte.to_N d2] n c)
    | None => Raise (ValueError "invalid literal for int() with base 10")
    end.
Proof.
  intros Hreq HA H1 H2 Hs Hb Hc.
  assert (Hv : _RE_VERSION A = Some [d1; x2e; d2])
    by (apply _RE_VERSION_spec; exists d1, d2, rest; auto).
  unfold start_line, read_start_line. rewrite Hv, Hs.
  rewrite (version_decodes d1 d2 H1 H2).
  unfold decode, int_of. rewrite Hb, Hc.
  unfold is_request_line in Hreq.
  destruct (_RE_METHOD A), (_RE_VERSION C); simpl in Hreq;
    try discriminate; simpl;
    destruct (py_int unicode_decimal b); reflexivity.
Qed.

Lemma start_line_neither A B' C :
  is_request_line A C = false -> is_response_line A B' = false ->
  start_line A B' C = Raise invalid_format.
Proof.
  unfold is_request_line, is_response_line, start_line, read_start_line.
  destruct (_RE_METHOD A), (_RE_VERSION C), (_RE_VERSION A),
    (_RE_STATUS B'); simpl; intros; try discriminate; reflexivity.
Qed.

Lemma is_request_line_true A C :
  is_request_line A C = true ->
  _RE_METHOD A = true /\
  exists d1 d2 rest,
    re_digit d1 = true /\ re_digit d2 = true /\
    C = B "HTTP/" ++ [d1; x2e; d2] ++ rest.
Proof.
  unfold is_request_line. rewrite andb_true_iff. intros [Hm Hv].
  split; [exact Hm|].
  destruct (_RE_VERSION C) as [v|] eqn:E; [|discriminate].
  apply _RE_VERSION_spec in E as (d1 & d2 & rest & ? & ? & _ & ?).
  exists d1, d2, rest. auto.
Qed.

Lemma is_response_line_true A B' :
  is_response_line A B' = true ->
  _RE_STATUS B' = true /\
  exists d1 d2 rest,
    re_digit d1 = true /\ re_digit d2 = true /\
    A = B "HTTP/" ++ [d1; x2e; d2] ++ rest.
Proof.
  unfold is_response_line. rewrite andb_true_iff. intros [Hv Hs].
  split; [exact Hs|].
  destruct (_RE_VERSION A) as [v|] eqn:E; [|discriminate].
  apply _RE_VERSION_spec in E as (d1 & d2 & rest & ? & ? & _ & ?).
  exists d1, d2, rest. auto.
Qed.

(** C3 (amended): take a payload whose start line splits into three
    parameters A, B, C that are valid UTF-8, and read "matches" as the
    source's [re.match] does, anchored at the start only.  The start line
    is classified as a request (method = A, target = B, version = the
    digits of C) exactly when A begins with one of the eight method names
    and C begins with HTTP/<d>.<d>.  Otherwise it is classified as a
    response (version = the digits of A, status = int(B), phrase = C)
    exactly when A begins with HTTP/<d>.<d>, B begins with three digits
    and B as a whole is a numeral that [int] accepts.  Whenever the
    decoder emits a record, its receipt and its start-line record are
    those of this classification. *)
Theorem http_start_line_classification
    packet header body startline headerfield A B' C a b c :
  split1 (CRLF ++ CRLF) packet = [header; body] ->
  split1 CRLF header = [startline; headerfield] ->
  re_split_spaces 2 startline = [A; B'; C] ->
  utf8_decode A = Some a -> utf8_decode B' = Some b ->
  utf8_decode C = Some c ->
  ((exists h, start_line A B' C = Ok (U "request", h)) <->
   is_request_line A C = true) /\
  (is_request_line A C = true ->
   exists d1 d2 rest,
     C = B "HTTP/" ++ [d1; x2e; d2] ++ rest /\
     start_line A B' C
     = Ok (U "request",
           request_record a b [Byte.to_N d1; 46%N; Byte.to_N d2])) /\
  ((exists h, start_line A B' C = Ok (U "response", h)) <->
   is_request_line A C = false /\ is_response_line A B' = true /\
   py_int unicode_decimal b <> None) /\
  (is_request_line A C = false -> is_response_line A B' = true ->
   forall n, py_int unicode_decimal b = Some n ->
   exists d1 d2 rest,
     A = B "HTTP/" ++ [d1; x2e; d2] ++ rest /\
     start_line A B' C
     = Ok (U "response",
           response_record [Byte.to_N d1; 46%N; Byte.to_N d2] n c)) /\
  (forall info,
      decode_packet packet = Ok info ->
      exists receipt h,
        start_line A B' C = Ok (receipt, h) /\
        lookup [U "receipt"] info = Some (VStr receipt) /\
        lookup [U "header"; U "request"] info = dict_get (U "request") h /\
        lookup [U "header"; U "response"] info = dict_get (U "response") h).
Proof.
  intros Hp Hh Hs Ha Hb Hc.
  assert (Req : is_request_line A C = true ->
                exists d1 d2 rest,
                  C = B "HTTP/" ++ [d1; x2e; d2] ++ rest /\
                  start_line A B' C
                  = Ok (U "request",
                        request_record a b
                          [Byte.to_N d1; 46%N; Byte.to_N d2])).
  { intros H. apply is_request_line_true in H
      as (Hm & d1 & d2 & rest & H1 & H2 & HC).
    exists d1, d2, rest. split; [exact HC|].
    apply (start_line_request A B' C a b d1 d2 rest); assumption. }
  assert (Resp : is_request_line A C = false ->
                 is_response_line A B' = true ->
                 exists d1 d2 rest,
                   A = B "HTTP/" ++ [d1; x2e; d2] ++ rest /\
                   start_line A B' C
                   = match py_int unicode_decimal b with
                     | Some n =>
                         Ok (U "response",
                             response_record
                               [Byte.to_N d1; 46%N; Byte.to_N d2] n c)
                     | None =>
                         Raise (ValueError
                                  "invalid literal for int() with base 10")
                     end).
  { intros Hreq H. apply is_response_line_true in H
      as (Hst & d1 & d2 & rest & H1 & H2 & HA).
    exists d1, d2, rest. split; [exact HA|].
    apply (start_line_response A B' C b c d1 d2 rest); assumption. }
  split; [|split; [|split; [|split]]].
  - split; [|intros H; destruct (Req H) as (? & ? & ? & _ & E); eauto].
    intros [h H]. destruct (is_request_line A C) eqn:Hreq; [reflexivity|].
    destruct (is_response_line A B') eqn:Hresp.
    + destruct (Resp eq_refl eq_refl) as (d1 & d2 & rest & _ & E).
      rewrite E in H. destruct (py_int unicode_decimal b); discriminate.
    + rewrite (start_line_neither A B' C Hreq Hresp) in H. discriminate.
  - exact Req.
  - split.
    + intros [h H]. destruct (is_request_line A C) eqn:Hreq.
      * destruct (Req eq_refl) as (? & ? & ? & _ & E).
        rewrite E in H. discriminate.
      * destruct (is_response_line A B') eqn:Hresp.
        -- destruct (Resp eq_refl eq_refl) as (d1 & d2 & rest & _ & E).
           rewrite E in H.
           destruct (py_int unicode_decimal b); [|discriminate].
           repeat split; discriminate.
        -- rewrite (start_line_neither A B' C Hreq Hresp) in H.
           discriminate.
    + intros (Hreq & Hresp & Hint).
      destruct (Resp Hreq Hresp) as (d1 & d2 & rest & _ & E).
      rewrite E. destruct (py_int unicode_decimal b); [eauto | congruence].
  - intros Hreq Hresp n Hn.
    destruct (Resp Hreq Hresp) as (d1 & d2 & rest & HA & E).
    exists d1, d2, rest. split; [exact HA|]. rewrite E, Hn. reflexivity.
  - intros info H. unfold decode_packet in H.
    rewrite (read_http_packet_split _ _ _ packet header body Hp) in H.
    rewrite (_read_http_header_split _ header startline headerfield
               A B' C Hh Hs) in H.
    fold start_line in H.
    destruct (start_line A B' C) as [[receipt h]|e]; [|discriminate].
    cbn [rbind snd fst] in H.
    destruct (store_fields h (split_crlf headerfield)) as [h'|e] eqn:E;
      [|discriminate].
    cbn [rbind snd fst] in H.
    destruct (_read_http_body chardet_detect codec_decode body)
      as [decoded|e]; [|discriminate].
    cbn [rbind] in H. injection H as <-.
    exists receipt, h. split; [reflexivity|]. split; [reflexivity|].
    split.
    * change (match dict_get (U "request") h' with
              | Some v' => Some v'
              | None => None
              end = dict_get (U "request") h).
      rewrite (store_fields_keeps _ h h' (U "request") E) by auto.
      destruct (dict_get (U "request") h); reflexivity.
    * change (match dict_get (U "response") h' with
              | Some v' => Some v'
              | None => None
              end = dict_get (U "response") h).
      rewrite (store_fields_keeps _ h h' (U "response") E) by auto.
      destruct (dict_get (U "response") h); reflexivity.
Qed.

(** The body of an empty payload part is [None] when no charset is
    detected in it, and when decoding no octets with the detected charset
    gives no characters or is refused with [UnicodeDecodeError]. *)
Lemma empty_body_None :
  (forall charset,
      chardet_detect [] = Some charset -> charset <> ""%string ->
      codec_decode charset [] = Ok [] \/
      codec_decode charset [] = Raise UnicodeDecodeError) ->
  exists decoded,
    _read_http_body chardet_detect codec_decode [] = Ok decoded /\
    or_None decoded = VNone.
Proof.
  intros H. unfold _read_http_body.
  destruct (chardet_detect []) as [[|ch cs]|] eqn:E;
    try (exists VNone; split; reflexivity).
  destruct (H _ eq_refl ltac:(discriminate)) as [-> | ->].
  - exists (VStr []). split; reflexivity.
  - exists (VBytes []). split; reflexivity.
Qed.

(** C1 (amended): for the request of scenario S4 the top-level record
    holds receipt = "request", the header dict and body = None; the
    start-line record and the header fields are entries of the header
    dict: header.request.method = "GET", header.request.target =
    "/index.html", header.request.version = "1.1", header.Host =
    "example.com", header.Accept = "*/*".  The body of S4 is empty: the
    detector names no charset for it, or decoding no octets with the
    charset it names gives no characters or is refused. *)
Theorem http_s4_record :
  (forall charset,
      chardet_detect [] = Some charset -> charset <> ""%string ->
      codec_decode charset [] = Ok [] \/
      codec_decode charset [] = Raise UnicodeDecodeError) ->
  exists info f',
    run None (open_bytes s4_payload) = Ok (info, f') /\
    info = VDict [(U "receipt", VStr (U "request"));
                  (U "header",
                   VDict [(U "request",
                           VDict [(U "method", VStr (U "GET"));
                                  (U "target", VStr (U "/index.html"));
                                  (U "version", VStr (U "1.1"))]);
                          (U "Host", VStr (U "example.com"));
                          (U "Accept", VStr (U "*/*"))]);
                  (U "body", VNone)] /\
    lookup [U "receipt"] info = Some (VStr (U "request")) /\
    lookup [U "header"; U "request"; U "method"] info
      = Some (VStr (U "GET")) /\
    lookup [U "header"; U "request"; U "target"] info
      = Some (VStr (U "/index.html")) /\
    lookup [U "header"; U "request"; U "version"] info
      = Some (VStr (U "1.1")) /\
    lookup [U "header"; U "Host"] info = Some (VStr (U "example.com")) /\
    lookup [U "header"; U "Accept"] info = Some (VStr (U "*/*")) /\
    lookup [U "body"] info = Some VNone.
Proof.
  intros Hcodec.
  destruct (empty_body_None Hcodec) as (decoded & Hbody & Hnone).
  eexists _, _. split.
  - unfold run, read_http. cbn [read_packet file_read_all].
    assert (E : read_http_packet unicode_decimal chardet_detect codec_decode
                  (unread (open_bytes s4_payload))
                = (decoded <- _read_http_body chardet_detect codec_decode [] ;;
                   Ok (VDict
                         [(U "receipt", VStr (U "request"));
                          (U "header",
                           VDict [(U "request",
                                   VDict [(U "method", VStr (U "GET"));
                                          (U "target",
                                           VStr (U "/index.html"));
                                          (U "version", VStr (U "1.1"))]);
                                  (U "Host", VStr (U "example.com"));
                                  (U "Accept", VStr (U "*/*"))]);
                          (U "body", or_None decoded)]))%exn)
      by reflexivity.
    rewrite E, Hbody. cbn [rbind]. rewrite Hnone. reflexivity.
  - repeat split.
Qed.

End StartLine.

Lemma http_s4_record_witness :
  exists info f',
    sample_read_http s4_payload = Ok (info, f') /\
    lookup [U "header"; U "request"; U "method"] info = Some (VStr (U "GET")) /\
    lookup [U "header"; U "Host"] info = Some (VStr (U "example.com")) /\
    lookup [U "body"] info = Some VNone.
Proof.
  destruct (http_s4_record no_digits no_charset no_codec)
    as (info & f' & Hrun & _ & _ & Hm & _ & _ & Hh & _ & Hb).
  - intros charset H. discriminate H.
  - exists info, f'. auto.
Defined.

(** C1, as stated, fails: the top-level record of the S4 request has no
    entry [request] and no entry [Host] or [Accept]; they are entries of
    its [header] dict. *)
Lemma http_s4_record_counterexample :
  exists info f',
    sample_read_http s4_payload = Ok (info, f') /\
    lookup [U "request"] info = None /\
    lookup [U "request"; U "method"] info = None /\
    lookup [U "request"; U "target"] info = None /\
    lookup [U "request"; U "version"] info = None /\
    lookup [U "Host"] info = None /\
    lookup [U "Accept"] info = None.
Proof.
  eexists _, _. split; [vm_compute; reflexivity|]. repeat split.
Qed.

Lemma http_start_line_classification_witness :
  exists h,
    read_start_line no_digits (B "GET") (B "/index.html") (B "HTTP/1.1")
    = Ok (U "request", h).
Proof.
  apply (proj1 (http_start_line_classification no_digits no_charset no_codec
                  s4_payload
                  (B "GET /index.html HTTP/1.1" ++ CRLF
                     ++ B "Host: example.com" ++ CRLF ++ B "Accept: */*")
                  []
                  (B "GET /index.html HTTP/1.1")
                  (B "Host: example.com" ++ CRLF ++ B "Accept: */*")
                  (B "GET") (B "/index.html") (B "HTTP/1.1")
                  (U "GET") (U "/index.html") (U "HTTP/1.1")
                  eq_refl eq_refl eq_refl eq_refl eq_refl eq_refl)).
  reflexivity.
Defined.

(** C3, as stated, fails.  With "matches" read as the source's [re.match]:
    the start line "HTTP/1.1 200abc OK" is no request, its first parameter
    matches HTTP/<d>.<d> and its second matches three digits, yet the
    decoder does not classify it as a response: [int] raises ValueError.
    With "matches" read as a match of the whole parameter: "GETX" is none of
    the eight methods and "HTTP/1.1junk" is not HTTP/<d>.<d>, yet the
    decoder classifies the line as a request with method "GETX" and
    version "1.1". *)
Lemma http_start_line_counterexample :
  (re_split_spaces 2 (B "HTTP/1.1 200abc OK")
   = [B "HTTP/1.1"; B "200abc"; B "OK"] /\
   is_request_line (B "HTTP/1.1") (B "OK") = false /\
   _RE_VERSION (B "HTTP/1.1") = Some (B "1.1") /\
   _RE_STATUS (B "200abc") = true /\
   sample_read_http status_letters_payload
   = Raise (ValueError "invalid literal for int() with base 10")) /\
  (re_split_spaces 2 (B "GETX / HTTP/1.1junk")
   = [B "GETX"; B "/"; B "HTTP/1.1junk"] /\
   ~ In (B "GETX") methods /\
   exists info f',
     sample_read_http trailing_payload = Ok (info, f') /\
     lookup [U "receipt"] info = Some (VStr (U "request")) /\
     lookup [U "header"; U "request"; U "method"] info
       = Some (VStr (U "GETX")) /\
     lookup [U "header"; U "request"; U "version"] info
       = Some (VStr (U "1.1"))).
Proof.
  split.
  - repeat split.
  - split; [reflexivity|]. split.
    + simpl. intros H. repeat (destruct H as [H|H]; [discriminate H|]).
      exact H.
    + eexists _, _. split; [vm_compute; reflexivity|]. repeat split.
Qed.

Lemma http_malformed_witness :
  sample_read_http (B "GET / HTTP/1.1") = Raise invalid_format /\
  sample_read_http (B "FOO BAR BAZ" ++ CRLF ++ B "Host: x" ++ CRLF ++ CRLF)
  = Raise invalid_format.
Proof.
  destruct (http_malformed no_digits no_charset no_codec) as (H1 & H2 & _).
  split.
  - apply (H1 None (open_bytes (B "GET / HTTP/1.1")) _ _ eq_refl).
    apply find_sep_None. reflexivity.
  - apply (H2 None
              (open_bytes (B "FOO BAR BAZ" ++ CRLF ++ B "Host: x" ++ CRLF
                             ++ CRLF))
              _ _ (B "FOO BAR BAZ" ++ CRLF ++ B "Host: x") []
              eq_refl eq_refl).
    right. exists (B "FOO BAR BAZ"), (B "Host: x").
    split; [reflexivity|]. right.
    exists (B "FOO"), (B "BAR"), (B "BAZ"). repeat split.
Defined.

(** C4, as stated, fails when "matches" is read as a match of the whole
    parameter.  The start line "GETX / HTTP/1.1junk" has neither form,
    "GETX" being none of the eight methods and "HTTP/1.1junk" no
    HTTP/<d>.<d>, and so has "HTTP/1.1x 2000 OK", whose first parameter is
    no HTTP/<d>.<d> and whose second is four digits; yet the decoder does
    not fail on them: it emits a request record for the one and a response
    record for the other. *)
Lemma http_malformed_counterexample :
  (re_split_spaces 2 (B "GETX / HTTP/1.1junk")
   = [B "GETX"; B "/"; B "HTTP/1.1junk"] /\
   whole_request_line (B "GETX") (B "HTTP/1.1junk") = false /\
   whole_response_line (B "GETX") (B "/") = false /\
   exists info f',
     sample_read_http trailing_payload = Ok (info, f') /\
     lookup [U "receipt"] info = Some (VStr (U "request"))) /\
  (re_split_spaces 2 (B "HTTP/1.1x 2000 OK")
   = [B "HTTP/1.1x"; B "2000"; B "OK"] /\
   whole_request_line (B "HTTP/1.1x") (B "OK") = false /\
   whole_response_line (B "HTTP/1.1x") (B "2000") = false /\
   exists info f',
     sample_read_http long_status_payload = Ok (info, f') /\
     lookup [U "receipt"] info = Some (VStr (U "response")) /\
     lookup [U "header"; U "response"; U "status"] info
     = Some (VInt 2000)).
Proof.
  split.
  - do 3 (split; [reflexivity|]).
    eexists _, _. split; [vm_compute; reflexivity | reflexivity].
  - do 3 (split; [reflexivity|]).
    eexists _, _. split; [vm_compute; reflexivity|].
    split; reflexivity.
Qed.

Lemma http_colonless_field_witness :
  read_http_packet no_digits no_charset no_codec colonless_payload
  = Raise invalid_format.
Proof.
  apply (proj2 (http_colonless_field no_digits no_charset no_codec
                  colonless_payload
                  (B "GET / HTTP/1.1" ++ CRLF ++ B "Host") []
                  (B "GET / HTTP/1.1") (B "Host")
                  (B "GET") (B "/") (B "HTTP/1.1")
                  (U "request")
                  (request_record (U "GET") (U "/") (U "1.1"))
                  [] (B "Host") []
                  eq_refl eq_refl eq_refl eq_refl eq_refl
                  (proj1 (find_sep_None [x3a] (B "Host")) eq_refl))).
  intros field part [<-|[]] [<-|[]]. discriminate.
Defined.

(** C10, as stated, fails: the request line is classified and the only
    header line, the octet [ff], has no colon, yet the exception is not
    ProtocolError but the UnicodeDecodeError of decoding the field name. *)
Lemma http_colonless_field_counterexample :
  split1 (CRLF ++ CRLF) undecodable_field_payload
  = [B "GET / HTTP/1.1" ++ CRLF ++ [xff]; []] /\
  split1 CRLF (B "GET / HTTP/1.1" ++ CRLF ++ [xff])
  = [B "GET / HTTP/1.1"; [xff]] /\
  read_start_line no_digits (B "GET") (B "/") (B "HTTP/1.1")
  = Ok (U "request", request_record (U "GET") (U "/") (U "1.1")) /\
  split_crlf [xff] = [[xff]] /\
  find_sep [x3a] [xff] = None /\
  sample_read_http undecodable_field_payload = Raise UnicodeDecodeError /\
  sample_read_http undecodable_field_payload <> Raise invalid_format.
Proof.
  repeat split. discriminate.
Qed.

End HTTPSpec.

(* ================================================================== *)
(** * Further properties of the decoders *)

(** ** HTTP/1.x: what a run of the decoder has done *)

Module HTTPExtra.
Import HTTPv1 HTTPSpec.
Local Open Scope exn_scope.

(** A classified start line: the receipt with its record. *)
Lemma read_start_line_Ok unicode_decimal A B' C receipt h :
  read_start_line unicode_decimal A B' C = Ok (receipt, h) ->
  exists d1 d2,
    re_digit d1 = true /\ re_digit d2 = true /\
    ((receipt = U "request" /\
      exists a b, h = request_record a b [Byte.to_N d1; 46%N; Byte.to_N d2]) \/
     (receipt = U "response" /\
      exists n c, h = response_record [Byte.to_N d1; 46%N; Byte.to_N d2] n c)).
Proof.
  unfold read_start_line.
  destruct (_RE_METHOD A) eqn:Em; destruct (_RE_VERSION C) as [v2|] eqn:E2.
  - apply _RE_VERSION_spec in E2 as (d1 & d2 & rest & H1 & H2 & -> & _).
    rewrite (version_decodes d1 d2 H1 H2). unfold decode.
    destruct (utf8_decode A) as [a|]; [|discriminate].
    destruct (utf8_decode B') as [b|]; [|discriminate].
    cbn [rbind]. intros [= <- <-]. exists d1, d2. split; [exact H1|].
    split; [exact H2|]. left. split; [reflexivity|]. exists a, b. reflexivity.
  - destruct (_RE_VERSION A) as [v3|] eqn:E3; [|discriminate].
    destruct (_RE_STATUS B'); [|discriminate].
    apply _RE_VERSION_spec in E3 as (d1 & d2 & rest & H1 & H2 & -> & _).
    rewrite (version_decodes d1 d2 H1 H2). unfold decode, int_of.
    destruct (utf8_decode B') as [b|]; [|discriminate]. cbn [rbind].
    destruct (py_int unicode_decimal b) as [n|]; [|discriminate].
    cbn [rbind]. destruct (utf8_decode C) as [c|]; [|discriminate].
    cbn [rbind]. intros [= <- <-]. exists d1, d2. split; [exact H1|].
    split; [exact H2|]. right. split; [reflexivity|]. exists n, c. reflexivity.
  - destruct (_RE_VERSION A) as [v3|] eqn:E3; [|discriminate].
    destruct (_RE_STATUS B'); [|discriminate].
    apply _RE_VERSION_spec in E3 as (d1 & d2 & rest & H1 & H2 & -> & _).
    rewrite (version_decodes d1 d2 H1 H2). unfold decode, int_of.
    destruct (utf8_decode B') as [b|]; [|discriminate]. cbn [rbind].
    destruct (py_int unicode_decimal b) as [n|]; [|discriminate].
    cbn [rbind]. destruct (utf8_decode C) as [c|]; [|discriminate].
    cbn [rbind]. intros [= <- <-]. exists d1, d2. split; [exact H1|].
    split; [exact H2|]. right. split; [reflexivity|]. exists n, c. reflexivity.
  - destruct (_RE_VERSION A) as [v3|] eqn:E3; [|discriminate].
    destruct (_RE_STATUS B'); [|discriminate].
    apply _RE_VERSION_spec in E3 as (d1 & d2 & rest & H1 & H2 & -> & _).
    rewrite (version_decodes d1 d2 H1 H2). unfold decode, int_of.
    destruct (utf8_decode B') as [b|]; [|discriminate]. cbn [rbind].
    destruct (py_int unicode_decimal b) as [n|]; [|discriminate].
    cbn [rbind]. destruct (utf8_decode C) as [c|]; [|discriminate].
    cbn [rbind]. intros [= <- <-]. exists d1, d2. split; [exact H1|].
    split; [exact H2|]. right. split; [reflexivity|]. exists n, c. reflexivity.
Qed.

(** A header block the decoder accepts: how it was split, classified and
    filled. *)
Lemma _read_http_header_Ok unicode_decimal header h receipt :
  _read_http_header unicode_decimal header = Ok (h, receipt) ->
  exists startline headerfield A B' C h0,
    split1 CRLF header = [startline; headerfield] /\
    re_split_spaces 2 startline = [A; B'; C] /\
    read_start_line unicode_decimal A B' C = Ok (receipt, h0) /\
    store_fields h0 (split_crlf headerfield) = Ok h.
Proof.
  unfold _read_http_header. intros H.
  destruct (split1 CRLF header) as [|startline [|headerfield [|x r]]] eqn:Es;
    try discriminate.
  destruct (re_split_spaces 2 startline) as [|A [|B' [|C [|x r]]]] eqn:Ep;
    try discriminate.
  destruct (read_start_line unicode_decimal A B' C) as [[r0 h0]|e] eqn:Est;
    [|discriminate].
  cbn [rbind] in H.
  destruct (store_fields h0 (split_crlf headerfield)) as [h1|e] eqn:Ef;
    [|discriminate].
  cbn [rbind] in H. injection H as <- <-.
  exists startline, headerfield, A, B', C, h0. auto.
Qed.

(** A packet the decoder accepts: the record it yields. *)
Lemma read_http_packet_Ok unicode_decimal chardet_detect codec_decode
      packet info :
  read_http_packet unicode_decimal chardet_detect codec_decode packet
  = Ok info ->
  exists header body h receipt decoded,
    split1 (CRLF ++ CRLF) packet = [header; body] /\
    _read_http_header unicode_decimal header = Ok (h, receipt) /\
    _read_http_body chardet_detect codec_decode body = Ok decoded /\
    info = VDict [(U "receipt", VStr receipt);
                  (U "header", VDict h);
                  (U "body", or_None decoded)].
Proof.
  unfold read_http_packet. intros H.
  destruct (split1 (CRLF ++ CRLF) packet) as [|header [|body [|x r]]] eqn:Es;
    try discriminate.
  destruct (_read_http_header unicode_decimal header) as [[h receipt]|e] eqn:Eh;
    [|discriminate].
  cbn [rbind] in H.
  destruct (_read_http_body chardet_detect codec_decode body)
    as [decoded|e] eqn:Eb; [|discriminate].
  cbn [rbind] in H. injection H as <-.
  exists header, body, h, receipt, decoded. auto.
Qed.

(** The loop over the header lines is a fold of [put_field] over their
    keys and value texts. *)
Lemma store_fields_fold fields : forall h h',
  store_fields h fields = Ok h' ->
  exists kvs,
    map field_pair fields = map Some kvs /\ h' = fold_left put_field kvs h.
Proof.
  induction fields as [|field more IH]; intros h h' H.
  - injection H as <-. exists []. auto.
  - cbn [store_fields] in H.
    destruct (store_field h (re_split_colon field)) as [h1|e] eqn:E;
      [|discriminate].
    cbn [rbind] in H. destruct (IH h1 h' H) as (kvs & Hk & ->).
    apply store_field_inv in E
      as (i0 & i1 & rest & k & v & Hs & Hd0 & Hd1 & ->).
    exists ((field_key k, strip v) :: kvs). split; [|reflexivity].
    cbn [map]. rewrite Hk. f_equal.
    unfold field_pair. rewrite Hs, Hd0, Hd1. reflexivity.
Qed.

Lemma values_named_pairs k fields kvs :
  map field_pair fields = map Some kvs ->
  values_named k fields
  = map snd (filter (fun kv => str_eqb k (fst kv)) kvs).
Proof.
  revert kvs. induction fields as [|field more IH]; intros [|[k' v] kvs] H;
    try discriminate; [reflexivity|].
  cbn [map] in H. injection H as Hf Hm.
  unfold values_named in *. cbn [flat_map filter fst]. rewrite Hf, (IH kvs Hm).
  destruct (str_eqb k k'); reflexivity.
Qed.

Lemma names_of_pairs fields kvs :
  map field_pair fields = map Some kvs -> names_of fields = map fst kvs.
Proof.
  revert kvs. induction fields as [|field more IH]; intros [|[k' v] kvs] H;
    try discriminate; [reflexivity|].
  cbn [map] in H. injection H as Hf Hm.
  unfold names_of in *. cbn [flat_map]. rewrite Hf, (IH kvs Hm). reflexivity.
Qed.

Lemma values_of_put_field k d kv :
  values_of (dict_get k (put_field d kv))
  = values_of (dict_get k d)
      ++ (if str_eqb k (fst kv) then [VStr (snd kv)] else []).
Proof.
  destruct kv as [k' v]. unfold put_field. cbn [fst snd].
  destruct (str_eqb k k') eqn:E.
  - apply str_eqb_eq in E. subst k'. rewrite dict_get_set_same.
    unfold stored. destruct (dict_get k d) as [[]|]; reflexivity.
  - apply str_eqb_neq in E. rewrite dict_get_set_other by exact E.
    rewrite app_nil_r. reflexivity.
Qed.

Lemma values_of_fold k kvs : forall d,
  values_of (dict_get k (fold_left put_field kvs d))
  = values_of (dict_get k d)
      ++ map (fun v => VStr v)
           (map snd (filter (fun kv => str_eqb k (fst kv)) kvs)).
Proof.
  induction kvs as [|kv kvs IH]; intros d; cbn [fold_left filter].
  - rewrite app_nil_r. reflexivity.
  - rewrite IH, values_of_put_field.
    destruct (str_eqb k (fst kv)); cbn [map]; rewrite <- app_assoc;
      reflexivity.
Qed.

(** X1. A header field's values accumulate in line order: in the header
    dict of an accepted header block, the entry of a field name other than
    the receipt stands for the value texts of exactly the lines stored under
    that name, first line first (a single text for one line, a tuple for
    several), and a name no line is stored under has no entry. *)
Theorem http_field_values_in_line_order unicode_decimal header h receipt :
  _read_http_header unicode_decimal header = Ok (h, receipt) ->
  forall k, k <> receipt ->
    values_of (dict_get k h)
    = map (fun v => VStr v) (values_named k (field_lines header)) /\
    (values_named k (field_lines header) = [] -> dict_get k h = None).
Proof.
  intros H k Hk.
  apply _read_http_header_Ok in H
    as (startline & headerfield & A & B' & C & h0 & Hs & _ & Hst & Hf).
  apply store_fields_fold in Hf as (kvs & Hp & ->).
  unfold field_lines. rewrite Hs.
  rewrite (values_named_pairs k _ kvs Hp).
  assert (H0 : dict_get k h0 = None).
  { apply read_start_line_Ok in Hst as (d1 & d2 & _ & _ & Hr).
    destruct Hr as [(-> & a & b & ->) | (-> & n & c & ->)]; simpl;
      apply str_eqb_neq in Hk; rewrite Hk; reflexivity. }
  pose proof (values_of_fold k kvs h0) as V. rewrite H0 in V. cbn [values_of app] in V.
  split; [exact V|].
  intros Hnone. rewrite Hnone in V. cbn [map] in V.
  clear Hp Hst. revert h0 H0 V Hnone.
  induction kvs as [|kv kvs IH]; intros h0 H0 V Hnone; cbn [fold_left].
  - exact H0.
  - cbn [filter] in Hnone. destruct (str_eqb k (fst kv)) eqn:E;
      [discriminate|].
    apply IH; [| |exact Hnone].
    + unfold put_field. apply str_eqb_neq in E.
      rewrite dict_get_set_other by exact E. exact H0.
    + exact V.
Qed.

Lemma http_field_values_in_line_order_witness :
  values_of
    (dict_get (U "Set-Cookie")
       (response_record (U "1.0") 200 (U "OK")
          ++ [(U "Set-Cookie", VTuple [VStr (U "a=1"); VStr (U "b=2")]);
              (U "Host", VStr (U "x"))]))
  = [VStr (U "a=1"); VStr (U "b=2")].
Proof.
  apply (http_field_values_in_line_order no_digits
           (B "HTTP/1.0 200 OK" ++ CRLF ++ B "Set-Cookie: a=1" ++ CRLF
              ++ B "Host: x" ++ CRLF ++ B "Set-Cookie: b=2")
           _ (U "response") eq_refl (U "Set-Cookie")).
  discriminate.
Defined.

Lemma keys_dict_set k v d : keys (dict_set k v d) = add_key (keys d) k.
Proof.
  unfold keys, add_key. induction d as [|[k' v'] d IH]; [reflexivity|].
  cbn [dict_set map fst existsb]. destruct (str_eqb k k'); [reflexivity|].
  cbn [map fst orb]. rewrite IH.
  destruct (existsb (str_eqb k) (map fst d)); reflexivity.
Qed.

Lemma keys_fold kvs : forall d,
  keys (fold_left put_field kvs d) = fold_left add_key (map fst kvs) (keys d).
Proof.
  induction kvs as [|kv kvs IH]; intros d; [reflexivity|].
  cbn [fold_left map]. rewrite IH. unfold put_field at 1.
  rewrite keys_dict_set. reflexivity.
Qed.

Lemma add_key_NoDup ks k : NoDup ks -> NoDup (add_key ks k).
Proof.
  intros H. unfold add_key. destruct (existsb (str_eqb k) ks) eqn:E;
    [exact H|].
  apply NoDup_app; [exact H | repeat constructor; intros [] |].
  intros x Hx [Hk|[]]. subst x.
  assert (K : existsb (str_eqb k) ks = true)
    by (apply existsb_exists; exists k; split; [exact Hx | apply str_eqb_refl]).
  congruence.
Qed.

Lemma fold_add_key_NoDup l : forall ks,
  NoDup ks -> NoDup (fold_left add_key l ks).
Proof.
  induction l as [|k l IH]; intros ks H; [exact H|].
  cbn [fold_left]. apply IH, add_key_NoDup, H.
Qed.

Lemma fold_add_key_extends l : forall ks,
  exists rest, fold_left add_key l ks = ks ++ rest.
Proof.
  induction l as [|k l IH]; intros ks.
  - exists []. rewrite app_nil_r. reflexivity.
  - cbn [fold_left]. destruct (IH (add_key ks k)) as [rest ->].
    unfold add_key. destruct (existsb (str_eqb k) ks); [eauto|].
    exists ([k] ++ rest). rewrite app_assoc. reflexivity.
Qed.

(** X2. The header dict keeps the order of the message: its first key is
    the receipt ("request" or "response"), the field names follow in the
    order of their first line, and no key occurs twice. *)
Theorem http_header_keys_in_order unicode_decimal header h receipt :
  _read_http_header unicode_decimal header = Ok (h, receipt) ->
  keys h = fold_left add_key (names_of (field_lines header)) [receipt] /\
  (exists rest, keys h = receipt :: rest) /\
  NoDup (keys h) /\
  (receipt = U "request" \/ receipt = U "response").
Proof.
  intros H.
  apply _read_http_header_Ok in H
    as (startline & headerfield & A & B' & C & h0 & Hs & _ & Hst & Hf).
  apply store_fields_fold in Hf as (kvs & Hp & ->).
  unfold field_lines. rewrite Hs, (names_of_pairs _ kvs Hp), keys_fold.
  assert (H0 : keys h0 = [receipt] /\
               (receipt = U "request" \/ receipt = U "response")).
  { apply read_start_line_Ok in Hst as (d1 & d2 & _ & _ & Hr).
    destruct Hr as [(-> & a & b & ->) | (-> & n & c & ->)]; auto. }
  destruct H0 as [H0 Hr]. rewrite H0.
  split; [reflexivity|]. split; [|split; [|exact Hr]].
  - destruct (fold_add_key_extends (map fst kvs) [receipt]) as [rest ->].
    exists rest. reflexivity.
  - apply fold_add_key_NoDup. repeat constructor. intros [].
Qed.

Lemma http_header_keys_in_order_witness :
  keys (response_record (U "1.0") 200 (U "OK")
          ++ [(U "Set-Cookie", VTuple [VStr (U "a=1"); VStr (U "b=2")]);
              (U "Host", VStr (U "x"))])
  = [U "response"; U "Set-Cookie"; U "Host"].
Proof.
  apply (http_header_keys_in_order no_digits
           (B "HTTP/1.0 200 OK" ++ CRLF ++ B "Set-Cookie: a=1" ++ CRLF
              ++ B "Host: x" ++ CRLF ++ B "Set-Cookie: b=2")
           _ (U "response") eq_refl).
Defined.

(** The values of header fields stay texts and tuples of texts. *)
Lemma put_field_value_types d kv :
  (forall k v, dict_get k d = Some v ->
               k <> U "request" -> k <> U "response" -> field_value v) ->
  forall k v, dict_get k (put_field d kv) = Some v ->
              k <> U "request" -> k <> U "response" -> field_value v.
Proof.
  intros Hd k v H K1 K2. destruct kv as [k' t]. unfold put_field in H.
  cbn [fst snd] in H.
  destruct (str_eqb k k') eqn:E.
  - apply str_eqb_eq in E. subst k'. rewrite dict_get_set_same in H.
    injection H as <-. unfold stored.
    destruct (dict_get k d) as [old|] eqn:G.
    + destruct (Hd k old G K1 K2) as [[text ->] | (texts & -> & Hl)].
      * right. exists [text; t]. split; [reflexivity | simpl; lia].
      * right. exists (texts ++ [t]). rewrite map_app, length_app.
        split; [reflexivity | simpl; lia].
    + left. eauto.
  - apply str_eqb_neq in E. rewrite dict_get_set_other in H by exact E.
    exact (Hd k v H K1 K2).
Qed.

(** X3. The entries of the header dict have two shapes only: under the
    receipt, the start-line record of three entries; under every other key,
    a text or a tuple of two or more texts. *)
Theorem http_header_value_types unicode_decimal header h receipt :
  _read_http_header unicode_decimal header = Ok (h, receipt) ->
  (exists e1 e2 e3, dict_get receipt h = Some (VDict [e1; e2; e3])) /\
  (forall k v, dict_get k h = Some v -> k <> receipt -> field_value v).
Proof.
  intros H.
  apply _read_http_header_Ok in H
    as (startline & headerfield & A & B' & C & h0 & _ & _ & Hst & Hf).
  apply read_start_line_Ok in Hst as (d1 & d2 & _ & _ & Hr).
  assert (Hrec : receipt = U "request" \/ receipt = U "response")
    by (destruct Hr as [[-> _] | [-> _]]; auto).
  split.
  - rewrite (store_fields_keeps _ h0 h receipt Hf Hrec).
    destruct Hr as [(-> & a & b & ->) | (-> & n & c & ->)];
      eexists _, _, _; reflexivity.
  - intros k v G Hk.
    destruct (str_eqb k (U "request")) eqn:E1;
      [|destruct (str_eqb k (U "response")) eqn:E2].
    + apply str_eqb_eq in E1. subst k.
      rewrite (store_fields_keeps _ h0 h _ Hf (or_introl eq_refl)) in G.
      destruct Hr as [(-> & _) | (-> & n & c & ->)]; [congruence|].
      discriminate G.
    + apply str_eqb_eq in E2. subst k.
      rewrite (store_fields_keeps _ h0 h _ Hf (or_intror eq_refl)) in G.
      destruct Hr as [(-> & a & b & ->) | (-> & _)]; [|congruence].
      discriminate G.
    + apply str_eqb_neq in E1, E2.
      apply store_fields_fold in Hf as (kvs & _ & ->).
      assert (Inv : forall k v, dict_get k h0 = Some v ->
                                k <> U "request" -> k <> U "response" ->
                                field_value v).
      { intros k0 v0 G0 K1 K2. exfalso.
        destruct Hr as [(_ & a & b & ->) | (_ & n & c & ->)]; simpl in G0;
          [apply str_eqb_neq in K1; rewrite K1 in G0
          |apply str_eqb_neq in K2; rewrite K2 in G0]; discriminate. }
      clear Hr Hrec Hk. revert h0 Inv G.
      induction kvs as [|kv kvs IH]; intros h0 Inv G.
      * exact (Inv k v G E1 E2).
      * cbn [fold_left] in G.
        exact (IH (put_field h0 kv) (put_field_value_types h0 kv Inv) G).
Qed.

Lemma http_header_value_types_witness :
  field_value (VTuple [VStr (U "a=1"); VStr (U "b=2")]).
Proof.
  apply (proj2 (http_header_value_types no_digits
                  (B "HTTP/1.0 200 OK" ++ CRLF ++ B "Set-Cookie: a=1" ++ CRLF
                     ++ B "Host: x" ++ CRLF ++ B "Set-Cookie: b=2")
                  _ (U "response") eq_refl)
           (U "Set-Cookie") _ eq_refl).
  discriminate.
Defined.

(** X4. The acronym of a decoded message is always defined: for every
    record the decoder emits, [alias] finds the version entry of the
    start-line record and yields "HTTP/" followed by the two digits of the
    start line; no header field can have displaced that record. *)
Theorem http_alias_defined unicode_decimal chardet_detect codec_decode
    str_of packet info :
  read_http_packet unicode_decimal chardet_detect codec_decode packet
  = Ok info ->
  exists d1 d2,
    re_digit d1 = true /\ re_digit d2 = true /\
    alias str_of info
    = Some (U "HTTP/" ++ [Byte.to_N d1; 46%N; Byte.to_N d2]).
Proof.
  intros H.
  apply read_http_packet_Ok in H
    as (header & body & h & receipt & decoded & _ & Hh & _ & ->).
  apply _read_http_header_Ok in Hh
    as (startline & headerfield & A & B' & C & h0 & _ & _ & Hst & Hf).
  apply read_start_line_Ok in Hst as (d1 & d2 & H1 & H2 & Hr).
  exists d1, d2. split; [exact H1|]. split; [exact H2|].
  destruct Hr as [(-> & a & b & ->) | (-> & n & c & ->)].
  - pose proof (store_fields_keeps _ _ h (U "request") Hf (or_introl eq_refl))
      as K.
    unfold alias. cbn. change (dict_get (U "request") h) with
      (dict_get (U "request") h) in K.
    cbn in K. rewrite K. reflexivity.
  - pose proof (store_fields_keeps _ _ h (U "response") Hf (or_intror eq_refl))
      as K.
    unfold alias. cbn. cbn in K. rewrite K. reflexivity.
Qed.

Lemma http_alias_defined_witness :
  exists d1 d2,
    re_digit d1 = true /\ re_digit d2 = true /\
    alias (fun _ => []) s4_info
    = Some (U "HTTP/" ++ [Byte.to_N d1; 46%N; Byte.to_N d2]).
Proof.
  exact (http_alias_defined no_digits no_charset no_codec (fun _ => [])
           s4_payload s4_info eq_refl).
Defined.

(** X5. The body entry of an emitted record is never an empty text or an
    empty byte string: it is [None], a non-empty text, or, when the detected
    charset fails to decode it, the non-empty body itself, which is the part
    of the packet after the first blank line. *)
Theorem http_body_entry unicode_decimal chardet_detect codec_decode
    packet info :
  read_http_packet unicode_decimal chardet_detect codec_decode packet
  = Ok info ->
  exists header body,
    packet = header ++ (CRLF ++ CRLF) ++ body /\
    (lookup [U "body"] info = Some VNone \/
     (exists text, text <> [] /\ lookup [U "body"] info = Some (VStr text)) \/
     (body <> [] /\ lookup [U "body"] info = Some (VBytes body))).
Proof.
  intros H.
  apply read_http_packet_Ok in H
    as (header & body & h & receipt & decoded & Hs & _ & Hb & ->).
  exists header, body. split.
  - destruct (split1_cases (CRLF ++ CRLF) packet)
      as [(a & b & Hf & Hs') | (_ & Hs')]; rewrite Hs' in Hs;
      [|discriminate].
    injection Hs as <- <-. apply find_sep_Some, Hf.
  - change (lookup [U "body"] _) with (Some (or_None decoded)).
    unfold _read_http_body in Hb.
    destruct (chardet_detect body) as [[|ch cs]|];
      try (injection Hb as <-; auto; fail).
    destruct (codec_decode (String ch cs) body) as [[|c t]|e].
    + injection Hb as <-. auto.
    + injection Hb as <-.
      right. left. exists (c :: t). split; [discriminate | reflexivity].
    + destruct e; try discriminate Hb. injection Hb as <-.
      destruct body as [|x r]; [auto|].
      right. right. split; [discriminate | reflexivity].
Qed.

Lemma http_body_entry_witness :
  exists header body,
    s4_payload = header ++ (CRLF ++ CRLF) ++ body /\
    (lookup [U "body"] s4_info = Some VNone \/
     (exists text, text <> [] /\ lookup [U "body"] s4_info = Some (VStr text))
     \/ (body <> [] /\ lookup [U "body"] s4_info = Some (VBytes body))).
Proof.
  exact (http_body_entry no_digits no_charset no_codec s4_payload s4_info
           eq_refl).
Defined.

(** *** The exceptions of the decoder *)

Lemma read_start_line_Raise unicode_decimal A B' C e :
  read_start_line unicode_decimal A B' C = Raise e ->
  e = invalid_format \/
  (e = UnicodeDecodeError /\
   (utf8_decode A = None \/ utf8_decode B' = None \/ utf8_decode C = None)) \/
  (e = ValueError "invalid literal for int() with base 10" /\
   is_request_line A C = false /\ is_response_line A B' = true /\
   exists b, utf8_decode B' = Some b /\ py_int unicode_decimal b = None).
Proof.
  unfold read_start_line, is_request_line, is_response_line.
  destruct (_RE_METHOD A) eqn:Em; destruct (_RE_VERSION C) as [v2|] eqn:E2;
    cbn [andb].
  - apply _RE_VERSION_spec in E2 as (d1 & d2 & rest & H1 & H2 & -> & _).
    rewrite (version_decodes d1 d2 H1 H2). unfold decode.
    destruct (utf8_decode A) as [a|]; [|intros [= <-]; auto].
    destruct (utf8_decode B') as [b|]; [|intros [= <-]; auto 6].
    discriminate.
  - destruct (_RE_VERSION A) as [v3|] eqn:E3; [|intros [= <-]; auto].
    destruct (_RE_STATUS B'); [|intros [= <-]; auto].
    apply _RE_VERSION_spec in E3 as (d1 & d2 & rest & H1 & H2 & -> & _).
    rewrite (version_decodes d1 d2 H1 H2). unfold decode, int_of.
    destruct (utf8_decode B') as [b|]; [|intros [= <-]; auto 6].
    cbn [rbind].
    destruct (py_int unicode_decimal b) as [n|] eqn:En;
      [|intros [= <-]; right; right; eauto 8].
    cbn [rbind]. destruct (utf8_decode C) as [c|]; [discriminate|].
    intros [= <-]. auto 6.
  - destruct (_RE_VERSION A) as [v3|] eqn:E3; [|intros [= <-]; auto].
    destruct (_RE_STATUS B'); [|intros [= <-]; auto].
    apply _RE_VERSION_spec in E3 as (d1 & d2 & rest & H1 & H2 & -> & _).
    rewrite (version_decodes d1 d2 H1 H2). unfold decode, int_of.
    destruct (utf8_decode B') as [b|]; [|intros [= <-]; auto 6].
    cbn [rbind].
    destruct (py_int unicode_decimal b) as [n|] eqn:En;
      [|intros [= <-]; right; right; eauto 8].
    cbn [rbind]. destruct (utf8_decode C) as [c|]; [discriminate|].
    intros [= <-]. auto 6.
  - destruct (_RE_VERSION A) as [v3|] eqn:E3; [|intros [= <-]; auto].
    destruct (_RE_STATUS B'); [|intros [= <-]; auto].
    apply _RE_VERSION_spec in E3 as (d1 & d2 & rest & H1 & H2 & -> & _).
    rewrite (version_decodes d1 d2 H1 H2). unfold decode, int_of.
    destruct (utf8_decode B') as [b|]; [|intros [= <-]; auto 6].
    cbn [rbind].
    destruct (py_int unicode_decimal b) as [n|] eqn:En;
      [|intros [= <-]; right; right; eauto 8].
    cbn [rbind]. destruct (utf8_decode C) as [c|]; [discriminate|].
    intros [= <-]. auto 6.
Qed.

Lemma store_field_Raise h item e :
  store_field h item = Raise e ->
  e = invalid_format \/
  (e = UnicodeDecodeError /\ exists part, In part item /\ utf8_decode part = None).
Proof.
  destruct item as [|item0 [|item1 rest]]; simpl; unfold decode.
  - intros [= <-]. auto.
  - destruct (utf8_decode item0) eqn:E; intros [= <-]; [auto|].
    right. split; [reflexivity|]. exists item0. simpl. auto.
  - destruct (utf8_decode item0) eqn:E0; cbn [rbind].
    + destruct (utf8_decode item1) eqn:E1; cbn [rbind].
      * destruct (dict_get _ h) as [[]|]; discriminate.
      * intros [= <-]. right. split; [reflexivity|]. exists item1.
        simpl. auto.
    + intros [= <-]. right. split; [reflexivity|]. exists item0. simpl. auto.
Qed.

Lemma store_fields_Raise fields : forall h e,
  store_fields h fields = Raise e ->
  e = invalid_format \/
  (e = UnicodeDecodeError /\
   exists field part,
     In field fields /\ In part (re_split_colon field) /\
     utf8_decode part = None).
Proof.
  induction fields as [|field more IH]; intros h e H; [discriminate|].
  cbn [store_fields] in H.
  destruct (store_field h (re_split_colon field)) as [h1|e1] eqn:E;
    cbn [rbind] in H.
  - destruct (IH h1 e H) as [->|(-> & f & p & Hf & Hp & Hd)]; [auto|].
    right. split; [reflexivity|]. exists f, p. simpl. auto.
  - injection H as <-.
    destruct (store_field_Raise _ _ _ E) as [->|(-> & p & Hp & Hd)]; [auto|].
    right. split; [reflexivity|]. exists field, p. simpl. auto.
Qed.

(** X6. The exceptions that can leave [read_http]: ProtocolError
    'HTTP: invalid format', the UnicodeDecodeError of a text of the header
    that is not UTF-8, the ValueError of [int], and, once the header has
    been decoded in full, whatever [body.decode(charset)] raises other than
    UnicodeDecodeError, such as the LookupError of a detected charset that
    has no codec.  The cursor's UnexpectedEnd never does, as [file.read]
    returns what is there. *)
Theorem http_exceptions unicode_decimal chardet_detect codec_decode
    length f e :
  read_http unicode_decimal chardet_detect codec_decode length f = Raise e ->
  e = invalid_format \/ e = UnicodeDecodeError \/
  e = ValueError "invalid literal for int() with base 10" \/
  (e <> UnicodeDecodeError /\
   exists header body charset h receipt,
     _read_http_header unicode_decimal header = Ok (h, receipt) /\
     chardet_detect body = Some charset /\ charset <> ""%string /\
     codec_decode charset body = Raise e).
Proof.
  intros H.
  destruct (read_http_run unicode_decimal chardet_detect codec_decode length f)
    as (packet & f' & _ & Hrun).
  rewrite Hrun in H. clear Hrun.
  destruct (read_http_packet unicode_decimal chardet_detect codec_decode packet)
    as [info|e'] eqn:E; [discriminate|].
  injection H as ->. unfold read_http_packet in E.
  destruct (split1 (CRLF ++ CRLF) packet) as [|header [|body [|x r]]];
    try (injection E as <-; auto; fail).
  destruct (_read_http_header unicode_decimal header) as [[h r]|e1] eqn:Eh.
  - cbn [rbind] in E.
    destruct (_read_http_body chardet_detect codec_decode body)
      as [decoded|e2] eqn:Eb; [discriminate|].
    cbn [rbind] in E. injection E as ->. unfold _read_http_body in Eb.
    destruct (chardet_detect body) as [[|ch cs]|] eqn:Ed; try discriminate Eb.
    destruct (codec_decode (String ch cs) body) as [t|e3] eqn:Ec;
      [discriminate Eb|].
    right. right. right.
    destruct e3; try discriminate Eb; injection Eb as <-;
      (split; [discriminate|]);
      exists header, body, (String ch cs), h, r;
      (split; [exact Eh|]); (split; [exact Ed|]);
      (split; [discriminate | exact Ec]).
  - cbn [rbind] in E. injection E as ->. unfold _read_http_header in Eh.
    destruct (split1 CRLF header) as [|startline [|headerfield [|x r]]];
      try (injection Eh as <-; auto; fail).
    destruct (re_split_spaces 2 startline) as [|A [|B' [|C [|x r]]]];
      try (injection Eh as <-; auto; fail).
    destruct (read_start_line unicode_decimal A B' C) as [[r0 h0]|e2] eqn:Est.
    + cbn [rbind] in Eh.
      destruct (store_fields h0 (split_crlf headerfield)) as [h1|e3] eqn:Ef;
        [discriminate|].
      cbn [rbind] in Eh. injection Eh as ->.
      destruct (store_fields_Raise _ _ _ Ef) as [->|(-> & _)]; auto.
    + cbn [rbind] in Eh. injection Eh as ->.
      destruct (read_start_line_Raise _ _ _ _ _ Est)
        as [->|[(-> & _)|(-> & _)]]; auto.
Qed.

Lemma http_exceptions_witness :
  read_http no_digits ucs4_charset missing_codec None
    (open_bytes ucs4_payload)
  = Raise (LookupError "unknown encoding: X-ISO-10646-UCS-4-3412") /\
  exists header body charset h receipt,
    _read_http_header no_digits header = Ok (h, receipt) /\
    ucs4_charset body = Some charset /\ charset <> ""%string /\
    missing_codec charset body
    = Raise (LookupError "unknown encoding: X-ISO-10646-UCS-4-3412").
Proof.
  split; [reflexivity|].
  destruct (http_exceptions no_digits ucs4_charset missing_codec None
              (open_bytes ucs4_payload)
              (LookupError "unknown encoding: X-ISO-10646-UCS-4-3412")
              eq_refl)
    as [H|[H|[H|[_ H]]]]; try discriminate H.
  exact H.
Defined.

(** X7. No start line fits both forms: a first parameter that begins with
    a method name does not begin with HTTP/<d>.<d>, so the order of the two
    tests in the decoder is immaterial. *)
Theorem http_forms_exclusive A B' C :
  is_request_line A C = true -> is_response_line A B' = false.
Proof.
  unfold is_request_line, is_response_line.
  rewrite andb_true_iff. intros [Hm _].
  destruct (_RE_VERSION A) as [v|] eqn:E; [|reflexivity].
  apply _RE_VERSION_spec in E as (d1 & d2 & rest & _ & _ & _ & ->).
  discriminate Hm.
Qed.

Lemma http_forms_exclusive_witness :
  is_response_line (B "GET") (B "200") = false.
Proof.
  exact (http_forms_exclusive (B "GET") (B "200") (B "HTTP/1.1") eq_refl).
Defined.

(** *** Pieces of a text hold octets of the text only *)

Lemma find_sep_incl sep s a b :
  find_sep sep s = Some (a, b) -> incl a s /\ incl b s.
Proof.
  intros H. apply find_sep_Some in H. subst s. split.
  - apply incl_appl, incl_refl.
  - apply incl_appr, incl_appr, incl_refl.
Qed.

Lemma skip_spaces_incl s : incl (skip_spaces s) s.
Proof.
  induction s as [|c r IH]; [apply incl_refl|]. simpl.
  destruct (re_space c); [apply incl_tl, IH | apply incl_refl].
Qed.

Lemma rskip_spaces_incl s : incl (rskip_spaces s) s.
Proof.
  unfold rskip_spaces. intros x Hx. apply in_rev in Hx.
  apply skip_spaces_incl in Hx. apply in_rev. exact Hx.
Qed.

Lemma find_spaces_incl s : forall a b,
  find_spaces s = Some (a, b) -> incl a s /\ incl b s.
Proof.
  induction s as [|c r IH]; intros a b; simpl; [discriminate|].
  destruct (re_space c).
  - intros [= <- <-]. split; [intros x [] | apply incl_tl, skip_spaces_incl].
  - destruct (find_spaces r) as [[a0 b0]|]; [|discriminate].
    intros [= <- <-]. destruct (IH a0 b0 eq_refl) as [Ha Hb]. split.
    + intros x [->|Hx]; [left; reflexivity | right; apply Ha, Hx].
    + apply incl_tl, Hb.
Qed.

Lemma re_split_spaces_incl n : forall s piece,
  In piece (re_split_spaces n s) -> incl piece s.
Proof.
  induction n as [|n IH]; intros s piece; simpl.
  - intros [<-|[]]. apply incl_refl.
  - destruct (find_spaces s) as [[a b]|] eqn:E.
    + destruct (find_spaces_incl s a b E) as [Ha Hb].
      intros [<-|H]; [exact Ha|].
      intros x Hx. apply Hb. exact (IH b piece H x Hx).
    + intros [<-|[]]. apply incl_refl.
Qed.

Lemma re_split_colon_incl field part :
  In part (re_split_colon field) -> incl part field.
Proof.
  unfold re_split_colon.
  destruct (find_sep [x3a] field) as [[a b]|] eqn:E.
  - destruct (find_sep_incl _ _ _ _ E) as [Ha Hb].
    intros [<-|[<-|[]]]; intros x Hx.
    + apply Ha, rskip_spaces_incl, Hx.
    + apply Hb, skip_spaces_incl, Hx.
  - intros [<-|[]]. apply incl_refl.
Qed.

(** The two cases of a step of [split_crlf_from]. *)
Lemma split_crlf_from_step cur c r :
  (exists r', c = x0d /\ r = x0a :: r' /\
              split_crlf_from cur (c :: r) = rev cur :: split_crlf_from [] r')
  \/ split_crlf_from cur (c :: r) = split_crlf_from (c :: cur) r.
Proof.
  destruct c; try (right; reflexivity).
  destruct r as [|c' r']; [right; reflexivity|].
  destruct c'; try (right; reflexivity).
  left. exists r'. auto.
Qed.

Lemma split_crlf_from_incl n : forall s cur piece,
  (List.length s <= n)%nat ->
  In piece (split_crlf_from cur s) -> incl piece (rev cur ++ s).
Proof.
  induction n as [|n IH]; intros s cur piece Hn.
  - destruct s; [|simpl in Hn; lia]. intros [<-|[]].
    rewrite app_nil_r. apply incl_refl.
  - destruct s as [|c r].
    + intros [<-|[]]. rewrite app_nil_r. apply incl_refl.
    + simpl in Hn.
      destruct (split_crlf_from_step cur c r) as [(r' & -> & -> & E) | E];
        rewrite E.
      * intros [<-|H]; [apply incl_appl, incl_refl|].
        apply incl_appr, incl_tl, incl_tl.
        apply (IH r' [] piece); [simpl in Hn; lia | exact H].
      * intros H. apply (IH r (c :: cur) piece) in H; [|lia].
        simpl in H. rewrite <- app_assoc in H. exact H.
Qed.

Lemma split_crlf_incl s piece : In piece (split_crlf s) -> incl piece s.
Proof. apply (split_crlf_from_incl (List.length s) s []). reflexivity. Qed.

Lemma ascii_decodes s piece :
  Forall is_ascii s -> incl piece s -> utf8_decode piece <> None.
Proof.
  intros Hs Hi. rewrite utf8_decode_ascii; [discriminate|].
  apply Forall_forall. intros x Hx.
  exact (proj1 (Forall_forall _ _) Hs x (Hi x Hx)).
Qed.

(** X8. A packet of ASCII octets never makes the decoder raise
    UnicodeDecodeError: every text it decodes is a piece of the packet. *)
Theorem http_ascii_packet_decodes unicode_decimal chardet_detect
    codec_decode packet :
  Forall is_ascii packet ->
  read_http_packet unicode_decimal chardet_detect codec_decode packet
  <> Raise UnicodeDecodeError.
Proof.
  intros Hascii H. unfold read_http_packet in H.
  destruct (split1_cases (CRLF ++ CRLF) packet)
    as [(header & body & Hf & Hs) | (_ & Hs)]; rewrite Hs in H;
    [|discriminate].
  destruct (find_sep_incl _ _ _ _ Hf) as [Hh _].
  destruct (_read_http_header unicode_decimal header) as [[h r]|e] eqn:Eh.
  { cbn [rbind] in H.
    destruct (_read_http_body chardet_detect codec_decode body)
      as [decoded|e] eqn:Eb; [discriminate|].
    cbn [rbind] in H. injection H as ->. unfold _read_http_body in Eb.
    destruct (chardet_detect body) as [[|ch cs]|]; try discriminate Eb.
    destruct (codec_decode (String ch cs) body) as [t|e]; [discriminate|].
    destruct e; discriminate Eb. }
  cbn [rbind] in H. injection H as ->. unfold _read_http_header in Eh.
  destruct (split1_cases CRLF header)
    as [(startline & headerfield & Hf1 & Hs1) | (_ & Hs1)]; rewrite Hs1 in Eh;
    [|discriminate].
  destruct (find_sep_incl _ _ _ _ Hf1) as [Hsl Hhf].
  destruct (re_split_spaces 2 startline) as [|A [|B' [|C [|x r]]]] eqn:Ep;
    try discriminate.
  assert (Hpiece : forall piece, In piece [A; B'; C] ->
                                 utf8_decode piece <> None).
  { intros piece Hp. apply (ascii_decodes packet _ Hascii).
    intros x Hx. apply Hh, Hsl.
    rewrite <- Ep in Hp. exact (re_split_spaces_incl 2 startline piece Hp x Hx). }
  destruct (read_start_line unicode_decimal A B' C) as [[r0 h0]|e] eqn:Est;
    cbn [rbind] in Eh.
  - destruct (store_fields h0 (split_crlf headerfield)) as [h1|e] eqn:Ef;
      [discriminate|].
    cbn [rbind] in Eh. injection Eh as ->.
    destruct (store_fields_Raise _ _ _ Ef)
      as [E|(_ & field & part & Hfield & Hpart & Hd)]; [discriminate|].
    revert Hd. apply (ascii_decodes packet _ Hascii).
    intros x Hx. apply Hh, Hhf.
    apply (split_crlf_incl headerfield field Hfield).
    exact (re_split_colon_incl field part Hpart x Hx).
  - injection Eh as ->.
    destruct (read_start_line_Raise _ _ _ _ _ Est)
      as [E|[(_ & [Hd|[Hd|Hd]])|(E & _)]]; try discriminate;
      revert Hd; apply Hpiece; simpl; auto.
Qed.

Lemma http_ascii_packet_decodes_witness :
  read_http_packet no_digits no_charset no_codec colonless_payload
  <> Raise UnicodeDecodeError.
Proof.
  apply (http_ascii_packet_decodes no_digits no_charset no_codec
           colonless_payload).
  repeat constructor.
Defined.

(** *** Messages as a sender writes them *)

Lemma byte_eqb_refl x : Byte.eqb x x = true.
Proof. apply byte_eqb_eq. reflexivity. Qed.

Lemma byte_eqb_neq x y : x <> y -> Byte.eqb x y = false.
Proof.
  intros H. destruct (Byte.eqb x y) eqn:E; [|reflexivity].
  apply byte_eqb_eq in E. contradiction.
Qed.

(** A separator is not found before the first octet equal to its own
    first octet. *)
Lemma find_sep_skip s0 sep' line rest :
  Forall (fun x => x <> s0) line ->
  find_sep (s0 :: sep') (line ++ rest)
  = match find_sep (s0 :: sep') rest with
    | Some (a, b) => Some (line ++ a, b)
    | None => None
    end.
Proof.
  induction 1 as [|c l Hc _ IH].
  - simpl. destruct (find_sep (s0 :: sep') rest) as [[a b]|]; reflexivity.
  - cbn [app find_sep after_prefix].
    rewrite (byte_eqb_neq s0 c) by congruence. rewrite IH.
    destruct (find_sep (s0 :: sep') rest) as [[a b]|]; reflexivity.
Qed.

Lemma find_sep_here sep rest : find_sep sep (sep ++ rest) = Some ([], rest).
Proof.
  assert (E : after_prefix sep (sep ++ rest) = Some rest)
    by (apply after_prefix_app; reflexivity).
  destruct (sep ++ rest) as [|c r]; cbn [find_sep]; rewrite E; reflexivity.
Qed.

Lemma find_sep_line s0 sep' line rest :
  Forall (fun x => x <> s0) line ->
  find_sep (s0 :: sep') (line ++ (s0 :: sep') ++ rest) = Some (line, rest).
Proof.
  intros H. rewrite (find_sep_skip s0 sep' line _ H), find_sep_here.
  rewrite app_nil_r. reflexivity.
Qed.

Lemma find_sep_cons sep c r :
  find_sep sep (c :: r)
  = match after_prefix sep (c :: r) with
    | Some rest => Some ([], rest)
    | None => match find_sep sep r with
              | Some (a, b) => Some (c :: a, b)
              | None => None
              end
    end.
Proof. reflexivity. Qed.

(** The blank line is not found at a line break that a line follows. *)
Lemma find_blank_after_break c r :
  c <> x0d ->
  find_sep (CRLF ++ CRLF) (CRLF ++ c :: r)
  = match find_sep (CRLF ++ CRLF) (c :: r) with
    | Some (a, b) => Some (CRLF ++ a, b)
    | None => None
    end.
Proof.
  intros Hc. unfold CRLF. cbn [app].
  rewrite (find_sep_cons _ x0d), (find_sep_cons _ x0a).
  cbn [after_prefix].
  rewrite !byte_eqb_refl, (byte_eqb_neq x0d c), (byte_eqb_neq x0d x0a)
    by congruence.
  destruct (find_sep [x0d; x0a; x0d; x0a] (c :: r)) as [[a b]|]; reflexivity.
Qed.

Lemma join_crlf_cons line l ls :
  join_crlf (line :: l :: ls) = line ++ CRLF ++ join_crlf (l :: ls).
Proof. reflexivity. Qed.

Lemma join_crlf_head l ls :
  plain_line l -> exists c r, c <> x0d /\ forall tail,
      join_crlf (l :: ls) ++ tail = c :: r ++ tail.
Proof.
  intros [Hne Hcr]. destruct l as [|c l']; [congruence|].
  inversion Hcr; subst. destruct ls as [|l2 ls].
  - exists c, l'. split; [assumption|]. reflexivity.
  - exists c, (l' ++ CRLF ++ join_crlf (l2 :: ls)). split; [assumption|].
    intros tail. rewrite join_crlf_cons. cbn [app].
    rewrite <- !app_assoc. reflexivity.
Qed.

(** The first blank line of a written block of lines is the one after the
    last line. *)
Lemma find_blank_line lines : forall line body,
  Forall plain_line (line :: lines) ->
  find_sep (CRLF ++ CRLF) (join_crlf (line :: lines) ++ CRLF ++ CRLF ++ body)
  = Some (join_crlf (line :: lines), body).
Proof.
  induction lines as [|l ls IH]; intros line body H.
  - inversion H as [|x y [_ Hcr] _]; subst. cbn [join_crlf].
    exact (find_sep_line x0d [x0a; x0d; x0a] line body Hcr).
  - inversion H as [|x y [_ Hcr] Hrest]; subst.
    inversion Hrest as [|x y Hl _]; subst.
    destruct (join_crlf_head l ls Hl) as (c & r & Hc & Hj).
    specialize (IH l body Hrest).
    set (T := CRLF ++ CRLF ++ body) in *.
    assert (E : join_crlf (line :: l :: ls) ++ T
                = line ++ CRLF ++ c :: r ++ T).
    { rewrite join_crlf_cons, <- !app_assoc, (Hj T). reflexivity. }
    rewrite E. rewrite (Hj T) in IH.
    change (CRLF ++ CRLF) with [x0d; x0a; x0d; x0a] in *.
    rewrite (find_sep_skip x0d [x0a; x0d; x0a] line _ Hcr).
    change [x0d; x0a; x0d; x0a] with (CRLF ++ CRLF) in *.
    rewrite (find_blank_after_break c _ Hc), IH. reflexivity.
Qed.

Lemma split1_blank_line lines line body :
  Forall plain_line (line :: lines) ->
  split1 (CRLF ++ CRLF) (join_crlf (line :: lines) ++ CRLF ++ CRLF ++ body)
  = [join_crlf (line :: lines); body].
Proof.
  intros H. unfold split1. rewrite (find_blank_line lines line body H).
  reflexivity.
Qed.

Lemma split1_first_line line rest :
  Forall (fun x => x <> x0d) line ->
  split1 CRLF (line ++ CRLF ++ rest) = [line; rest].
Proof.
  intros H. unfold split1, CRLF.
  rewrite (find_sep_line x0d [x0a] line rest H). reflexivity.
Qed.

Lemma split_crlf_from_skip line : forall cur rest,
  Forall (fun x => x <> x0d) line ->
  split_crlf_from cur (line ++ rest) = split_crlf_from (rev line ++ cur) rest.
Proof.
  induction line as [|c l IH]; intros cur rest H; [reflexivity|].
  inversion H; subst. cbn [app].
  destruct (split_crlf_from_step cur c (l ++ rest))
    as [(r' & Hc & _) | E]; [congruence|].
  rewrite E, IH by assumption. cbn [rev]. rewrite <- app_assoc. reflexivity.
Qed.

(** Cutting a written block of lines at its line breaks gives the lines. *)
Lemma split_crlf_join lines : forall line,
  Forall plain_line (line :: lines) ->
  split_crlf (join_crlf (line :: lines)) = line :: lines.
Proof.
  unfold split_crlf.
  induction lines as [|l ls IH]; intros line H;
    inversion H as [|x y [_ Hcr] Hrest]; subst.
  - cbn [join_crlf]. rewrite <- (app_nil_r line) at 1.
    rewrite (split_crlf_from_skip line [] [] Hcr), app_nil_r.
    cbn [split_crlf_from]. rewrite rev_involutive. reflexivity.
  - rewrite join_crlf_cons, (split_crlf_from_skip line [] _ Hcr), app_nil_r.
    unfold CRLF. cbn [app split_crlf_from]. rewrite rev_involutive.
    f_equal. apply IH, Hrest.
Qed.

Lemma visible_facts x :
  visible x = true ->
  x <> x0d /\ re_space x = false /\ py_isspace (Byte.to_N x) = false /\
  is_ascii x.
Proof.
  destruct x; intros H; try discriminate H; repeat split; discriminate.
Qed.

Lemma blank_facts : x20 <> x0d /\ is_ascii x20.
Proof. split; [discriminate | reflexivity]. Qed.

Lemma skip_spaces_head s :
  match s with [] => True | c :: _ => re_space c = false end ->
  skip_spaces s = s.
Proof. destruct s as [|c r]; [reflexivity|]. simpl. intros ->. reflexivity. Qed.

Lemma lstrip_head s :
  match s with [] => True | c :: _ => py_isspace c = false end ->
  lstrip s = s.
Proof. destruct s as [|c r]; [reflexivity|]. simpl. intros ->. reflexivity. Qed.

Lemma find_spaces_token token rest :
  Forall (fun x => re_space x = false) token ->
  find_spaces (token ++ x20 :: rest) = Some (token, skip_spaces rest).
Proof.
  induction 1 as [|c l Hc _ IH]; [reflexivity|].
  cbn [app find_spaces]. rewrite Hc, IH. reflexivity.
Qed.

Lemma Forall_visible (P : byte -> Prop) b :
  (forall x, visible x = true -> P x) ->
  forallb visible b = true -> Forall P b.
Proof.
  intros HP H. apply Forall_forall. intros x Hx. apply HP.
  exact (proj1 (forallb_forall _ _) H x Hx).
Qed.

Lemma method_facts method :
  In method methods ->
  _RE_METHOD method = true /\
  Forall (fun x => re_space x = false) method /\
  Forall (fun x => x <> x0d) method /\ Forall is_ascii method.
Proof.
  intros H. simpl in H.
  repeat (destruct H as [<-|H];
          [split; [reflexivity|];
           repeat split; repeat constructor; discriminate|]).
  destruct H.
Qed.

(** The request line of a written message splits into its three parts. *)
Lemma request_line_parts method target d1 d2 :
  In method methods -> is_target target = true ->
  re_split_spaces 2
    (method ++ B " " ++ target ++ B " " ++ B "HTTP/" ++ [d1; x2e; d2])
  = [method; target; B "HTTP/" ++ [d1; x2e; d2]].
Proof.
  intros Hm Ht. destruct (method_facts method Hm) as (_ & Hsp & _ & _).
  unfold is_target in Ht. apply andb_true_iff in Ht as [Hv Hne].
  assert (Htok : Forall (fun x => re_space x = false) target)
    by (apply (Forall_visible _ target); [apply visible_facts | exact Hv]).
  destruct target as [|c t]; [discriminate Hne|].
  change (B " ") with [x20]. cbn [re_split_spaces].
  change (method ++ [x20] ++ (c :: t) ++ [x20] ++ B "HTTP/" ++ [d1; x2e; d2])
    with (method ++ x20 :: ((c :: t) ++ x20 :: B "HTTP/" ++ [d1; x2e; d2])).
  rewrite (find_spaces_token method _ Hsp).
  rewrite (skip_spaces_head ((c :: t) ++ _))
    by (inversion Htok; assumption).
  rewrite (find_spaces_token (c :: t) _ Htok). reflexivity.
Qed.

Lemma request_line_plain method target d1 d2 :
  In method methods -> is_target target = true ->
  re_digit d1 = true -> re_digit d2 = true ->
  plain_line
    (method ++ B " " ++ target ++ B " " ++ B "HTTP/" ++ [d1; x2e; d2]).
Proof.
  intros Hm Ht H1 H2. destruct (method_facts method Hm) as (_ & _ & Hcr & _).
  unfold is_target in Ht. apply andb_true_iff in Ht as [Hv _].
  split.
  - destruct method; [inversion Hm as [E|[E|[E|[E|[E|[E|[E|[E|[]]]]]]]]];
                      discriminate E | discriminate].
  - repeat (apply Forall_app; split); try exact Hcr;
      try (repeat constructor; discriminate).
    + apply (Forall_visible _ target); [apply visible_facts | exact Hv].
    + assert (D : forall d, re_digit d = true -> d <> x0d)
        by (intros d Hd ->; discriminate Hd).
      repeat constructor; try discriminate; apply D; assumption.
Qed.

Lemma name_facts name :
  is_name name = true ->
  forallb visible name = true /\ Forall (fun x => x <> x3a) name.
Proof.
  unfold is_name. intros H. split.
  - apply forallb_forall. intros x Hx.
    apply (proj1 (forallb_forall _ _) H) in Hx.
    apply andb_true_iff in Hx. tauto.
  - apply Forall_forall. intros x Hx.
    apply (proj1 (forallb_forall _ _) H) in Hx.
    apply andb_true_iff in Hx as [_ Hx]. intros ->. discriminate Hx.
Qed.

Lemma content_facts value :
  is_content value = true ->
  Forall (fun x => x <> x0d) value /\ Forall is_ascii value /\
  match value with [] => True | x :: _ => visible x = true end /\
  match rev value with [] => True | x :: _ => visible x = true end.
Proof.
  unfold is_content. rewrite !andb_true_iff. intros [[Ha Hf] Hl].
  assert (G : forall x, In x value -> x <> x0d /\ is_ascii x).
  { intros x Hx. apply (proj1 (forallb_forall _ _) Ha) in Hx.
    apply orb_true_iff in Hx as [Hx|Hx].
    - destruct (visible_facts x Hx) as (? & _ & _ & ?). auto.
    - apply byte_eqb_eq in Hx. subst x. exact blank_facts. }
  split; [apply Forall_forall; intros x Hx; apply G, Hx|].
  split; [apply Forall_forall; intros x Hx; apply G, Hx|].
  split; [destruct value; auto | destruct (rev value); auto].
Qed.

(** A written header line is read back as its name and its value. *)
Lemma field_pair_render name value :
  is_name name = true -> is_content value = true ->
  field_pair (render_field (name, value))
  = Some (field_key (text_of name), text_of value).
Proof.
  intros Hn Hv. destruct (name_facts name Hn) as [Hvis Hcolon].
  destruct (content_facts value Hv) as (_ & Hasc & Hfirst & Hlast).
  unfold field_pair, re_split_colon, render_field. cbn [fst snd].
  change (name ++ B ": " ++ value) with (name ++ [x3a] ++ x20 :: value).
  rewrite (find_sep_line x3a [] name (x20 :: value) Hcolon).
  assert (E1 : rskip_spaces name = name).
  { unfold rskip_spaces. rewrite skip_spaces_head; [apply rev_involutive|].
    destruct (rev name) as [|c r] eqn:E; [exact I|].
    apply visible_facts.
    apply (proj1 (forallb_forall _ _) Hvis). apply in_rev. rewrite E.
    left. reflexivity. }
  assert (E2 : skip_spaces (x20 :: value) = value).
  { change (skip_spaces (x20 :: value)) with (skip_spaces value).
    apply skip_spaces_head. destruct value as [|c r]; [exact I|].
    apply visible_facts, Hfirst. }
  rewrite E1, E2.
  rewrite (utf8_decode_ascii name)
    by (apply (Forall_visible _ name); [apply visible_facts | exact Hvis]).
  rewrite (utf8_decode_ascii value) by exact Hasc.
  fold (text_of name) (text_of value). do 2 f_equal.
  unfold strip, rstrip.
  rewrite (lstrip_head (text_of value)).
  - unfold text_of. rewrite <- map_rev. rewrite lstrip_head.
    + rewrite map_rev. apply rev_involutive.
    + destruct (rev value) as [|c r]; [exact I|]. apply visible_facts, Hlast.
  - destruct value as [|c r]; [exact I|]. apply visible_facts, Hfirst.
Qed.

Lemma render_field_plain name value :
  is_name name = true -> is_content value = true ->
  plain_line (render_field (name, value)).
Proof.
  intros Hn Hv. destruct (name_facts name Hn) as [Hvis _].
  destruct (content_facts value Hv) as (Hcr & _).
  unfold render_field. cbn [fst snd]. split.
  - destruct name; discriminate.
  - repeat (apply Forall_app; split); try exact Hcr.
    + apply (Forall_visible _ name); [apply visible_facts | exact Hvis].
    + repeat constructor; discriminate.
Qed.

Lemma store_fields_pairs fields : forall kvs h,
  map field_pair fields = map Some kvs ->
  store_fields h fields = Ok (fold_left put_field kvs h).
Proof.
  induction fields as [|field more IH]; intros [|[k v] kvs] h H;
    try discriminate; [reflexivity|].
  cbn [map] in H. injection H as Hf Hm. cbn [store_fields fold_left].
  unfold field_pair in Hf.
  destruct (re_split_colon field) as [|i0 [|i1 rest]]; try discriminate.
  destruct (utf8_decode i0) as [k0|] eqn:E0; [|discriminate].
  destruct (utf8_decode i1) as [v0|] eqn:E1; [|discriminate].
  injection Hf as <- <-.
  rewrite (store_field_Ok h i0 i1 rest k0 v0 E0 E1). cbn [rbind].
  apply IH, Hm.
Qed.

(** A written message with a classified start line is read back. *)
Lemma written_message_decodes unicode_decimal chardet_detect codec_decode
      startline A B' C receipt h0 field fields body :
  plain_line startline ->
  re_split_spaces 2 startline = [A; B'; C] ->
  read_start_line unicode_decimal A B' C = Ok (receipt, h0) ->
  Forall (fun nv => is_name (fst nv) = true /\ is_content (snd nv) = true)
    (field :: fields) ->
  read_http_packet unicode_decimal chardet_detect codec_decode
    (startline ++ CRLF ++ join_crlf (map render_field (field :: fields))
       ++ CRLF ++ CRLF ++ body)
  = (decoded <- _read_http_body chardet_detect codec_decode body ;;
     Ok (VDict
           [(U "receipt", VStr receipt);
            (U "header",
             VDict
               (fold_left put_field
                  (map (fun nv => (field_key (text_of (fst nv)),
                                   text_of (snd nv)))
                     (field :: fields))
                  h0));
            (U "body", or_None decoded)])).
Proof.
  intros Hstart Hparts Hclass Hf.
  set (lines := map render_field (field :: fields)).
  assert (Hlines : Forall plain_line lines).
  { unfold lines. apply Forall_forall. intros line Hl.
    apply in_map_iff in Hl as ([n v] & <- & Hin).
    destruct (proj1 (Forall_forall _ _) Hf (n, v) Hin) as [Hn Hv].
    apply render_field_plain; assumption. }
  assert (Esplit : split1 (CRLF ++ CRLF)
                     (startline ++ CRLF ++ join_crlf lines
                        ++ CRLF ++ CRLF ++ body)
                   = [join_crlf (startline :: lines); body]).
  { replace (startline ++ CRLF ++ join_crlf lines ++ CRLF ++ CRLF ++ body)
      with (join_crlf (startline :: lines) ++ CRLF ++ CRLF ++ body).
    - exact (split1_blank_line lines startline body
               (Forall_cons _ Hstart Hlines)).
    - unfold lines. cbn [map]. rewrite join_crlf_cons.
      repeat rewrite <- app_assoc. reflexivity. }
  assert (Ehead : split1 CRLF (join_crlf (startline :: lines))
                  = [startline; join_crlf lines])
    by exact (split1_first_line startline (join_crlf lines) (proj2 Hstart)).
  assert (Efields : split_crlf (join_crlf lines) = lines)
    by (unfold lines; cbn [map]; apply split_crlf_join; exact Hlines).
  assert (Epairs : map field_pair lines
                   = map Some
                       (map (fun nv => (field_key (text_of (fst nv)),
                                        text_of (snd nv)))
                          (field :: fields))).
  { unfold lines. rewrite !map_map. apply map_ext_in. intros [n v] Hin.
    destruct (proj1 (Forall_forall _ _) Hf (n, v) Hin) as [Hn Hv].
    cbn [fst snd]. apply field_pair_render; assumption. }
  rewrite (read_http_packet_split _ _ _ _ _ _ Esplit).
  rewrite (_read_http_header_split _ _ _ _ _ _ _ Ehead Hparts).
  rewrite Hclass. cbn [rbind snd fst]. rewrite Efields.
  rewrite (store_fields_pairs lines _ _ Epairs). reflexivity.
Qed.

(** X10. Every request written in the plain form is read back in full: a
    method of the eight, a target of visible octets, a version of two
    digits, at least one header line [name: value] (names of visible octets
    without a colon, values of visible octets and inner blanks) and any
    body.  The header never makes the decoder raise; the decoder raises
    only what decoding the body raises, and otherwise the record holds
    receipt "request", the three parts of the request line, the fields
    stored in line order under their keys, and the body entry of that
    body. *)
Theorem http_request_round_trip unicode_decimal chardet_detect codec_decode
    method target d1 d2 field fields body :
  In method methods -> is_target target = true ->
  re_digit d1 = true -> re_digit d2 = true ->
  Forall (fun nv => is_name (fst nv) = true /\ is_content (snd nv) = true)
    (field :: fields) ->
  read_http_packet unicode_decimal chardet_detect codec_decode
    (render_request method target d1 d2 (field :: fields) body)
  = (decoded <- _read_http_body chardet_detect codec_decode body ;;
     Ok (VDict
           [(U "receipt", VStr (U "request"));
            (U "header",
             VDict
               (fold_left put_field
                  (map (fun nv => (field_key (text_of (fst nv)),
                                   text_of (snd nv)))
                     (field :: fields))
                  (request_record (text_of method) (text_of target)
                     (text_of [d1; x2e; d2]))));
            (U "body", or_None decoded)])).
Proof.
  intros Hm Ht H1 H2 Hf.
  destruct (method_facts method Hm) as (Hre & _ & _ & Hascii).
  pose proof Ht as Ht'. unfold is_target in Ht'.
  apply andb_true_iff in Ht' as [Hv _].
  replace (render_request method target d1 d2 (field :: fields) body)
    with ((method ++ B " " ++ target ++ B " " ++ B "HTTP/" ++ [d1; x2e; d2])
            ++ CRLF ++ join_crlf (map render_field (field :: fields))
            ++ CRLF ++ CRLF ++ body)
    by (unfold render_request; repeat rewrite <- app_assoc; reflexivity).
  apply (written_message_decodes unicode_decimal chardet_detect codec_decode
           _ method target (B "HTTP/" ++ [d1; x2e; d2])).
  - apply request_line_plain; assumption.
  - apply request_line_parts; assumption.
  - apply (start_line_request unicode_decimal method target
             (B "HTTP/" ++ [d1; x2e; d2]) (text_of method) (text_of target)
             d1 d2 [] Hre eq_refl H1 H2 (utf8_decode_ascii method Hascii)).
    apply utf8_decode_ascii.
    apply (Forall_visible _ target); [apply visible_facts | exact Hv].
  - exact Hf.
Qed.

Lemma http_request_round_trip_witness :
  read_http_packet no_digits no_charset no_codec s4_payload = Ok s4_info.
Proof.
  apply (http_request_round_trip no_digits no_charset no_codec
           (B "GET") (B "/index.html") x31 x31
           (B "Host", B "example.com") [(B "Accept", B "*/*")] []);
    try reflexivity.
  - left. reflexivity.
  - repeat constructor.
Defined.

Lemma digit_facts d :
  re_digit d = true ->
  d <> x0d /\ re_space d = false /\ is_ascii d /\ 0 <= digit_of d <= 9.
Proof.
  destruct d; intros H; try discriminate H; repeat split;
    try discriminate; unfold digit_of; simpl; lia.
Qed.

(** [int] on a text of three digits. *)
Lemma py_int_three_digits unicode_decimal s1 s2 s3 :
  re_digit s1 = true -> re_digit s2 = true -> re_digit s3 = true ->
  py_int unicode_decimal (text_of [s1; s2; s3])
  = Some (100 * digit_of s1 + 10 * digit_of s2 + digit_of s3).
Proof.
  intros H1 H2 H3.
  assert (D : forall d, re_digit d = true ->
                        int_space (Byte.to_N d) = false /\
                        Byte.to_N d <> 43%N /\ Byte.to_N d <> 45%N /\
                        (Byte.to_N d =? 95)%N = false /\
                        digit_value unicode_decimal (Byte.to_N d)
                        = Some (digit_of d)).
  { intros d Hd. destruct d; try discriminate Hd; repeat split; discriminate. }
  destruct (D s1 H1) as (A1 & B1 & C1 & U1 & V1).
  destruct (D s2 H2) as (A2 & _ & _ & U2 & V2).
  destruct (D s3 H3) as (A3 & _ & _ & U3 & V3).
  unfold py_int, text_of. cbn [map int_lstrip]. rewrite A1.
  cbn [rev app int_lstrip]. rewrite A3. cbn [rev app].
  destruct (Byte.to_N s1) as [|p] eqn:E1; [discriminate V1|].
  assert (Hp : forall r, match N.pos p :: r with
                         | 43%N :: r0 => int_digits unicode_decimal 0 false r0
                         | 45%N :: r0 =>
                             option_map Z.opp
                               (int_digits unicode_decimal 0 false r0)
                         | t => int_digits unicode_decimal 0 false t
                         end
                         = int_digits unicode_decimal 0 false (N.pos p :: r)).
  { intros r.
    repeat (destruct p as [p|p|]; try reflexivity); congruence. }
  rewrite Hp. cbn [int_digits]. rewrite U1, V1, U2, V2, U3, V3.
  f_equal. lia.
Qed.

(** The status line of a written message splits into its three parts. *)
Lemma status_line_parts d1 d2 s1 s2 s3 phrase :
  re_digit d1 = true -> re_digit d2 = true ->
  re_digit s1 = true -> re_digit s2 = true -> re_digit s3 = true ->
  is_content phrase = true ->
  re_split_spaces 2
    (B "HTTP/" ++ [d1; x2e; d2] ++ B " " ++ [s1; s2; s3] ++ B " " ++ phrase)
  = [B "HTTP/" ++ [d1; x2e; d2]; [s1; s2; s3]; phrase].
Proof.
  intros H1 H2 S1 S2 S3 Hp.
  destruct (digit_facts d1 H1) as (_ & N1 & _).
  destruct (digit_facts d2 H2) as (_ & N2 & _).
  destruct (digit_facts s1 S1) as (_ & M1 & _).
  destruct (digit_facts s2 S2) as (_ & M2 & _).
  destruct (digit_facts s3 S3) as (_ & M3 & _).
  destruct (content_facts phrase Hp) as (_ & _ & Hfirst & _).
  change (B "HTTP/" ++ [d1; x2e; d2] ++ B " " ++ [s1; s2; s3] ++ B " " ++ phrase)
    with ((B "HTTP/" ++ [d1; x2e; d2])
            ++ x20 :: ([s1; s2; s3] ++ x20 :: phrase)).
  cbn [re_split_spaces].
  rewrite (find_spaces_token (B "HTTP/" ++ [d1; x2e; d2]))
    by (repeat constructor; assumption).
  rewrite (skip_spaces_head ([s1; s2; s3] ++ x20 :: phrase)) by exact M1.
  rewrite (find_spaces_token [s1; s2; s3]) by (repeat constructor; assumption).
  rewrite (skip_spaces_head phrase); [reflexivity|].
  destruct phrase as [|c r]; [exact I|]. apply visible_facts, Hfirst.
Qed.

Lemma status_line_plain d1 d2 s1 s2 s3 phrase :
  re_digit d1 = true -> re_digit d2 = true ->
  re_digit s1 = true -> re_digit s2 = true -> re_digit s3 = true ->
  is_content phrase = true ->
  plain_line
    (B "HTTP/" ++ [d1; x2e; d2] ++ B " " ++ [s1; s2; s3] ++ B " " ++ phrase).
Proof.
  intros H1 H2 S1 S2 S3 Hp.
  destruct (content_facts phrase Hp) as (Hcr & _).
  split; [discriminate|].
  repeat (apply Forall_app; split); try exact Hcr;
    repeat constructor; try discriminate;
    apply digit_facts; assumption.
Qed.

(** X11. Every response written in the plain form is read back in full: a
    version of two digits, a status code of three digits, a reason phrase,
    at least one header line and any body.  The header never makes the
    decoder raise; the decoder raises only what decoding the body raises,
    and otherwise the record holds receipt "response", the version, the
    status as the number the three digits spell, the phrase, the fields in
    line order and the body entry. *)
Theorem http_response_round_trip unicode_decimal chardet_detect codec_decode
    d1 d2 s1 s2 s3 phrase field fields body :
  re_digit d1 = true -> re_digit d2 = true ->
  re_digit s1 = true -> re_digit s2 = true -> re_digit s3 = true ->
  is_content phrase = true ->
  Forall (fun nv => is_name (fst nv) = true /\ is_content (snd nv) = true)
    (field :: fields) ->
  read_http_packet unicode_decimal chardet_detect codec_decode
    (render_response d1 d2 s1 s2 s3 phrase (field :: fields) body)
  = (decoded <- _read_http_body chardet_detect codec_decode body ;;
     Ok (VDict
           [(U "receipt", VStr (U "response"));
            (U "header",
             VDict
               (fold_left put_field
                  (map (fun nv => (field_key (text_of (fst nv)),
                                   text_of (snd nv)))
                     (field :: fields))
                  (response_record (text_of [d1; x2e; d2])
                     (100 * digit_of s1 + 10 * digit_of s2 + digit_of s3)
                     (text_of phrase))));
            (U "body", or_None decoded)])).
Proof.
  intros H1 H2 S1 S2 S3 Hp Hf.
  destruct (content_facts phrase Hp) as (_ & Hascii & _).
  replace (render_response d1 d2 s1 s2 s3 phrase (field :: fields) body)
    with ((B "HTTP/" ++ [d1; x2e; d2] ++ B " " ++ [s1; s2; s3] ++ B " "
             ++ phrase)
            ++ CRLF ++ join_crlf (map render_field (field :: fields))
            ++ CRLF ++ CRLF ++ body)
    by (unfold render_response; repeat rewrite <- app_assoc; reflexivity).
  apply (written_message_decodes unicode_decimal chardet_detect codec_decode
           _ (B "HTTP/" ++ [d1; x2e; d2]) [s1; s2; s3] phrase).
  - apply status_line_plain; assumption.
  - apply status_line_parts; assumption.
  - rewrite (start_line_response unicode_decimal
               (B "HTTP/" ++ [d1; x2e; d2]) [s1; s2; s3] phrase
               (text_of [s1; s2; s3]) (text_of phrase) d1 d2 []).
    + rewrite (py_int_three_digits unicode_decimal s1 s2 s3 S1 S2 S3).
      reflexivity.
    + reflexivity.
    + reflexivity.
    + exact H1.
    + exact H2.
    + simpl. rewrite S1, S2, S3. reflexivity.
    + apply utf8_decode_ascii. repeat constructor; apply digit_facts;
        assumption.
    + apply utf8_decode_ascii, Hascii.
  - exact Hf.
Qed.

Lemma http_response_round_trip_witness :
  read_http_packet no_digits no_charset no_codec
    (B "HTTP/1.0 200 OK" ++ CRLF ++ B "Set-Cookie: a=1" ++ CRLF
       ++ B "Set-Cookie: b=2" ++ CRLF ++ CRLF)
  = Ok (VDict
          [(U "receipt", VStr (U "response"));
           (U "header",
            VDict (response_record (U "1.0") 200 (U "OK")
                     ++ [(U "Set-Cookie",
                          VTuple [VStr (U "a=1"); VStr (U "b=2")])]));
           (U "body", VNone)]).
Proof.
  apply (http_response_round_trip no_digits no_charset no_codec
           x31 x30 x32 x30 x30 (B "OK")
           (B "Set-Cookie", B "a=1") [(B "Set-Cookie", B "b=2")] []);
    try reflexivity.
  repeat constructor.
Defined.

(** X12. A message without any header line is rejected, whatever its start
    line: when the blank line follows the first line directly, the header
    block holds no line break and the decoder raises ProtocolError
    'HTTP: invalid format'; so it does for [GET / HTTP/1.1] followed by the
    blank line. *)
Theorem http_no_header_line_rejected unicode_decimal chardet_detect
    codec_decode startline body :
  Forall (fun x => x <> x0d) startline ->
  read_http_packet unicode_decimal chardet_detect codec_decode
    (startline ++ CRLF ++ CRLF ++ body)
  = Raise invalid_format.
Proof.
  intros H. unfold read_http_packet, split1.
  change (find_sep (CRLF ++ CRLF) (startline ++ CRLF ++ CRLF ++ body))
    with (find_sep [x0d; x0a; x0d; x0a]
            (startline ++ [x0d; x0a; x0d; x0a] ++ body)).
  rewrite (find_sep_line x0d [x0a; x0d; x0a] startline body H).
  unfold _read_http_header, split1.
  assert (E : find_sep CRLF startline = None).
  { apply find_sep_None. intros a b E.
    assert (K : In x0d startline)
      by (rewrite E; apply in_or_app; right; left; reflexivity).
    exact (proj1 (Forall_forall _ _) H x0d K eq_refl). }
  rewrite E. reflexivity.
Qed.

Lemma http_no_header_line_rejected_witness :
  read_http_packet no_digits no_charset no_codec
    (B "GET / HTTP/1.1" ++ CRLF ++ CRLF)
  = Raise invalid_format.
Proof.
  apply (http_no_header_line_rejected no_digits no_charset no_codec
           (B "GET / HTTP/1.1") []).
  repeat constructor; discriminate.
Defined.

(** *** White space in the start line and around the colon *)

Lemma skip_spaces_run ws rest :
  Forall (fun x => re_space x = true) ws ->
  skip_spaces (ws ++ rest) = skip_spaces rest.
Proof.
  induction 1 as [|c l Hc _ IH]; [reflexivity|].
  cbn [app skip_spaces]. rewrite Hc. exact IH.
Qed.

Lemma rskip_spaces_run s ws :
  Forall (fun x => re_space x = true) ws ->
  rskip_spaces (s ++ ws) = rskip_spaces s.
Proof.
  intros H. unfold rskip_spaces. rewrite rev_app_distr.
  rewrite skip_spaces_run; [reflexivity|].
  apply Forall_rev. exact H.
Qed.

Lemma find_spaces_run token c ws rest :
  Forall (fun x => re_space x = false) token ->
  re_space c = true ->
  Forall (fun x => re_space x = true) ws ->
  find_spaces (token ++ (c :: ws) ++ rest) = Some (token, skip_spaces rest).
Proof.
  intros Ht Hc Hws. induction Ht as [|x l Hx _ IH].
  - cbn [app find_spaces]. rewrite Hc, (skip_spaces_run ws rest Hws).
    reflexivity.
  - cbn [app find_spaces] in *. rewrite Hx, IH. reflexivity.
Qed.

(** X13. The parameters of a start line may be set apart by any run of
    blanks, tabs and other white space: two parameters free of white space,
    each followed by such a run, and a rest that begins with another octet
    are split into exactly these three parts, the third keeping the white
    space inside it. *)
Theorem http_start_line_white_space A c1 ws1 B' c2 ws2 c rest :
  Forall (fun x => re_space x = false) A ->
  Forall (fun x => re_space x = false) (B' ++ [c]) ->
  B' <> [] ->
  Forall (fun x => re_space x = true) (c1 :: ws1 ++ c2 :: ws2) ->
  re_split_spaces 2 (A ++ (c1 :: ws1) ++ B' ++ (c2 :: ws2) ++ c :: rest)
  = [A; B'; c :: rest].
Proof.
  intros HA HB Hne Hws.
  apply Forall_app in HB as [HB Hc]. inversion Hc as [|x l Hc' _]; subst.
  inversion Hws as [|x l Hc1 Hws']; subst.
  apply Forall_app in Hws' as [Hws1 Hws2].
  inversion Hws2 as [|x l Hc2 Hws2']; subst.
  cbn [re_split_spaces].
  rewrite (find_spaces_run A c1 ws1 _ HA Hc1 Hws1).
  rewrite (skip_spaces_head (B' ++ _))
    by (destruct B' as [|b r]; [congruence | inversion HB; assumption]).
  rewrite (find_spaces_run B' c2 ws2 _ HB Hc2 Hws2').
  rewrite (skip_spaces_head (c :: rest)) by exact Hc'.
  reflexivity.
Qed.

Lemma http_start_line_white_space_witness :
  re_split_spaces 2 (B "HTTP/1.1" ++ [x20; x20] ++ B "404" ++ [x09; x20]
                       ++ B "Not Found")
  = [B "HTTP/1.1"; B "404"; B "Not Found"].
Proof.
  apply (http_start_line_white_space (B "HTTP/1.1") x20 [x20] (B "404")
           x09 [x20] x4e (B "ot Found"));
    try (repeat constructor; fail).
  discriminate.
Defined.

(** X14. White space around the colon of a header line does not count:
    for a name without a colon, the line with runs of blanks and tabs
    before and after the colon is split into the same two parts, and so
    stored under the same key with the same value, as the line without
    them. *)
Theorem http_colon_white_space name ws1 ws2 value :
  Forall (fun x => x <> x3a) name ->
  Forall (fun x => re_space x = true) ws1 ->
  Forall (fun x => re_space x = true) ws2 ->
  re_split_colon (name ++ ws1 ++ [x3a] ++ ws2 ++ value)
  = re_split_colon (name ++ [x3a] ++ value) /\
  field_pair (name ++ ws1 ++ [x3a] ++ ws2 ++ value)
  = field_pair (name ++ [x3a] ++ value).
Proof.
  intros Hn H1 H2.
  assert (E : re_split_colon (name ++ ws1 ++ [x3a] ++ ws2 ++ value)
              = re_split_colon (name ++ [x3a] ++ value)).
  { unfold re_split_colon.
    rewrite (find_sep_line x3a [] name value Hn).
    assert (Hn1 : Forall (fun x => x <> x3a) (name ++ ws1)).
    { apply Forall_app. split; [exact Hn|].
      apply Forall_forall. intros x Hx ->.
      pose proof (proj1 (Forall_forall _ _) H1 x3a Hx) as K. discriminate K. }
    rewrite app_assoc.
    rewrite (find_sep_line x3a [] (name ++ ws1) (ws2 ++ value) Hn1).
    rewrite (rskip_spaces_run name ws1 H1), (skip_spaces_run ws2 value H2).
    reflexivity. }
  split; [exact E|]. unfold field_pair. rewrite E. reflexivity.
Qed.

Lemma http_colon_white_space_witness :
  field_pair (B "Host" ++ [x20; x09] ++ [x3a] ++ [x20; x20] ++ B "example.com")
  = field_pair (B "Host" ++ [x3a] ++ B "example.com").
Proof.
  apply (http_colon_white_space (B "Host") [x20; x09] [x20; x20]
           (B "example.com")); repeat constructor; discriminate.
Defined.

End HTTPExtra.

(** ** ARP: octets read, failure, addresses and ranges *)

Module ARPExtra.
Import ARP ARPSpec.

Lemma hex_octet_read_back x :
  hex_value (hex_digit (Byte.to_N x / 16)) = Some (Byte.to_N x / 16)%N /\
  hex_value (hex_digit (Byte.to_N x mod 16)) = Some (Byte.to_N x mod 16)%N /\
  Byte.of_N (Byte.to_N x / 16 * 16 + Byte.to_N x mod 16) = Some x.
Proof. destruct x; repeat split. Qed.

(** Reading a MAC text back gives the octets it was made from. *)
Lemma parse_mac_text b : parse_mac (mac_text b) = Some b.
Proof.
  rewrite mac_text_octets. induction b as [|x r IH]; [reflexivity|].
  destruct (hex_octet_read_back x) as (Hh & Hl & Hx).
  destruct r as [|y r'].
  - cbn [map String.concat hex_octet parse_mac]. rewrite Hh, Hl, Hx.
    reflexivity.
  - change (String.concat ":" (map hex_octet (x :: y :: r')))
      with (String (hex_digit (Byte.to_N x / 16))
              (String (hex_digit (Byte.to_N x mod 16))
                 (String ":" (String.concat ":" (map hex_octet (y :: r')))))).
    cbn [parse_mac]. rewrite Hh, Hl, Hx.
    destruct (String.concat ":" (map hex_octet (y :: r'))) as [|a t] eqn:E.
    + destruct r'; discriminate E.
    + rewrite IH. reflexivity.
Qed.

Lemma mac_text_length b :
  String.length (mac_text b) = (3 * List.length b - 1)%nat.
Proof.
  rewrite mac_text_octets. induction b as [|x r IH]; [reflexivity|].
  destruct r as [|y r']; [reflexivity|].
  change (String.concat ":" (map hex_octet (x :: y :: r')))
    with (String (hex_digit (Byte.to_N x / 16))
            (String (hex_digit (Byte.to_N x mod 16))
               (String ":" (String.concat ":" (map hex_octet (y :: r')))))).
  cbn [String.length]. rewrite IH. cbn [List.length]. lia.
Qed.

(** X17. The text of a hardware address loses nothing.  The colon-joined
    hex of [_read_addr_resolve] turns n octets into a text of 3n - 1
    characters (none for no octet) that reads back to these very octets, so
    two different octet strings never share a text; this holds for any
    number of octets, six or fewer. *)
Theorem arp_mac_text_read_back b :
  parse_mac (mac_text b) = Some b /\
  String.length (mac_text b) = (3 * List.length b - 1)%nat /\
  (forall b', mac_text b = mac_text b' -> b = b').
Proof.
  split; [apply parse_mac_text|]. split; [apply mac_text_length|].
  intros b' H.
  pose proof (parse_mac_text b) as K. rewrite H, parse_mac_text in K.
  congruence.
Qed.

Lemma arp_mac_text_read_back_witness :
  mac_text [xaa; xbb; xcc] = "aa:bb:cc"%string /\
  parse_mac "aa:bb:cc" = Some [xaa; xbb; xcc] /\
  parse_mac "aa:bb:cc:dd:ee:ff" = Some [xaa; xbb; xcc; xdd; xee; xff].
Proof.
  split; [reflexivity|]. split.
  - exact (proj1 (arp_mac_text_read_back [xaa; xbb; xcc])).
  - exact (proj1 (arp_mac_text_read_back [xaa; xbb; xcc; xdd; xee; xff])).
Defined.

End ARPExtra.

(** ** Internet-layer dispatch: the names with a decoder, and the end of the
    file *)

Module InternetExtra.
Import Internet InternetSpec.

Section Dispatch.
Variables Info ProtoChain : Type.
Variables IPv4 IPv6 AH TCP UDP : M (Info * ProtoChain * Z).

Let import := _import_next_layer Info ProtoChain IPv4 IPv6 AH TCP UDP.

(** X19. Of the five protocols the module's EtherType table names, the
    dispatch has a decoder for IPv4 and IPv6 only: for these the result is
    whatever the decoder class yields on the file; ARP, RARP and IPX are
    not decoded but returned whole as an undecoded payload. *)
Theorem ethertype_names_dispatch key name f :
  registry_get ETHERTYPE key = Some name ->
  (key = "0800"%string ->
   import (Some name) f = instantiate Info ProtoChain IPv4 f) /\
  (key = "86dd"%string ->
   import (Some name) f = instantiate Info ProtoChain IPv6 f) /\
  (key <> "0800"%string -> key <> "86dd"%string ->
   import (Some name) f
   = Ok (Undecoded (bytes_or_None (unread f)), advance (remaining f) f)).
Proof.
  intros H. unfold ETHERTYPE in H. cbn [registry_get] in H.
  destruct (String.eqb_spec key "0806");
    [injection H as <-; subst key; repeat split; intros; try discriminate;
     reflexivity|].
  destruct (String.eqb_spec key "8035");
    [injection H as <-; subst key; repeat split; intros; try discriminate;
     reflexivity|].
  destruct (String.eqb_spec key "0800");
    [injection H as <-; subst key; repeat split; intros; try congruence;
     reflexivity|].
  destruct (String.eqb_spec key "8137");
    [injection H as <-; subst key; repeat split; intros; try discriminate;
     reflexivity|].
  destruct (String.eqb_spec key "86dd");
    [injection H as <-; subst key; repeat split; intros; try congruence;
     reflexivity|].
  discriminate H.
Qed.

(** X20. The fall-through branch leaves the file at its end, so it is
    idempotent: once a name without a decoder has been dispatched, the
    dispatch of any further such name reads nothing, moves nothing and
    returns [None] for the payload. *)
Theorem fall_through_twice proto1 proto2 f data1 f1 :
  has_decoder proto1 = false -> has_decoder proto2 = false ->
  import proto1 f = Ok (Undecoded data1, f1) ->
  exists f2,
    import proto2 f1 = Ok (Undecoded None, f2) /\
    position f2 = position f1 /\ buffer f2 = buffer f1 /\
    unread f1 = [].
Proof.
  intros D1 D2 H. unfold has_decoder in D1, D2.
  repeat (apply orb_false_elim in D1; destruct D1 as [D1 ?]).
  repeat (apply orb_false_elim in D2; destruct D2 as [D2 ?]).
  unfold import, _import_next_layer in *.
  repeat match goal with
         | E : proto_is _ _ = false |- _ => rewrite E in *; clear E
         end.
  apply bind_Ok in H as (d & f0 & Hd & Hr).
  unfold file_read_all in Hd. injection Hd as <- <-.
  unfold ret in Hr. injection Hr as _ <-.
  assert (E : unread (advance (remaining f) f) = []).
  { apply length_zero_iff_nil. fold (remaining (advance (remaining f) f)).
    rewrite remaining_advance. lia. }
  exists (advance (remaining (advance (remaining f) f)) (advance (remaining f) f)).
  split; [|split; [|split]].
  - unfold bind, file_read_all, ret. rewrite E. reflexivity.
  - unfold remaining at 1. rewrite E. simpl. lia.
  - reflexivity.
  - exact E.
Qed.

End Dispatch.

Lemma ethertype_names_dispatch_witness :
  sample_import (Some "IPX"%string) (mkBytesIO [x45; x00; x01; x02; x03] 2)
  = Ok (Undecoded (Some [x01; x02; x03]),
        mkBytesIO [x45; x00; x01; x02; x03] 5).
Proof.
  apply (ethertype_names_dispatch unit unit no_decoder no_decoder no_decoder
           no_decoder no_decoder "8137"%string "IPX"%string
           (mkBytesIO [x45; x00; x01; x02; x03] 2) eq_refl);
    discriminate.
Defined.

Lemma fall_through_twice_witness :
  exists f2,
    sample_import None (mkBytesIO [x45; x00; x01; x02; x03] 5)
    = Ok (Undecoded None, f2) /\
    position f2 = 5%nat /\ buffer f2 = [x45; x00; x01; x02; x03] /\
    unread (mkBytesIO [x45; x00; x01; x02; x03] 5) = [].
Proof.
  exact (fall_through_twice unit unit no_decoder no_decoder no_decoder
           no_decoder no_decoder (Some "ICMP"%string) None
           (mkBytesIO [x45; x00; x01; x02; x03] 2)
           (Some [x01; x02; x03]) (mkBytesIO [x45; x00; x01; x02; x03] 5)
           eq_refl eq_refl eq_refl).
Defined.

End InternetExtra.
